(** * BuildGradleMigrator: a shallow embedding of [build_gradle_migrator.py]

    Definitions come first, in the order of the Python module:
    - [PyStr]: the [str] methods the migrator calls ([strip], [startswith],
      [endswith], [count], [in], [lower], [join]) and its one regular
      expression;
    - [PyDict]: an insertion-ordered dictionary, as Python's [dict] is;
    - [Loop]: a fuelled [while];
    - [Scanner]: [identify_sections] and [_determine_section_type];
    - [Migrator]: the file store, the exception monad and the methods of
      class [BuildGradleMigrator];
    - [ScannerInvariants], [MergeEffects], [AsSpecified], [Examples]: the
      loop invariants, the effect of one merge step written out, two notions
      in the words of the specification, and concrete build files.
    Lemmas and theorems follow: loops and dictionaries, the scanner, the
    meaningful-line filter, the validator, the merge steps, the whole run.

    Characters are code points below 256 ([ascii]).  A text file is the
    [string] that Python's text layer hands to the program; a set of strings
    is a [gset string], iterated in an order that is a parameter. *)

From Stdlib Require Import ZArith String Ascii List Lia DecimalString Permutation.
From stdpp Require Import base option list gmap strings.

Local Open Scope string_scope.
Local Open Scope list_scope.

(* ===================================================================== *)
(** * Python strings *)
(* ===================================================================== *)

Module PyStr.

Definition LF : ascii := ascii_of_nat 10.
Definition nl : string := String LF EmptyString.

(** [str.isspace] on one character, for code points below 256:
    TAB..CR, FS..US, SPACE, NEL and NBSP. *)
Definition isspace (c : ascii) : bool :=
  let n := N_of_ascii c in
  ((9 <=? n) && (n <=? 13) || (28 <=? n) && (n <=? 32)
   || (n =? 133) || (n =? 160))%N.

Fixpoint lstrip (s : string) : string :=
  match s with
  | EmptyString => EmptyString
  | String c s' => if isspace c then lstrip s' else s
  end.

Fixpoint rstrip (s : string) : string :=
  match s with
  | EmptyString => EmptyString
  | String c s' =>
      match rstrip s' with
      | EmptyString => if isspace c then EmptyString else String c EmptyString
      | r => String c r
      end
  end.

(** [s.strip()] *)
Definition strip (s : string) : string := rstrip (lstrip s).

(** [s.startswith(p)] *)
Definition startswith (s p : string) : bool := String.prefix p s.

(** [s.endswith(p)]: [p] is one of the suffixes of [s]. *)
Fixpoint endswith (s p : string) : bool :=
  String.eqb s p ||
  match s with
  | EmptyString => false
  | String _ s' => endswith s' p
  end.

(** [s.count(c)] for a one-character [c]. *)
Fixpoint count (c : ascii) (s : string) : nat :=
  match s with
  | EmptyString => 0
  | String d s' => (if Ascii.eqb d c then 1 else 0) + count c s'
  end.

(** [c in s] for a one-character [c]. *)
Fixpoint contains (c : ascii) (s : string) : bool :=
  match s with
  | EmptyString => false
  | String d s' => Ascii.eqb d c || contains c s'
  end.

(** [bool(s)]: a string is truthy when it is not empty. *)
Definition truthy (s : string) : bool :=
  match s with EmptyString => false | _ => true end.

Definition in_range (lo hi : N) (c : ascii) : bool :=
  let n := N_of_ascii c in ((lo <=? n) && (n <=? hi))%N.

Definition is_upper (c : ascii) : bool := in_range 65 90 c.
Definition is_lower (c : ascii) : bool := in_range 97 122 c.
Definition is_digit (c : ascii) : bool := in_range 48 57 c.

(** [str.lower] on one character (code points below 256). *)
Definition lower_char (c : ascii) : ascii :=
  if is_upper c || in_range 192 214 c || in_range 216 222 c
  then ascii_of_N (N_of_ascii c + 32)
  else c.

Fixpoint lower (s : string) : string :=
  match s with
  | EmptyString => EmptyString
  | String c s' => String (lower_char c) (lower s')
  end.

(** The pattern of a section start is an identifier, [a-zA-Z_] and then
    any number of [a-zA-Z0-9_], optional white space and an opening brace,
    matched at the start of the line.  Its character classes: *)
Definition ident_start (c : ascii) : bool :=
  is_lower c || is_upper c || Ascii.eqb c "_".
Definition ident_char (c : ascii) : bool :=
  ident_start c || is_digit c.

(** Longest prefix of identifier characters, and what follows it. *)
Fixpoint span_ident (s : string) : string * string :=
  match s with
  | EmptyString => (EmptyString, EmptyString)
  | String c s' =>
      if ident_char c
      then let '(w, r) := span_ident s' in (String c w, r)
      else (EmptyString, s)
  end.

(** [re.match] of the pattern above on [line], returning [group(1)].
    The greedy identifier never has to give characters back: what follows a shorter identifier is an identifier character, which
    is neither white space nor a brace. *)
Definition section_match (line : string) : option string :=
  match line with
  | EmptyString => None
  | String c rest =>
      if ident_start c then
        let '(w, after) := span_ident rest in
        match lstrip after with
        | String "{" _ => Some (String c w)
        | _ => None
        end
      else None
  end.

(** [str(n)] for a non-negative integer. *)
Definition str_of_nat (n : nat) : string :=
  NilEmpty.string_of_uint (Nat.to_uint n).

(** [str(z)] for an integer. *)
Definition str_of_int (z : Z) : string :=
  NilEmpty.string_of_int (Z.to_int z).

(** [''.join(parts)] *)
Definition join (parts : list string) : string :=
  fold_right String.append EmptyString parts.

(** [sep.join(parts)] *)
Definition join_with (sep : string) (parts : list string) : string :=
  String.concat sep parts.

End PyStr.

(* ===================================================================== *)
(** * Python dictionaries: insertion-ordered association lists *)
(* ===================================================================== *)

Module PyDict.

Definition dict (V : Type) : Type := list (string * V).

Section Ops.
Context {V : Type}.

Fixpoint get (k : string) (d : dict V) : option V :=
  match d with
  | [] => None
  | (k', v) :: d' => if String.eqb k k' then Some v else get k d'
  end.

(** [d[k] = v]: a key already present keeps its position and takes
    the new value; a new key goes last. *)
Fixpoint set (k : string) (v : V) (d : dict V) : dict V :=
  match d with
  | [] => [(k, v)]
  | (k', v') :: d' =>
      if String.eqb k k' then (k, v) :: d' else (k', v') :: set k v d'
  end.

Definition keys (d : dict V) : list string := map fst d.
Definition values (d : dict V) : list V := map snd d.
End Ops.

End PyDict.

(* ===================================================================== *)
(** * While loops *)
(* ===================================================================== *)

Module Loop.

Section While.
Context {S : Type}.
Variable cond : S -> bool.
Variable body : S -> option S.

(** [while cond: body].  [None] is a loop (or a loop inside its body)
    that has not finished within the fuel. *)
Fixpoint while (fuel : nat) (s : S) : option S :=
  if cond s then
    match fuel with
    | O => None
    | Datatypes.S fuel' =>
        match body s with
        | Some s' => while fuel' s'
        | None => None
        end
    end
  else Some s.
End While.

End Loop.

(* ===================================================================== *)
(** * The data model and the section scanner *)
(* ===================================================================== *)

Inductive SectionType : Type :=
| PLUGINS | DEPENDENCIES | REPOSITORIES | CONFIGURATIONS | TASKS
| ANDROID | JAVA | KOTLIN | CUSTOM.

Record GradleSection : Type := mkGradleSection {
  name : string;
  content : list string;
  start_line : nat;
  end_line : nat;
  section_type : SectionType;
  indentation : string
}.

Record MigrationChange : Type := mkMigrationChange {
  section_name : string;
  change_type : string;
  description : string;
  details : list string
}.

Module Scanner.
Import PyStr PyDict Loop.

Definition in_list (s : string) (l : list string) : bool :=
  existsb (String.eqb s) l.

Definition _determine_section_type (section_name : string) : SectionType :=
  let section_name_lower := lower section_name in
  if in_list section_name_lower ["plugins"; "plugin"] then PLUGINS
  else if in_list section_name_lower ["dependencies"; "dependency"] then DEPENDENCIES
  else if in_list section_name_lower ["repositories"; "repository"] then REPOSITORIES
  else if in_list section_name_lower ["configurations"; "configuration"] then CONFIGURATIONS
  else if in_list section_name_lower ["tasks"; "task"] then TASKS
  else if String.eqb section_name_lower "android" then ANDROID
  else if String.eqb section_name_lower "java" then JAVA
  else if String.eqb section_name_lower "kotlin" then KOTLIN
  else CUSTOM.

(** [lines[i]]; every use below is guarded by [i < len(lines)]. *)
Definition line_at (lines : list string) (i : nat) : string :=
  nth i lines EmptyString.

(** [line.count('{') - line.count('}')] *)
Definition net_braces (line : string) : Z :=
  Z.of_nat (count "{" line) - Z.of_nat (count "}" line).

(** State of the inner loop: [i], [brace_count], [content]. *)
Record capture_state : Type := mkCapture {
  cap_i : nat;
  brace_count : Z;
  cap_content : list string
}.

Definition capture_cond (lines : list string) (s : capture_state) : bool :=
  (cap_i s <? length lines)%nat && (0 <? brace_count s)%Z.

Definition capture_body (lines : list string) (s : capture_state)
  : option capture_state :=
  Some {| cap_content := cap_content s ++ [line_at lines (cap_i s)];
          brace_count := brace_count s + net_braces (line_at lines (cap_i s));
          cap_i := cap_i s + 1 |}.

(** State of the outer loop: [i], [sections]. *)
Record scan_state : Type := mkScan {
  scan_i : nat;
  sections : dict GradleSection
}.

Definition scan_cond (lines : list string) (s : scan_state) : bool :=
  (scan_i s <? length lines)%nat.

Definition scan_body (lines : list string) (s : scan_state)
  : option scan_state :=
  let i := scan_i s in
  let line := strip (line_at lines i) in
  if negb (truthy line) || startswith line "//" || startswith line "/*" then
    Some {| scan_i := i + 1; sections := sections s |}
  else
    match section_match line with
    | Some section_name =>
        let start_line := i in
        match while (capture_cond lines) (capture_body lines) (length lines)
                {| cap_i := i + 1; brace_count := 1;
                   cap_content := [line_at lines i] |} with
        | Some c =>
            Some {| scan_i := cap_i c;
                    sections :=
                      set section_name
                        {| name := section_name;
                           content := cap_content c;
                           start_line := start_line;
                           end_line := cap_i c - 1;
                           section_type := _determine_section_type section_name;
                           indentation := EmptyString |}
                        (sections s) |}
        | None => None
        end
    | None => Some {| scan_i := i + 1; sections := sections s |}
    end.

(** Opening braces minus closing braces, summed over the lines. *)
Definition content_net (lines : list string) : Z :=
  fold_right (fun line acc => (net_braces line + acc)%Z) 0%Z lines.

(** The value of [brace_count] after the lines of [content] have been
    consumed: 1 for the opening line, then the braces of the others. *)
Definition capture_count (content : list string) : Z :=
  (1 + content_net (tail content))%Z.

(** [lines[a], ..., lines[b]], both ends included. *)
Definition lines_between (lines : list string) (a b : nat) : list string :=
  take (b - a + 1) (drop a lines).

(** [identify_sections(lines)]; [None] only if a loop ran out of fuel. *)
Definition identify_sections (lines : list string)
  : option (dict GradleSection) :=
  option_map sections
    (while (scan_cond lines) (scan_body lines) (length lines)
       {| scan_i := 0; sections := [] |}).

End Scanner.

(* ===================================================================== *)
(** * The migrator: file store, exceptions and the class methods *)
(* ===================================================================== *)

Module Migrator.
Import PyStr PyDict Loop Scanner.

(** ** Text files *)

(** A file is kept as the text that its bytes decode to, on a system whose
    line separator is the newline.  The program opens every file in text
    mode and gives no [newline] argument: what it writes is stored as it is,
    and what it reads comes with universal newlines. *)

Definition CR : ascii := ascii_of_nat 13.

(** The text that a file opened with ['r'] hands out: a carriage return
    directly before a newline is dropped, every other carriage return is
    turned into a newline. *)
Fixpoint universal_newlines (text : string) : string :=
  match text with
  | EmptyString => EmptyString
  | String c text' =>
      if Ascii.eqb c CR then
        if startswith text' nl then universal_newlines text'
        else String LF (universal_newlines text')
      else String c (universal_newlines text')
  end.

(** A text cut after every newline, the newline kept; a last line without
    newline is a line too. *)
Fixpoint cut_lines (text : string) : list string :=
  match text with
  | EmptyString => []
  | String c text' =>
      if Ascii.eqb c LF then String c EmptyString :: cut_lines text'
      else match cut_lines text' with
           | [] => [String c EmptyString]
           | l :: ls => String c l :: ls
           end
  end.

(** [file.readlines()] on a file opened with ['r']. *)
Definition readlines (text : string) : list string :=
  cut_lines (universal_newlines text).

(** What [file.writelines(lines)] leaves in a file opened with ['w']. *)
Definition writelines (lines : list string) : string := join lines.

(** ** The object and the world around it *)

Record BuildGradleMigrator : Type := mkMigrator {
  build_source_gradle_path : string;
  build_target_gradle_path : string;
  source_sections : dict GradleSection;
  target_sections : dict GradleSection;
  migration_changes : list MigrationChange;
  validation_errors : list string
}.

(** [__init__] *)
Definition init (build_source_gradle_path build_target_gradle_path : string)
  : BuildGradleMigrator :=
  {| build_source_gradle_path := build_source_gradle_path;
     build_target_gradle_path := build_target_gradle_path;
     source_sections := [];
     target_sections := [];
     migration_changes := [];
     validation_errors := [] |}.

(** The files are kept by path: a file is known by the path under which the
    program opens it, and two different paths are two files. *)
Record World : Type := mkWorld {
  self : BuildGradleMigrator;
  fs : gmap string string;      (* path to text, for the files that exist *)
  stdout : list string
}.

Inductive exn : Type :=
| FileNotFoundError (msg : string)
| KeyError (key : string)
| Exception (msg : string).

(** [str(e)] *)
Definition str_exn (e : exn) : string :=
  match e with
  | FileNotFoundError msg => msg
  | KeyError key => "'" +:+ key +:+ "'"
  | Exception msg => msg
  end.

Inductive result (A : Type) : Type :=
| Ok (a : A)
| Raise (e : exn)
| Diverge.
Arguments Ok {A} a.
Arguments Raise {A} e.
Arguments Diverge {A}.

(** ** The monad of methods: world passing with exceptions *)

Definition M (A : Type) : Type := World -> result A * World.

#[export] Instance M_ret : MRet M := fun A a w => (Ok a, w).
#[export] Instance M_bind : MBind M := fun A B f m w =>
  match m w with
  | (Ok a, w') => f a w'
  | (Raise e, w') => (Raise e, w')
  | (Diverge, w') => (Diverge, w')
  end.

Definition raise {A} (e : exn) : M A := fun w => (Raise e, w).

(** [try: m except ... as e: h e] *)
Definition try_except {A} (m : M A) (h : exn -> M A) : M A := fun w =>
  match m w with
  | (Raise e, w') => h e w'
  | r => r
  end.

Definition get_self : M BuildGradleMigrator := fun w => (Ok (self w), w).
Definition modify_self (f : BuildGradleMigrator -> BuildGradleMigrator) : M unit :=
  fun w => (Ok tt, {| self := f (self w); fs := fs w; stdout := stdout w |}).

Definition of_loop {A} (o : option A) : M A := fun w =>
  match o with
  | Some a => (Ok a, w)
  | None => (Diverge, w)
  end.

Fixpoint for_each {A} (l : list A) (body : A -> M unit) : M unit :=
  match l with
  | [] => mret tt
  | x :: l' => body x ;; for_each l' body
  end.

Definition print (line : string) : M unit := fun w =>
  (Ok tt, {| self := self w; fs := fs w; stdout := stdout w ++ [line] |}).

(** [with open(path, 'w') as f: f.write(text)]: the text replaces what
    the file held, as it is. *)
Definition write_text (path text : string) : M unit := fun w =>
  (Ok tt, {| self := self w; fs := <[path := text]> (fs w); stdout := stdout w |}).

(** [d[k]] as an expression *)
Definition subscript {V} (d : dict V) (k : string) : M V :=
  match get k d with
  | Some v => mret v
  | None => raise (KeyError k)
  end.

Definition set_source_sections d (m : BuildGradleMigrator) :=
  {| build_source_gradle_path := build_source_gradle_path m;
     build_target_gradle_path := build_target_gradle_path m;
     source_sections := d;
     target_sections := target_sections m;
     migration_changes := migration_changes m;
     validation_errors := validation_errors m |}.

Definition set_target_sections d (m : BuildGradleMigrator) :=
  {| build_source_gradle_path := build_source_gradle_path m;
     build_target_gradle_path := build_target_gradle_path m;
     source_sections := source_sections m;
     target_sections := d;
     migration_changes := migration_changes m;
     validation_errors := validation_errors m |}.

Definition append_change c (m : BuildGradleMigrator) :=
  {| build_source_gradle_path := build_source_gradle_path m;
     build_target_gradle_path := build_target_gradle_path m;
     source_sections := source_sections m;
     target_sections := target_sections m;
     migration_changes := migration_changes m ++ [c];
     validation_errors := validation_errors m |}.

Definition append_error e (m : BuildGradleMigrator) :=
  {| build_source_gradle_path := build_source_gradle_path m;
     build_target_gradle_path := build_target_gradle_path m;
     source_sections := source_sections m;
     target_sections := target_sections m;
     migration_changes := migration_changes m;
     validation_errors := validation_errors m ++ [e] |}.

(** ** Methods *)

Definition read_gradle_file (file_path : string) : M (list string) := fun w =>
  match fs w !! file_path with
  | None => (Raise (FileNotFoundError ("File not found: " +:+ file_path)), w)
  | Some text => (Ok (readlines text), w)
  end.

Definition parse_gradle_files : M unit :=
  try_except
    (me ← get_self;
     source_lines ← read_gradle_file (build_source_gradle_path me);
     d ← of_loop (identify_sections source_lines);
     modify_self (set_source_sections d);;
     target_lines ← read_gradle_file (build_target_gradle_path me);
     d ← of_loop (identify_sections target_lines);
     modify_self (set_target_sections d))
    (fun e =>
       match e with
       | FileNotFoundError msg =>
           raise (FileNotFoundError ("Error reading Gradle file: " +:+ msg))
       | _ => raise (Exception ("Error parsing Gradle files: " +:+ str_exn e))
       end).

(** [lines[pos:pos] = new]; Python clamps [pos] to [len(lines)]. *)
Definition slice_insert (pos : nat) (new lines : list string) : list string :=
  take pos lines ++ new ++ drop pos lines.

(** [for i in range(n - 1, -1, -1): if lines[i].strip() == '}': return i],
    and [dflt] when the loop ends without a [break]. *)
Fixpoint last_closing_brace (lines : list string) (n dflt : nat) : nat :=
  match n with
  | O => dflt
  | S i => if String.eqb (strip (line_at lines i)) "}" then i
           else last_closing_brace lines i dflt
  end.

(** [for i in range(i, i + n): if '{' in lines[i]: return i + 1],
    and [dflt] when the loop ends without a [break]. *)
Fixpoint after_open_brace (lines : list string) (i n dflt : nat) : nat :=
  match n with
  | O => dflt
  | S n' => if contains "{" (line_at lines i) then i + 1
            else after_open_brace lines (S i) n' dflt
  end.

(** The test inside [extract_content_lines], on the stripped line. *)
Definition keeps (stripped : string) : bool :=
  truthy stripped
  && negb (startswith stripped "//")
  && negb (startswith stripped "/*")
  && negb (startswith stripped "{")
  && negb (startswith stripped "}")
  && negb (endswith stripped "{")
  && negb (endswith stripped "}").

(** The local function [extract_content_lines], written out twice in the
    class with the same text. *)
Fixpoint extract_content_lines (section_content : list string) : list string :=
  match section_content with
  | [] => []
  | line :: rest =>
      let stripped := strip line in
      if keeps stripped then stripped :: extract_content_lines rest
      else extract_content_lines rest
  end.

(** The classification that [extract_content_lines] applies to a line. *)
Definition meaningful (line : string) : bool := keeps (strip line).

Definition added_marker : string :=
  "// Section Added in migration from source project" +:+ nl.
Definition updated_marker : string :=
  "// Section updated in migration from source to target" +:+ nl.
Definition line_marker : string :=
  "    // Added as part of migration from source to target" +:+ nl.

Definition _migrate_new_section (section_name : string) : M unit :=
  me ← get_self;
  source_section ← subscript (source_sections me) section_name;
  target_lines ← read_gradle_file (build_target_gradle_path me);
  let migration_comment := added_marker in
  let insert_position :=
    last_closing_brace target_lines (length target_lines) (length target_lines) in
  let new_section_content :=
    [migration_comment] ++ content source_section ++ [nl] in
  let target_lines := slice_insert insert_position new_section_content target_lines in
  write_text (build_target_gradle_path me) (writelines target_lines);;
  let content_details := extract_content_lines (content source_section) in
  modify_self (append_change
    {| section_name := section_name;
       change_type := "ADD";
       description := "Added new section '" +:+ section_name +:+ "' from source project";
       details := ("Added complete section with "
                   +:+ str_of_nat (length (content source_section)) +:+ " lines")
                  :: content_details |}).

Definition _migrate_existing_section (section_name : string) : M unit :=
  me ← get_self;
  source_section ← subscript (source_sections me) section_name;
  target_section ← subscript (target_sections me) section_name;
  target_lines ← read_gradle_file (build_target_gradle_path me);
  let source_content_lines := extract_content_lines (content source_section) in
  let target_content_lines := extract_content_lines (content target_section) in
  let new_content :=
    List.filter (fun line => negb (in_list line target_content_lines))
      source_content_lines in
  match new_content with
  | [] => mret tt
  | _ =>
      let migration_comment := updated_marker in
      let section_start := start_line target_section in
      (* list.insert(section_start, migration_comment) *)
      let target_lines := slice_insert section_start [migration_comment] target_lines in
      let insert_position :=
        after_open_brace target_lines section_start
          (length target_lines - section_start) (section_start + 1) in
      let new_content_lines :=
        flat_map (fun content =>
                    if truthy content && negb (startswith content "//")
                    then [line_marker; "    " +:+ content +:+ nl]
                    else [])
          new_content in
      let target_lines := slice_insert insert_position new_content_lines target_lines in
      write_text (build_target_gradle_path me) (writelines target_lines);;
      modify_self (append_change
        {| section_name := section_name;
           change_type := "UPDATE";
           description := "Updated section '" +:+ section_name
                          +:+ "' with new content from source";
           details := new_content |})
  end.

(** [set(d.keys())] *)
Definition key_set (d : dict GradleSection) : gset string :=
  list_to_set (keys d).

Section SetOrder.
(** The order in which this run of the interpreter iterates a [set] of
    strings.  Python fixes no order; it depends on the hash seed of
    the process. *)
Variable set_iter : gset string -> list string.

Definition migrate_sections : M unit :=
  me ← get_self;
  let source_only_sections :=
    key_set (source_sections me) ∖ key_set (target_sections me) in
  for_each (set_iter source_only_sections) _migrate_new_section;;
  me ← get_self;
  let common_sections :=
    key_set (source_sections me) ∩ key_set (target_sections me) in
  for_each (set_iter common_sections) _migrate_existing_section.

(** The brace check of the validator: [None] when the running count
    goes below zero, else the final count. *)
Fixpoint brace_scan (content : string) (brace_count : Z) : option Z :=
  match content with
  | EmptyString => Some brace_count
  | String char rest =>
      if Ascii.eqb char "{" then brace_scan rest (brace_count + 1)
      else if Ascii.eqb char "}" then
        let brace_count := (brace_count - 1)%Z in
        if (brace_count <? 0)%Z then None else brace_scan rest brace_count
      else brace_scan rest brace_count
  end.

Definition count_occ_str (x : string) (l : list string) : nat :=
  length (List.filter (String.eqb x) l).

(** [[name for name in set(section_names) if section_names.count(name) > 1]] *)
Definition duplicates_of (section_names : list string) : list string :=
  List.filter (fun name => (1 <? count_occ_str name section_names)%nat)
    (set_iter (list_to_set section_names)).

Definition validate_gradle_structure : M bool :=
  try_except
    (me ← get_self;
     target_lines ← read_gradle_file (build_target_gradle_path me);
     let content := join target_lines in
     match brace_scan content 0 with
     | None =>
         modify_self (append_error "Unbalanced braces detected");;
         mret false
     | Some brace_count =>
         if negb (brace_count =? 0)%Z then
           modify_self (append_error
             ("Unbalanced braces: " +:+ str_of_int brace_count +:+ " unclosed braces"));;
           mret false
         else
           sections ← of_loop (identify_sections target_lines);
           let section_names := map name (values sections) in
           let duplicates := duplicates_of section_names in
           match duplicates with
           | [] => mret true
           | _ =>
               modify_self (append_error
                 ("Duplicate sections found: " +:+ join_with ", " duplicates));;
               mret false
           end
     end)
    (fun e =>
       modify_self (append_error ("Validation error: " +:+ str_exn e));;
       mret false).

(** The numbered lines of [enumerate(details, i)], each behind [indent]. *)
Fixpoint render_details (indent : string) (i : nat) (details : list string)
  : string :=
  match details with
  | [] => EmptyString
  | detail :: rest =>
      indent +:+ "Change-" +:+ str_of_nat i +:+ ": " +:+ detail +:+ nl
      +:+ render_details indent (S i) rest
  end.

Definition is_type (t : string) (change : MigrationChange) : bool :=
  String.eqb (change_type change) t.

Definition generate_summary_of (me : BuildGradleMigrator) : string :=
  let summary := "=== BuildGradle Migration Summary ===" +:+ nl +:+ nl in
  match migration_changes me with
  | [] => summary +:+ "No changes were made during migration." +:+ nl
  | _ =>
      let added_sections := List.filter (is_type "ADD") (migration_changes me) in
      let updated_sections := List.filter (is_type "UPDATE") (migration_changes me) in
      let summary :=
        match added_sections with
        | [] => summary
        | _ =>
            fold_left (fun summary change =>
              summary
              +:+ "Section: " +:+ section_name change +:+ nl
              +:+ "Description: " +:+ description change +:+ nl
              +:+ render_details "  " 1 (drop 1 (details change))
              +:+ nl)
              added_sections
              (summary +:+ "=== Added Sections ===" +:+ nl)
        end in
      let summary :=
        match updated_sections with
        | [] => summary
        | _ =>
            fold_left (fun summary change =>
              summary
              +:+ "Section: " +:+ section_name change +:+ nl
              +:+ "Description: " +:+ description change +:+ nl
              +:+ render_details EmptyString 1 (details change)
              +:+ nl)
              updated_sections
              (summary +:+ "=== Updated Sections ===" +:+ nl)
        end in
      let summary := summary +:+ "=== Validation Results ===" +:+ nl in
      match validation_errors me with
      | [] => summary +:+ "Validation PASSED: All checks completed successfully." +:+ nl
      | errors =>
          fold_left (fun summary error => summary +:+ "  - " +:+ error +:+ nl)
            errors (summary +:+ "Validation FAILED:" +:+ nl)
      end
  end.

Definition generate_summary : M string :=
  me ← get_self; mret (generate_summary_of me).

Definition run_migration : M string :=
  try_except
    (print "Step 1: Parsing Gradle files...";;
     parse_gradle_files;;
     print "Step 2: Migrating sections...";;
     migrate_sections;;
     print "Step 3: Validating migrated file...";;
     validation_passed ← validate_gradle_structure;
     print "Step 4: Generating summary...";;
     summary ← generate_summary;
     print "Step 5: Writing summary to file...";;
     write_text "build_gradle_migration_result.txt" summary;;
     mret summary)
    (fun e => mret ("Migration failed with error: " +:+ str_exn e)).
End SetOrder.

(** A set order is admissible when it lists exactly the members of the
    set, each once. *)
Definition set_order (set_iter : gset string -> list string) : Prop :=
  forall s : gset string, Permutation (set_iter s) (elements s).

(** The text of a file given line by line, each line ended by a newline. *)
Definition text_of (lines : list string) : string :=
  join (map (fun l => l +:+ nl) lines).

(** A fresh migrator object in a world with the given files. *)
Definition start (source_path target_path : string) (files : gmap string string)
  : World :=
  {| self := init source_path target_path; fs := files; stdout := [] |}.

End Migrator.

(* ===================================================================== *)
(** * Invariants of the scanner loops and the effect of one merge step *)
(* ===================================================================== *)

Module ScannerInvariants.
Import PyStr PyDict Loop Scanner.

(** Invariant of the inner loop of a capture started at line [start]. *)
Definition capture_inv (lines : list string) (start : nat)
           (s : capture_state) : Prop :=
  start < cap_i s <= length lines /\
  cap_content s = take (cap_i s - start) (drop start lines) /\
  brace_count s = capture_count (cap_content s).

(** What the scanner guarantees of a section stored under key [k]. *)
Definition section_ok (lines : list string) (k : string)
           (s : GradleSection) : Prop :=
  name s = k /\
  start_line s <= end_line s /\ end_line s < length lines /\
  content s = lines_between lines (start_line s) (end_line s) /\
  section_match (strip (line_at lines (start_line s))) = Some k /\
  ((capture_count (content s) <= 0)%Z \/ end_line s + 1 = length lines).

Definition disjoint_sections (d : dict GradleSection) : Prop :=
  forall k1 k2 s1 s2,
    k1 <> k2 -> get k1 d = Some s1 -> get k2 d = Some s2 ->
    end_line s1 < start_line s2 \/ end_line s2 < start_line s1.

Definition scan_inv (lines : list string) (st : scan_state) : Prop :=
  scan_i st <= length lines /\
  NoDup (keys (sections st)) /\
  (forall k s, get k (sections st) = Some s ->
               section_ok lines k s /\ end_line s < scan_i st) /\
  disjoint_sections (sections st).

End ScannerInvariants.

Module MergeEffects.
Import PyStr PyDict Scanner Migrator.

(** The change record and the new line list of [_migrate_new_section]. *)
Definition add_change (section_name : string) (sec : GradleSection)
  : MigrationChange :=
  {| section_name := section_name;
     change_type := "ADD";
     description := "Added new section '" +:+ section_name +:+ "' from source project";
     details := ("Added complete section with "
                 +:+ str_of_nat (length (content sec)) +:+ " lines")
                :: extract_content_lines (content sec) |}.

Definition new_section_lines (sec : GradleSection) (lines : list string)
  : list string :=
  slice_insert (last_closing_brace lines (length lines) (length lines))
    ([added_marker] ++ content sec ++ [nl]) lines.

(** The lines of the source section that the target section lacks. *)
Definition new_content_of (src tgt : GradleSection) : list string :=
  List.filter
    (fun line => negb (in_list line (extract_content_lines (content tgt))))
    (extract_content_lines (content src)).

Definition update_change (section_name : string) (src tgt : GradleSection)
  : MigrationChange :=
  {| section_name := section_name;
     change_type := "UPDATE";
     description := "Updated section '" +:+ section_name
                    +:+ "' with new content from source";
     details := new_content_of src tgt |}.

Definition updated_section_lines (src tgt : GradleSection)
           (lines : list string) : list string :=
  let with_marker := slice_insert (start_line tgt) [updated_marker] lines in
  slice_insert
    (after_open_brace with_marker (start_line tgt)
       (length with_marker - start_line tgt) (start_line tgt + 1))
    (flat_map (fun content =>
                 if truthy content && negb (startswith content "//")
                 then [line_marker; "    " +:+ content +:+ nl]
                 else [])
       (new_content_of src tgt))
    with_marker.

(** A line as [readlines] returns it from a text that ends in a newline:
    a body without newline and without carriage return, and the newline. *)
Definition ends_line (line : string) : Prop :=
  exists body, line = body +:+ nl /\
               contains LF body = false /\ contains CR body = false.

(** A block of lines whose text, unless it is empty, ends in a newline. *)
Definition closed_block (block : list string) : Prop :=
  join block = EmptyString \/ exists x, join block = x +:+ nl.

(** [written] holds the lines of [old], in their order, and around them
    blocks whose text ends in a newline. *)
Inductive inserted : list string -> list string -> Prop :=
| inserted_nil : inserted [] []
| inserted_line line old written :
    inserted old written -> inserted (line :: old) (line :: written)
| inserted_block block old written :
    closed_block block -> inserted old written ->
    inserted old (block ++ written).

(** What becomes of a line of a file when text is put in around it: a line
    that ends in a newline stays as it is, and a line without newline is
    the start of the line that stands in its place. *)
Definition line_kept (old new : string) : Prop :=
  (endswith old nl = true -> new = old) /\ exists more, new = old +:+ more.

(** The line list [after] holds the lines of [before], each of them kept,
    in their order, and maybe more lines between them. *)
Definition insert_only (before after : list string) : Prop :=
  exists kept, Forall2 line_kept before kept /\ sublist kept after.

(** The path that the initial parse reports when a file is missing: the
    source is read first. *)
Definition first_missing (w : World) : string :=
  match fs w !! build_source_gradle_path (self w) with
  | None => build_source_gradle_path (self w)
  | Some _ => build_target_gradle_path (self w)
  end.

End MergeEffects.

(* ===================================================================== *)
(** * Properties in the words of the specification *)
(* ===================================================================== *)

Module AsSpecified.
Import PyStr PyDict Scanner Migrator.

(** Meaningful, in the words of the specification: after trimming, not
    blank, not starting a line comment or a block comment, and not solely
    an opening or a closing brace. *)
Definition meaningful_as_specified (line : string) : Prop :=
  let t := strip line in
  t <> EmptyString /\
  startswith t "//" = false /\ startswith t "/*" = false /\
  t <> "{" /\ t <> "}".

(** First-seen order of the source mapping, restricted to a set of names. *)
Definition first_seen_order (source : dict GradleSection) (s : gset string)
  : list string :=
  List.filter (fun k => bool_decide (k ∈ s)) (keys source).

End AsSpecified.

(* ===================================================================== *)
(** * Concrete build files used in the examples *)
(* ===================================================================== *)

Module Examples.
Import PyStr PyDict Scanner Migrator.

(** Two well-nested blocks, each closed on a line of its own. *)
Definition two_blocks : list string :=
  readlines (text_of ["plugins {"; "    id 'java'"; "}"; "java {"; "}"]).

Definition plugins_section : GradleSection :=
  {| name := "plugins";
     content := readlines (text_of ["plugins {"; "    id 'java'"; "}"]);
     start_line := 0; end_line := 2;
     section_type := PLUGINS; indentation := EmptyString |}.

Definition java_section : GradleSection :=
  {| name := "java";
     content := readlines (text_of ["java {"; "}"]);
     start_line := 3; end_line := 4;
     section_type := JAVA; indentation := EmptyString |}.

Definition two_blocks_sections : dict GradleSection :=
  [("plugins", plugins_section); ("java", java_section)].

(** A block whose opening line opens a second, nested block. *)
Definition nested_on_opening_line : list string :=
  readlines (text_of ["a { b {"; "}"; "}"]).

(** A block that is never closed. *)
Definition unterminated : list string :=
  readlines (text_of ["plugins {"; "}"; "android {"; "    x"]).

Definition android_section : GradleSection :=
  {| name := "android";
     content := readlines (text_of ["android {"; "    x"]);
     start_line := 2; end_line := 3;
     section_type := ANDROID; indentation := EmptyString |}.

(** A target file with two top-level blocks named [plugins]. *)
Definition twice_plugins : string :=
  text_of ["plugins {"; "    id 'java'"; "}"; "plugins {"; "    id 'application'"; "}"].

(** A source with a section the target lacks ([custom]) and one it shares
    ([java]); in the target the shared block stands on one line, after the
    last line that is only a closing brace. *)
Definition source_text : string :=
  text_of ["custom {"; "  a"; "}"; "java {"; "  y"; "}"].

Definition target_text : string :=
  text_of ["plugins {"; "}"; "java { x }"].

Definition files : gmap string string :=
  {[ "source.gradle" := source_text; "target.gradle" := target_text ]}.

Definition custom_section : GradleSection :=
  {| name := "custom";
     content := readlines (text_of ["custom {"; "  a"; "}"]);
     start_line := 0; end_line := 2;
     section_type := CUSTOM; indentation := EmptyString |}.

(** The world after [parse_gradle_files] on these files. *)
Definition parsed : World :=
  snd (parse_gradle_files (start "source.gradle" "target.gradle" files)).

(** The target file after the new-section step has put [custom] in. *)
Definition target_after_add : string :=
  text_of ["plugins {";
           "// Section Added in migration from source project";
           "custom {"; "  a"; "}"; "";
           "}";
           "java { x }"].

(** The target file after the common-section step for [java]. *)
Definition target_after_update : string :=
  text_of ["plugins {";
           "// Section Added in migration from source project";
           "// Section updated in migration from source to target";
           "custom {";
           "    // Added as part of migration from source to target";
           "    y";
           "  a"; "}"; "";
           "}";
           "java { x }"].

(** Two shared sections, each with a line that the target lacks. *)
Definition common_files : gmap string string :=
  {[ "source.gradle" :=
       text_of ["plugins {"; "    id 'java'"; "}";
                "dependencies {"; "    implementation 'a:b:1.0'"; "}"];
     "target.gradle" := text_of ["plugins {"; "}"; "dependencies {"; "}"] ]}.

(** The target file after both updates, [plugins] first. *)
Definition common_after_updates : string :=
  text_of ["// Section updated in migration from source to target";
           "plugins {";
           "// Section updated in migration from source to target";
           "    // Added as part of migration from source to target";
           "    id 'java'";
           "}";
           "dependencies {";
           "    // Added as part of migration from source to target";
           "    implementation 'a:b:1.0'";
           "}"].

(** Two sections that the target lacks. *)
Definition order_files : gmap string string :=
  {[ "source.gradle" := text_of ["alpha {"; "    a"; "}"; "beta {"; "    b"; "}"];
     "target.gradle" := text_of ["plugins {"; "}"] ]}.

Definition order_parsed : World :=
  snd (parse_gradle_files (start "source.gradle" "target.gradle" order_files)).

(** Two admissible set orders. *)
Definition ascending (s : gset string) : list string := elements s.
Definition descending (s : gset string) : list string := reverse (elements s).

(** A target file whose one line has no newline at its end. *)
Definition unended_target : string := "version = '1.0'".

Definition unended_files : gmap string string :=
  {[ "source.gradle" := text_of ["custom {"; "  a"; "}"];
     "target.gradle" := unended_target ]}.

Definition unended_parsed : World :=
  snd (parse_gradle_files (start "source.gradle" "target.gradle" unended_files)).

(** A shared section whose source lines are all in the target already. *)
Definition same_files : gmap string string :=
  {[ "source.gradle" := text_of ["plugins {"; "    id 'java'"; "}"];
     "target.gradle" :=
       text_of ["plugins {"; "    id 'java'"; "    id 'application'"; "}"] ]}.

Definition same_parsed : World :=
  snd (parse_gradle_files (start "source.gradle" "target.gradle" same_files)).

End Examples.

(* ===================================================================== *)
(** * The command line entry point and notions used to state more theorems *)
(* ===================================================================== *)

Module Entry.
Import PyStr PyDict Scanner Migrator.

(** Every character of [s] satisfies [p]. *)
Fixpoint all_chars (p : ascii -> bool) (s : string) : bool :=
  match s with
  | EmptyString => true
  | String c s' => p c && all_chars p s'
  end.

(** The strings that the identifier group of the section pattern accepts. *)
Definition is_identifier (s : string) : bool :=
  match s with
  | EmptyString => false
  | String c s' => ident_start c && all_chars ident_char s'
  end.

(** The world after the validator has recorded one error. *)
Definition with_error (e : string) (w : World) : World :=
  {| self := append_error e (self w); fs := fs w; stdout := stdout w |}.

(** What a merge step, the merge pass or the validator may change: the
    paths, the two mappings and the output stay, the change log and the
    error list only grow, no file but the target file is written, and the
    target file is not removed. *)
Definition merge_frame (w w' : World) : Prop :=
  build_source_gradle_path (self w') = build_source_gradle_path (self w) /\
  build_target_gradle_path (self w') = build_target_gradle_path (self w) /\
  source_sections (self w') = source_sections (self w) /\
  target_sections (self w') = target_sections (self w) /\
  stdout w' = stdout w /\
  (exists more, migration_changes (self w')
                = migration_changes (self w) ++ more) /\
  (exists more, validation_errors (self w')
                = validation_errors (self w) ++ more) /\
  (forall path, path <> build_target_gradle_path (self w) ->
                fs w' !! path = fs w !! path) /\
  (is_Some (fs w !! build_target_gradle_path (self w)) ->
   is_Some (fs w' !! build_target_gradle_path (self w))).

Definition result_path : string := "build_gradle_migration_result.txt".

(** What a whole run may change: the paths stay, and no file but the target
    file and the result file is written. *)
Definition run_frame (w w' : World) : Prop :=
  build_source_gradle_path (self w') = build_source_gradle_path (self w) /\
  build_target_gradle_path (self w') = build_target_gradle_path (self w) /\
  (forall path, path <> build_target_gradle_path (self w) ->
                path <> result_path ->
                fs w' !! path = fs w !! path).

(** A computation that always finishes, with a result or an exception, and
    stays within [run_frame]. *)
Definition safe {A} (m : M A) : Prop :=
  forall w, fst (m w) <> Diverge /\ run_frame w (snd (m w)).

(** The parsed world of the two shared sections. *)
Definition common_parsed : World :=
  snd (parse_gradle_files
         (start "source.gradle" "target.gradle" Examples.common_files)).

(** A source file without any section: comments, blank lines, statements. *)
Definition no_section_files : gmap string string :=
  {[ "source.gradle" := text_of ["// build file"; ""; "version = '1.0'"];
     "target.gradle" := text_of ["plugins {"; "}"] ]}.

(** A target file written on a system whose line ends are carriage return and
    newline; its last line has no line end. *)
Definition crlf_text : string :=
  "plugins {" +:+ String CR nl +:+ "}" +:+ String CR nl
  +:+ "java { x }" +:+ String CR nl +:+ "// end".

Definition crlf_files : gmap string string :=
  {[ "source.gradle" := text_of ["plugins {"; "    id 'java'"; "}"];
     "target.gradle" := crlf_text ]}.

(** The world after [print(line)], and after a successful initial parse. *)
Definition printed (line : string) (w : World) : World :=
  {| self := self w; fs := fs w; stdout := stdout w ++ [line] |}.

Definition after_parse (d1 d2 : dict GradleSection) (w : World) : World :=
  {| self := set_target_sections d2 (set_source_sections d1 (self w));
     fs := fs w; stdout := stdout w |}.

(** The summary of a run in which no change was recorded. *)
Definition no_changes_summary : string :=
  "=== BuildGradle Migration Summary ===" +:+ nl +:+ nl
  +:+ "No changes were made during migration." +:+ nl.

Definition usage : string :=
  "Usage: python build_gradle_migrator.py <source_gradle_path> <target_gradle_path>".

Section SetOrder.
Variable set_iter : gset string -> list string.

(** [main()], with [sys.argv] as argument and the exit status of the
    process as result: 1 for [sys.exit(1)], 0 when [main] returns. *)
Definition main (argv : list string) : M nat :=
  if negb (length argv =? 3)%nat then
    print usage;;
    mret 1
  else
    let source_path := nth 1 argv EmptyString in
    let target_path := nth 2 argv EmptyString in
    try_except
      (modify_self (fun _ => init source_path target_path);;
       summary ← run_migration set_iter;
       print summary;;
       mret 0)
      (fun e =>
         print ("Error: " +:+ str_exn e);;
         mret 1).
End SetOrder.

End Entry.

(* ===================================================================== *)
(** * Lemmas on loops, strings and dictionaries *)
(* ===================================================================== *)

Module LoopFacts.
Import Loop.

Section Rule.
Context {S : Type} (cond : S -> bool) (body : S -> option S).

(** Total correctness of a loop: an invariant kept by the body and a
    measure that the body decreases. *)
Lemma while_rule (I : S -> Prop) (mu : S -> nat) :
  (forall s, I s -> cond s = true ->
             exists s', body s = Some s' /\ I s' /\ mu s' < mu s) ->
  forall fuel s, I s -> mu s <= fuel ->
    exists s', while cond body fuel s = Some s' /\ I s' /\ cond s' = false.
Proof.
  intros Hstep fuel. induction fuel as [|fuel IH]; intros s HI Hmu.
  - simpl. destruct (cond s) eqn:Hc.
    + destruct (Hstep s HI Hc) as (s' & _ & _ & Hlt). lia.
    + eauto.
  - simpl. destruct (cond s) eqn:Hc.
    + destruct (Hstep s HI Hc) as (s' & -> & HI' & Hlt).
      apply IH; [assumption | lia].
    + eauto.
Qed.

(** More fuel does not change the result of a loop that finished. *)
Lemma while_fuel_mono fuel fuel' s r :
  while cond body fuel s = Some r -> fuel <= fuel' ->
  while cond body fuel' s = Some r.
Proof.
  revert fuel' s. induction fuel as [|fuel IH]; intros fuel' s Hw Hle.
  - simpl in Hw. destruct fuel'; simpl; destruct (cond s); congruence.
  - destruct fuel' as [|fuel']; [lia|]. simpl in *.
    destruct (cond s); [|assumption].
    destruct (body s) as [s'|]; [|discriminate].
    apply IH; [assumption | lia].
Qed.
End Rule.

End LoopFacts.

Module DictFacts.
Import PyDict.

Section Facts.
Context {V : Type}.
Implicit Types (d : dict V) (k : string) (v : V).

Lemma get_set k k' v d :
  get k (set k' v d) = if String.eqb k k' then Some v else get k d.
Proof.
  induction d as [|[k0 v0] d IH]; simpl.
  - destruct (String.eqb k k'); reflexivity.
  - destruct (String.eqb_spec k' k0) as [->|Hne]; simpl.
    + destruct (String.eqb k k0); reflexivity.
    + rewrite IH. destruct (String.eqb_spec k k0) as [->|]; [|reflexivity].
      destruct (String.eqb_spec k0 k'); congruence.
Qed.

Lemma get_is_Some_keys k d : is_Some (get k d) <-> k ∈ keys d.
Proof.
  unfold keys. induction d as [|[k0 v0] d IH]; simpl.
  - split; [intros [? ?]; discriminate | intros H; inversion H].
  - rewrite elem_of_cons. destruct (String.eqb_spec k k0) as [->|Hne].
    + split; eauto.
    + rewrite IH. split; [tauto | intros [?|?]; congruence].
Qed.

(** Keys are never repeated in a dictionary built with [set]. *)
Lemma keys_set_NoDup k v d : NoDup (keys d) -> NoDup (keys (set k v d)).
Proof.
  unfold keys. induction d as [|[k0 v0] d IH]; simpl; intros Hnd.
  - repeat constructor. intros H; inversion H.
  - destruct (String.eqb_spec k k0) as [->|Hne]; simpl; [assumption|].
    inversion Hnd as [|? ? Hnotin Hnd']; subst. constructor; [|auto].
    intros Hin. apply Hnotin.
    apply (get_is_Some_keys k0 d).
    apply (get_is_Some_keys k0 (set k v d)) in Hin.
    rewrite get_set in Hin. destruct (String.eqb_spec k0 k); congruence.
Qed.
End Facts.

End DictFacts.

Module ScannerFacts.
Import PyStr PyDict Loop Scanner ScannerInvariants LoopFacts DictFacts.

Lemma line_at_lookup lines i :
  i < length lines -> lines !! i = Some (line_at lines i).
Proof.
  intros Hi. destruct (lookup_lt_is_Some_2 lines i Hi) as [x Hx].
  rewrite Hx. unfold line_at. erewrite nth_lookup_Some; eauto.
Qed.

Lemma content_net_app a b :
  content_net (a ++ b) = (content_net a + content_net b)%Z.
Proof. induction a as [|x a IH]; simpl; [reflexivity | rewrite IH; lia]. Qed.

Lemma lines_between_snoc lines a i :
  a <= i -> i < length lines ->
  take (i - a) (drop a lines) ++ [line_at lines i]
  = take (S i - a) (drop a lines).
Proof.
  intros Hai Hi. replace (S i - a) with (S (i - a)) by lia.
  symmetry. apply take_S_r. rewrite lookup_drop.
  replace (a + (i - a)) with i by lia. apply line_at_lookup; assumption.
Qed.

(** ** The inner loop *)

Lemma capture_cond_true lines s :
  capture_cond lines s = true <->
  cap_i s < length lines /\ (0 < brace_count s)%Z.
Proof.
  unfold capture_cond. rewrite andb_true_iff, Nat.ltb_lt, Z.ltb_lt. tauto.
Qed.

Lemma capture_cond_false lines s :
  capture_cond lines s = false <->
  length lines <= cap_i s \/ (brace_count s <= 0)%Z.
Proof.
  unfold capture_cond. rewrite andb_false_iff, Nat.ltb_ge, Z.ltb_ge. tauto.
Qed.

Lemma capture_step lines start s :
  capture_inv lines start s -> capture_cond lines s = true ->
  exists s', capture_body lines s = Some s' /\ capture_inv lines start s' /\
             length lines - cap_i s' < length lines - cap_i s.
Proof.
  intros ((Hlo & Hhi) & Hc & Hb) [Hi Hpos]%capture_cond_true.
  eexists; split; [reflexivity|]. unfold capture_inv; simpl.
  split; [|lia]. split; [lia|]. split.
  - rewrite Hc. replace (cap_i s + 1) with (S (cap_i s)) by lia.
    apply lines_between_snoc; lia.
  - rewrite Hb. unfold capture_count.
    destruct (cap_content s) as [|x c] eqn:Hcs.
    + exfalso. apply (f_equal length) in Hc. simpl in Hc.
      rewrite length_take, length_drop in Hc. lia.
    + simpl. rewrite content_net_app. simpl. lia.
Qed.

Lemma capture_run lines start :
  start < length lines ->
  exists c,
    while (capture_cond lines) (capture_body lines) (length lines)
      {| cap_i := start + 1; brace_count := 1;
         cap_content := [line_at lines start] |} = Some c /\
    capture_inv lines start c /\ capture_cond lines c = false.
Proof.
  intros Hs.
  apply (while_rule _ _ (capture_inv lines start)
           (fun s => length lines - cap_i s)).
  - intros s HI Hc. apply capture_step; assumption.
  - unfold capture_inv; simpl. split; [lia|]. split; [|reflexivity].
    replace (start + 1 - start) with (S start - start) by lia.
    rewrite <- (lines_between_snoc lines start start) by lia.
    rewrite Nat.sub_diag. reflexivity.
  - simpl. lia.
Qed.

(** The counter with which a capture ends is [capture_count] of the
    captured lines, and these are the lines from [start] on. *)
Lemma capture_final lines start c :
  start < length lines ->
  while (capture_cond lines) (capture_body lines) (length lines)
    {| cap_i := start + 1; brace_count := 1;
       cap_content := [line_at lines start] |} = Some c ->
  brace_count c = capture_count (cap_content c) /\
  cap_content c = lines_between lines start (cap_i c - 1) /\
  (length lines <= cap_i c \/ (brace_count c <= 0)%Z).
Proof.
  intros Hs Hw.
  destruct (capture_run lines start Hs) as (c' & Hw' & (Hi & Hc & Hb) & Hexit).
  rewrite Hw in Hw'. injection Hw' as <-.
  split; [exact Hb|]. split; [|apply capture_cond_false; exact Hexit].
  rewrite Hc. unfold lines_between. f_equal. lia.
Qed.

(** ** The outer loop *)

Lemma scan_inv_skip lines st :
  scan_inv lines st -> scan_i st < length lines ->
  scan_inv lines {| scan_i := scan_i st + 1; sections := sections st |}.
Proof.
  intros (Hi & Hnd & Hok & Hdis) Hlt. unfold scan_inv; simpl.
  split; [lia|]. split; [assumption|]. split; [|assumption].
  intros k s Hg. destruct (Hok k s Hg). split; [assumption | lia].
Qed.

Lemma scan_step lines st :
  scan_inv lines st -> scan_cond lines st = true ->
  exists st', scan_body lines st = Some st' /\ scan_inv lines st' /\
              scan_i st < scan_i st'.
Proof.
  intros Hinv Hc. unfold scan_cond in Hc. apply Nat.ltb_lt in Hc.
  pose proof (scan_inv_skip lines st Hinv Hc) as Hskip.
  unfold scan_body.
  destruct (negb (truthy (strip (line_at lines (scan_i st))))
            || startswith (strip (line_at lines (scan_i st))) "//"
            || startswith (strip (line_at lines (scan_i st))) "/*").
  { eexists; split; [reflexivity|]. split; [assumption | simpl; lia]. }
  destruct (section_match (strip (line_at lines (scan_i st)))) as [nm|] eqn:Hm.
  2:{ eexists; split; [reflexivity|]. split; [assumption | simpl; lia]. }
  destruct (capture_run lines (scan_i st) Hc)
    as (c & -> & ((Hlo & Hhi) & Hcont & Hbc) & Hexit).
  eexists; split; [reflexivity|]. simpl. split; [|lia].
  destruct Hinv as (Hi & Hnd & Hok & Hdis).
  unfold scan_inv; simpl. split; [assumption|].
  split; [apply keys_set_NoDup; assumption|]. split.
  - intros k s. rewrite get_set.
    destruct (String.eqb_spec k nm) as [->|Hne].
    + intros [= <-]. unfold section_ok; simpl. split; [|lia].
      split; [reflexivity|]. split; [lia|]. split; [lia|]. split.
      * unfold lines_between. rewrite Hcont. f_equal. lia.
      * split; [assumption|].
        apply capture_cond_false in Hexit. rewrite <- Hbc. lia.
    + intros Hg. destruct (Hok k s Hg). split; [assumption | lia].
  - intros k1 k2 s1 s2 Hne. rewrite !get_set.
    destruct (String.eqb_spec k1 nm) as [->|Hne1];
      destruct (String.eqb_spec k2 nm) as [->|Hne2]; try congruence.
    + intros [= <-] Hg2. simpl. destruct (Hok k2 s2 Hg2). lia.
    + intros Hg1 [= <-]. simpl. destruct (Hok k1 s1 Hg1). lia.
    + apply Hdis; assumption.
Qed.

Lemma scan_run lines :
  exists st,
    while (scan_cond lines) (scan_body lines) (length lines)
      {| scan_i := 0; sections := [] |} = Some st /\
    scan_inv lines st /\ scan_i st = length lines.
Proof.
  destruct (while_rule (scan_cond lines) (scan_body lines) (scan_inv lines)
              (fun s => length lines - scan_i s)) with
    (fuel := length lines) (s := {| scan_i := 0; sections := [] |})
    as (st & Hw & Hinv & Hc).
  - intros s HI Hc. destruct (scan_step lines s HI Hc) as (s' & ? & HI' & ?).
    exists s'. split; [assumption|]. split; [assumption|].
    destruct HI' as (? & _). lia.
  - unfold scan_inv, disjoint_sections; simpl.
    split; [lia|]. split; [constructor|]. split; intros; discriminate.
  - simpl. lia.
  - exists st. split; [assumption|]. split; [assumption|].
    unfold scan_cond in Hc. apply Nat.ltb_ge in Hc.
    destruct Hinv as (? & _). lia.
Qed.

(** The scanner returns, and what it returns. *)
Lemma identify_sections_spec lines :
  exists d,
    identify_sections lines = Some d /\
    NoDup (keys d) /\
    (forall k s, get k d = Some s -> section_ok lines k s) /\
    disjoint_sections d.
Proof.
  destruct (scan_run lines) as (st & Hw & (_ & Hnd & Hok & Hdis) & _).
  exists (sections st). unfold identify_sections. rewrite Hw.
  split; [reflexivity|]. split; [assumption|]. split; [|assumption].
  intros k s Hg. apply (Hok k s Hg).
Qed.

End ScannerFacts.

(* ===================================================================== *)
(** * The section scanner: totality and the shape of what it captures *)
(* ===================================================================== *)

Module ScannerTheorems.
Import PyStr PyDict Loop Scanner Migrator ScannerInvariants Examples.
Import LoopFacts DictFacts ScannerFacts.

Lemma content_net_opening lines s k :
  section_ok lines k s ->
  content_net (content s)
  = (net_braces (line_at lines (start_line s)) + capture_count (content s) - 1)%Z.
Proof.
  intros (_ & Hse & Hlen & Hc & _). unfold capture_count.
  rewrite Hc. unfold lines_between.
  replace (end_line s - start_line s + 1) with (S (end_line s - start_line s)) by lia.
  rewrite (drop_S lines (line_at lines (start_line s)) (start_line s))
    by (apply line_at_lookup; lia).
  simpl. lia.
Qed.

(** C7, as the scanner has it.  Every section of the mapping holds exactly
    the lines [start_line] to [end_line] of the input, the line ranges of
    two sections of the mapping are disjoint, and the content of a section
    is brace-balanced when its capture ended on a counter of zero and its
    opening line has exactly one more opening than closing brace. *)
Theorem scanner_sections_wellformed lines d k s :
  identify_sections lines = Some d ->
  get k d = Some s ->
  (start_line s <= end_line s < length lines) /\
  content s = lines_between lines (start_line s) (end_line s) /\
  (capture_count (content s) = 0%Z ->
   net_braces (line_at lines (start_line s)) = 1%Z ->
   content_net (content s) = 0%Z) /\
  (forall k' s', k' <> k -> get k' d = Some s' ->
                 end_line s < start_line s' \/ end_line s' < start_line s).
Proof.
  intros Hid Hg.
  destruct (identify_sections_spec lines) as (d' & Hid' & _ & Hok & Hdis).
  rewrite Hid in Hid'. injection Hid' as <-.
  pose proof (Hok k s Hg) as Hs.
  pose proof (content_net_opening lines s k Hs) as Hnet.
  destruct Hs as (_ & Hse & Hlen & Hc & _).
  split; [lia|]. split; [assumption|]. split.
  - intros Hz Hone. lia.
  - intros k' s' Hne Hg'. apply (Hdis k k' s s'); [congruence | assumption..].
Qed.

Lemma scanner_sections_wellformed_witness :
  content plugins_section = lines_between two_blocks 0 2 /\
  content_net (content plugins_section) = 0%Z /\
  end_line plugins_section < start_line java_section.
Proof.
  destruct (scanner_sections_wellformed two_blocks two_blocks_sections
              "plugins" plugins_section)
    as (_ & Hc & Hnet & Hdis);
    [vm_compute; reflexivity | vm_compute; reflexivity |].
  split; [exact Hc|]. split.
  - apply Hnet; vm_compute; reflexivity.
  - destruct (Hdis "java" java_section) as [H|H];
      [discriminate | vm_compute; reflexivity | exact H | vm_compute in H; lia].
Defined.

(** C7 as stated fails: in a file whose braces balance, a block whose
    opening line opens two braces is closed by the scanner at the first
    closing line, one brace short. *)
Lemma balanced_file_unbalanced_section :
  brace_scan (join nested_on_opening_line) 0 = Some 0%Z /\
  exists s,
    identify_sections nested_on_opening_line = Some [("a", s)] /\
    end_line s + 1 < length nested_on_opening_line /\
    capture_count (content s) = 0%Z /\
    content_net (content s) = 1%Z.
Proof.
  split; [vm_compute; reflexivity|].
  eexists. split; [vm_compute; reflexivity|].
  split; [vm_compute; lia|]. split; vm_compute; reflexivity.
Qed.

Lemma capture_progress lines s :
  capture_cond lines s = true ->
  exists s', capture_body lines s = Some s' /\ cap_i s' = cap_i s + 1 /\
             cap_i s' <= length lines.
Proof.
  intros [Hi _]%capture_cond_true. eexists; split; [reflexivity|].
  simpl. lia.
Qed.

Lemma scan_progress lines st :
  scan_cond lines st = true ->
  exists st', scan_body lines st = Some st' /\
              scan_i st < scan_i st' <= length lines.
Proof.
  intros Hc. unfold scan_cond in Hc. apply Nat.ltb_lt in Hc.
  unfold scan_body.
  destruct (negb (truthy (strip (line_at lines (scan_i st))))
            || startswith (strip (line_at lines (scan_i st))) "//"
            || startswith (strip (line_at lines (scan_i st))) "/*").
  { eexists; split; [reflexivity | simpl; lia]. }
  destruct (section_match (strip (line_at lines (scan_i st)))).
  2:{ eexists; split; [reflexivity | simpl; lia]. }
  destruct (capture_run lines (scan_i st) Hc) as (c & -> & ((? & ?) & _) & _).
  eexists; split; [reflexivity | simpl; lia].
Qed.

(** C10.  Both loops of the scanner advance their index on every
    iteration, the scan of any list of lines returns a mapping, whatever
    fuel at least the number of lines it is given, and a section whose
    capture ended with the counter still positive runs through the last
    line of the input. *)
Theorem identify_sections_total lines :
  (forall s, capture_cond lines s = true ->
     exists s', capture_body lines s = Some s' /\
                cap_i s < cap_i s' <= length lines) /\
  (forall st, scan_cond lines st = true ->
     exists st', scan_body lines st = Some st' /\
                 scan_i st < scan_i st' <= length lines) /\
  exists d,
    identify_sections lines = Some d /\
    (forall fuel, length lines <= fuel ->
       option_map sections
         (while (scan_cond lines) (scan_body lines) fuel
            {| scan_i := 0; sections := [] |}) = Some d) /\
    (forall k s, get k d = Some s -> (0 < capture_count (content s))%Z ->
       end_line s + 1 = length lines /\
       content s = drop (start_line s) lines).
Proof.
  split.
  { intros s Hc. destruct (capture_progress lines s Hc) as (s' & ? & ? & ?).
    exists s'. split; [assumption | lia]. }
  split; [apply scan_progress|].
  destruct (identify_sections_spec lines) as (d & Hid & _ & Hok & _).
  exists d. split; [assumption|]. split.
  - intros fuel Hfuel. unfold identify_sections in Hid.
    destruct (while (scan_cond lines) (scan_body lines) (length lines) _)
      as [st|] eqn:Hw; [|discriminate].
    rewrite (while_fuel_mono _ _ _ _ _ _ Hw Hfuel). assumption.
  - intros k s Hg Hpos.
    destruct (Hok k s Hg) as (_ & Hse & Hlen & Hc & _ & Hexit).
    assert (Hend : end_line s + 1 = length lines) by lia.
    split; [assumption|]. rewrite Hc. unfold lines_between.
    apply take_ge. rewrite length_drop. lia.
Qed.

Lemma identify_sections_total_witness :
  identify_sections unterminated
    = Some [("plugins",
             {| name := "plugins";
                content := lines_between unterminated 0 1;
                start_line := 0; end_line := 1;
                section_type := PLUGINS; indentation := EmptyString |});
            ("android", android_section)] /\
  end_line android_section + 1 = length unterminated /\
  content android_section = drop 2 unterminated.
Proof.
  destruct (identify_sections_total unterminated) as (_ & _ & d & Hid & _ & Hun).
  assert (Hd : identify_sections unterminated
               = Some [("plugins",
                        {| name := "plugins";
                           content := lines_between unterminated 0 1;
                           start_line := 0; end_line := 1;
                           section_type := PLUGINS;
                           indentation := EmptyString |});
                       ("android", android_section)])
    by (vm_compute; reflexivity).
  split; [exact Hd|].
  rewrite Hd in Hid. injection Hid as <-.
  apply (Hun "android" android_section); vm_compute; reflexivity.
Defined.

End ScannerTheorems.

(* ===================================================================== *)
(** * Meaningful lines *)
(* ===================================================================== *)

Module StrFacts.
Import PyStr.

Lemma append_nil r : EmptyString +:+ r = r.
Proof. reflexivity. Qed.

Lemma append_cons c s r : String c s +:+ r = String c (s +:+ r).
Proof. reflexivity. Qed.

Lemma startswith_spec s p :
  startswith s p = true <-> exists r, s = p +:+ r.
Proof.
  unfold startswith. revert s. induction p as [|c p IH]; intros s.
  - split; [intros _; exists s; reflexivity | destruct s; reflexivity].
  - destruct s as [|d s]; simpl.
    + split; [discriminate | intros [r Hr]; discriminate].
    + destruct (ascii_dec c d) as [->|Hne].
      * rewrite IH. split; intros [r Hr]; exists r.
        -- rewrite Hr. reflexivity.
        -- rewrite append_cons in Hr. congruence.
      * split; [discriminate|].
        intros [r Hr]. rewrite append_cons in Hr. congruence.
Qed.

Lemma endswith_spec s p :
  endswith s p = true <-> exists r, s = r +:+ p.
Proof.
  induction s as [|c s IH].
  - change (endswith EmptyString p) with (String.eqb EmptyString p || false).
    rewrite orb_false_r. split.
    + intros ->%String.eqb_eq. exists EmptyString. reflexivity.
    + intros [[|d r] Hr].
      * rewrite append_nil in Hr. subst. reflexivity.
      * rewrite append_cons in Hr. discriminate.
  - change (endswith (String c s) p)
      with (String.eqb (String c s) p || endswith s p).
    rewrite orb_true_iff, IH. split.
    + intros [->%String.eqb_eq | [r ->]].
      * exists EmptyString. reflexivity.
      * exists (String c r). reflexivity.
    + intros [[|d r] Hr].
      * left. rewrite append_nil in Hr. subst. apply String.eqb_refl.
      * right. exists r. rewrite append_cons in Hr. congruence.
Qed.

Lemma truthy_spec s : truthy s = true <-> s <> EmptyString.
Proof. destruct s; simpl; split; congruence. Qed.

(** [''.join(a + b) == ''.join(a) + ''.join(b)] *)
Lemma join_app a b : join (a ++ b) = join a +:+ join b.
Proof.
  induction a as [|x a IH]; simpl; [reflexivity|].
  rewrite IH. clear. induction x as [|c x IH]; [reflexivity|].
  rewrite !append_cons, IH. reflexivity.
Qed.

End StrFacts.

Module MeaningfulTheorems.
Import PyStr PyDict Scanner Migrator AsSpecified StrFacts.

Lemma extract_content_lines_filter section_content :
  extract_content_lines section_content
  = map strip (List.filter meaningful section_content).
Proof.
  induction section_content as [|line rest IH]; simpl; [reflexivity|].
  unfold meaningful at 1. destruct (keeps (strip line)); simpl; congruence.
Qed.

(** C4, as the filter has it.  A line is meaningful exactly when, after
    trimming, it is not empty, does not start with a line-comment or a
    block-comment marker, and neither starts nor ends with an opening or a
    closing brace; the extracted lines are the trimmed meaningful lines,
    in order. *)
Theorem meaningful_iff line :
  (meaningful line = true <->
   strip line <> EmptyString /\
   (forall r, strip line <> "//" +:+ r) /\
   (forall r, strip line <> "/*" +:+ r) /\
   (forall r, strip line <> "{" +:+ r) /\
   (forall r, strip line <> "}" +:+ r) /\
   (forall r, strip line <> r +:+ "{") /\
   (forall r, strip line <> r +:+ "}")) /\
  (forall section_content,
     extract_content_lines section_content
     = map strip (List.filter meaningful section_content)).
Proof.
  split; [|apply extract_content_lines_filter].
  unfold meaningful, keeps.
  rewrite !andb_true_iff, !negb_true_iff, truthy_spec.
  assert (Hs : forall p, startswith (strip line) p = false
                         <-> forall r, strip line <> p +:+ r).
  { intros p. rewrite <- not_true_iff_false, startswith_spec.
    split; [intros H r Hr; apply H; eauto | intros H [r Hr]; exact (H r Hr)]. }
  assert (He : forall p, endswith (strip line) p = false
                         <-> forall r, strip line <> r +:+ p).
  { intros p. rewrite <- not_true_iff_false, endswith_spec.
    split; [intros H r Hr; apply H; eauto | intros H [r Hr]; exact (H r Hr)]. }
  rewrite !Hs, !He. tauto.
Qed.

Lemma meaningful_iff_witness :
  strip ("    implementation 'a:b:1.0'" +:+ nl) <> EmptyString /\
  extract_content_lines
    ["dependencies {" +:+ nl; "    implementation 'a:b:1.0'" +:+ nl; "}" +:+ nl]
  = ["implementation 'a:b:1.0'"].
Proof.
  destruct (meaningful_iff ("    implementation 'a:b:1.0'" +:+ nl))
    as [[H _] Hextract].
  split.
  - apply H. vm_compute. reflexivity.
  - rewrite Hextract. vm_compute. reflexivity.
Defined.

(** C4 as stated fails: a line that carries other content and ends with
    an opening brace is meaningful in the words of the specification, and
    the filter drops it. *)
Lemma brace_ended_line_dropped :
  meaningful_as_specified ("    doLast {" +:+ nl) /\
  meaningful ("    doLast {" +:+ nl) = false /\
  extract_content_lines ["    doLast {" +:+ nl] = [].
Proof.
  split; [|split; vm_compute; reflexivity].
  unfold meaningful_as_specified.
  replace (strip ("    doLast {" +:+ nl)) with "doLast {"
    by (vm_compute; reflexivity).
  repeat split; (discriminate || reflexivity).
Qed.

End MeaningfulTheorems.

(* ===================================================================== *)
(** * The structural validator *)
(* ===================================================================== *)

Module ValidatorTheorems.
Import PyStr PyDict Loop Scanner Migrator ScannerInvariants Examples.
Import DictFacts ScannerFacts.

Lemma get_of_elem (d : dict GradleSection) k s :
  NoDup (keys d) -> (k, s) ∈ d -> get k d = Some s.
Proof.
  unfold keys. induction d as [|[k0 s0] d IH]; simpl; intros Hnd Hin.
  - inversion Hin.
  - inversion Hnd as [|? ? Hnotin Hnd']; subst.
    apply elem_of_cons in Hin as [[= -> ->]|Hin].
    + rewrite String.eqb_refl. reflexivity.
    + destruct (String.eqb_spec k k0) as [->|Hne]; [|auto].
      exfalso. apply Hnotin. apply (list_elem_of_fmap_2 fst _ _ Hin).
  Qed.

Lemma names_are_keys (d : dict GradleSection) :
  NoDup (keys d) -> (forall k s, get k d = Some s -> name s = k) ->
  map name (values d) = keys d.
Proof.
  intros Hnd Hname. unfold values, keys. rewrite map_map.
  apply map_ext_in. intros [k s] Hin. simpl.
  apply Hname, get_of_elem; [assumption | apply list_elem_of_In; assumption].
Qed.

Lemma count_occ_str_NoDup x (l : list string) :
  NoDup l -> count_occ_str x l <= 1.
Proof.
  unfold count_occ_str. induction l as [|y l IH]; simpl; intros Hnd; [lia|].
  inversion Hnd as [|? ? Hnotin Hnd']; subst.
  destruct (String.eqb_spec x y) as [->|Hne]; simpl; [|auto].
  assert (H0 : List.filter (String.eqb y) l = []).
  { clear -Hnotin. induction l as [|z l IH]; simpl; [reflexivity|].
    apply not_elem_of_cons in Hnotin as [Hne Hnotin].
    destruct (String.eqb_spec y z); [congruence | auto]. }
  rewrite H0. simpl. lia.
Qed.

(** The name list that the validator inspects is the key list of a
    dictionary, so the duplicate filter never keeps a name. *)
Lemma duplicates_never_found set_iter lines d :
  identify_sections lines = Some d ->
  duplicates_of set_iter (map name (values d)) = [].
Proof.
  intros Hid.
  destruct (identify_sections_spec lines) as (d' & Hid' & Hnd & Hok & _).
  rewrite Hid in Hid'. injection Hid' as <-.
  rewrite names_are_keys; [|assumption|intros k s Hg; apply (Hok k s Hg)].
  unfold duplicates_of.
  induction (set_iter (list_to_set (keys d))) as [|x l IH]; simpl; [reflexivity|].
  pose proof (count_occ_str_NoDup x (keys d) Hnd) as Hle.
  destruct (Nat.ltb_spec 1 (count_occ_str x (keys d))); [lia | assumption].
Qed.

(** With balanced braces the validator passes, whatever the sections. *)
Lemma validate_balanced set_iter w text :
  fs w !! build_target_gradle_path (self w) = Some text ->
  brace_scan (join (readlines text)) 0 = Some 0%Z ->
  validate_gradle_structure set_iter w = (Ok true, w).
Proof.
  intros Hfs Hb.
  destruct (identify_sections_spec (readlines text)) as (d & Hid & _).
  unfold validate_gradle_structure, try_except, mbind, M_bind, get_self,
    read_gradle_file.
  rewrite Hfs, Hb. simpl. rewrite Hid. simpl.
  rewrite (duplicates_never_found set_iter _ _ Hid). reflexivity.
Qed.

(** C3, on the code.  The target file has two top-level blocks named
    [plugins]; the scanner keeps the second under the one key, and the
    validator passes without an error, in every set order. *)
Theorem validate_accepts_duplicate_sections set_iter :
  let w := start "source.gradle" "target.gradle"
             {[ "target.gradle" := twice_plugins ]} in
  section_match (strip (line_at (readlines twice_plugins) 0)) = Some "plugins" /\
  section_match (strip (line_at (readlines twice_plugins) 3)) = Some "plugins" /\
  option_map keys (identify_sections (readlines twice_plugins)) = Some ["plugins"] /\
  validate_gradle_structure set_iter w = (Ok true, w) /\
  validation_errors (self w) = [].
Proof.
  intros w.
  split; [vm_compute; reflexivity|]. split; [vm_compute; reflexivity|].
  split; [vm_compute; reflexivity|]. split; [|reflexivity].
  apply (validate_balanced set_iter w twice_plugins); vm_compute; reflexivity.
Qed.

End ValidatorTheorems.

(* ===================================================================== *)
(** * The merge steps *)
(* ===================================================================== *)

Module MergeFacts.
Import PyStr PyDict Loop Scanner Migrator MergeEffects.
Import StrFacts DictFacts ScannerFacts.

Lemma contains_app c a b :
  contains c (a +:+ b) = contains c a || contains c b.
Proof.
  induction a as [|d a IH]; [reflexivity|].
  rewrite append_cons. cbn [contains]. rewrite IH, orb_assoc. reflexivity.
Qed.

Lemma append_assoc a b c : (a +:+ b) +:+ c = a +:+ (b +:+ c).
Proof.
  induction a as [|d a IH]; [reflexivity|].
  rewrite !append_cons, IH. reflexivity.
Qed.

Lemma append_empty a : a +:+ EmptyString = a.
Proof.
  induction a as [|d a IH]; [reflexivity|]. rewrite append_cons, IH.
  reflexivity.
Qed.

(** ** Text files: universal newlines and the cut into lines *)

Lemma join_cut_lines text : join (cut_lines text) = text.
Proof.
  induction text as [|c text IH]; [reflexivity|].
  cbn [cut_lines]. destruct (Ascii.eqb_spec c LF) as [->|_].
  - cbn [join fold_right]. rewrite append_cons, append_nil.
    f_equal. exact IH.
  - destruct (cut_lines text) as [|l ls]; cbn [join fold_right] in *.
    + rewrite <- IH. reflexivity.
    + rewrite append_cons. f_equal. exact IH.
Qed.

(** [''.join(file.readlines())] is the text with its line ends turned into
    newlines. *)
Lemma writelines_readlines text :
  writelines (readlines text) = universal_newlines text.
Proof. apply join_cut_lines. Qed.

Lemma universal_newlines_cons c text :
  universal_newlines (String c text)
  = if Ascii.eqb c CR then
      if startswith text nl then universal_newlines text
      else String LF (universal_newlines text)
    else String c (universal_newlines text).
Proof. reflexivity. Qed.

(** A text without carriage return is read as it is. *)
Lemma universal_newlines_plain text :
  contains CR text = false -> universal_newlines text = text.
Proof.
  induction text as [|c text IH]; [reflexivity|].
  cbn [contains]. intros [Hc Htext]%orb_false_iff.
  rewrite universal_newlines_cons, Hc, (IH Htext). reflexivity.
Qed.

(** What is read holds no carriage return. *)
Lemma universal_newlines_no_CR text :
  contains CR (universal_newlines text) = false.
Proof.
  induction text as [|c text IH]; [reflexivity|].
  rewrite universal_newlines_cons.
  destruct (Ascii.eqb c CR) eqn:Hc.
  - destruct (startswith text nl); [exact IH|].
    cbn [contains]. rewrite IH. reflexivity.
  - cbn [contains]. rewrite Hc, IH. reflexivity.
Qed.

Lemma startswith_nl_app x y :
  x <> EmptyString -> startswith (x +:+ y) nl = startswith x nl.
Proof.
  destruct x as [|c x]; [congruence|]. intros _.
  rewrite append_cons. unfold startswith, nl. cbn [String.prefix].
  destruct (ascii_dec LF c); [|reflexivity].
  destruct x, y; reflexivity.
Qed.

(** Behind a newline the translation starts afresh. *)
Lemma universal_newlines_app x y :
  universal_newlines ((x +:+ nl) +:+ y)
  = universal_newlines (x +:+ nl) +:+ universal_newlines y.
Proof.
  induction x as [|c x IH]; [reflexivity|].
  rewrite !append_cons, !universal_newlines_cons.
  rewrite startswith_nl_app by (destruct x; discriminate).
  destruct (Ascii.eqb c CR), (startswith (x +:+ nl) nl);
    rewrite ?append_cons, IH; reflexivity.
Qed.

Lemma universal_newlines_ends x :
  exists u, universal_newlines (x +:+ nl) = u +:+ nl.
Proof.
  induction x as [|c x (u & IH)]; [exists EmptyString; reflexivity|].
  rewrite append_cons, universal_newlines_cons, IH.
  destruct (Ascii.eqb c CR); [destruct (startswith (x +:+ nl) nl)|].
  - exists u. reflexivity.
  - exists (String LF u). reflexivity.
  - exists (String c u). reflexivity.
Qed.

Lemma cut_lines_cons c text :
  cut_lines (String c text)
  = if Ascii.eqb c LF then String c EmptyString :: cut_lines text
    else match cut_lines text with
         | [] => [String c EmptyString]
         | l :: ls => String c l :: ls
         end.
Proof. reflexivity. Qed.

Lemma cut_lines_nil text : cut_lines text = [] -> text = EmptyString.
Proof.
  destruct text as [|c text]; [reflexivity|]. rewrite cut_lines_cons.
  destruct (Ascii.eqb c LF); [discriminate|].
  destruct (cut_lines text); discriminate.
Qed.

(** Behind a newline the cut starts afresh. *)
Lemma cut_lines_app u v :
  cut_lines ((u +:+ nl) +:+ v) = cut_lines (u +:+ nl) ++ cut_lines v.
Proof.
  induction u as [|c u IH]; [reflexivity|].
  rewrite !append_cons, !cut_lines_cons, IH.
  destruct (Ascii.eqb c LF); [reflexivity|].
  destruct (cut_lines (u +:+ nl)) as [|l ls] eqn:Hcut; [|reflexivity].
  apply cut_lines_nil in Hcut. destruct u; discriminate.
Qed.

Lemma readlines_app x y :
  readlines ((x +:+ nl) +:+ y) = readlines (x +:+ nl) ++ readlines y.
Proof.
  unfold readlines. rewrite universal_newlines_app.
  destruct (universal_newlines_ends x) as [u ->]. apply cut_lines_app.
Qed.

Lemma in_list_spec x l : in_list x l = true <-> x ∈ l.
Proof.
  unfold in_list. rewrite existsb_exists. split.
  - intros (y & Hy & ->%String.eqb_eq). apply list_elem_of_In. assumption.
  - intros Hx. exists x. split; [apply list_elem_of_In; assumption|].
    apply String.eqb_refl.
Qed.

Lemma sublist_slice_insert pos new (lines : list string) :
  sublist lines (slice_insert pos new lines).
Proof.
  unfold slice_insert. rewrite <- (take_drop pos lines) at 1.
  apply sublist_app; [reflexivity|]. apply sublist_inserts_l. reflexivity.
Qed.


(** ** What one step does to the world *)

Lemma migrate_new_section_ok w section_name sec text :
  get section_name (source_sections (self w)) = Some sec ->
  fs w !! build_target_gradle_path (self w) = Some text ->
  _migrate_new_section section_name w
  = (Ok tt,
     {| self := append_change (add_change section_name sec) (self w);
        fs := <[build_target_gradle_path (self w)
                := writelines (new_section_lines sec (readlines text))]> (fs w);
        stdout := stdout w |}).
Proof.
  intros Hsrc Hfs.
  unfold _migrate_new_section, mbind, M_bind, get_self, subscript,
    read_gradle_file.
  rewrite Hsrc. cbn [mret M_ret]. rewrite Hfs. reflexivity.
Qed.

Lemma migrate_new_section_keyerror w section_name :
  get section_name (source_sections (self w)) = None ->
  _migrate_new_section section_name w = (Raise (KeyError section_name), w).
Proof.
  intros Hsrc.
  unfold _migrate_new_section, mbind, M_bind, get_self, subscript.
  rewrite Hsrc. reflexivity.
Qed.

Lemma migrate_new_section_nofile w section_name sec :
  get section_name (source_sections (self w)) = Some sec ->
  fs w !! build_target_gradle_path (self w) = None ->
  _migrate_new_section section_name w
  = (Raise (FileNotFoundError
              ("File not found: " +:+ build_target_gradle_path (self w))), w).
Proof.
  intros Hsrc Hfs.
  unfold _migrate_new_section, mbind, M_bind, get_self, subscript,
    read_gradle_file.
  rewrite Hsrc. cbn [mret M_ret]. rewrite Hfs. reflexivity.
Qed.

Lemma migrate_existing_section_ok w section_name src tgt text :
  get section_name (source_sections (self w)) = Some src ->
  get section_name (target_sections (self w)) = Some tgt ->
  fs w !! build_target_gradle_path (self w) = Some text ->
  _migrate_existing_section section_name w
  = match new_content_of src tgt with
    | [] => (Ok tt, w)
    | _ =>
        (Ok tt,
         {| self := append_change (update_change section_name src tgt) (self w);
            fs := <[build_target_gradle_path (self w)
                    := writelines (updated_section_lines src tgt (readlines text))]>
                    (fs w);
            stdout := stdout w |})
    end.
Proof.
  intros Hsrc Htgt Hfs.
  unfold _migrate_existing_section, mbind, M_bind, get_self, subscript,
    read_gradle_file.
  rewrite Hsrc. cbn [mret M_ret]. rewrite Htgt. cbn [mret M_ret].
  rewrite Hfs. fold (new_content_of src tgt).
  destruct (new_content_of src tgt) eqn:Hnew; [reflexivity|].
  unfold update_change, updated_section_lines. rewrite Hnew. reflexivity.
Qed.

(** Without the section in both mappings, or without the file, the step
    raises before it writes. *)
Lemma migrate_existing_section_raises w section_name :
  get section_name (source_sections (self w)) = None \/
  get section_name (target_sections (self w)) = None \/
  fs w !! build_target_gradle_path (self w) = None ->
  exists e, _migrate_existing_section section_name w = (Raise e, w).
Proof.
  intros H.
  unfold _migrate_existing_section, mbind, M_bind, get_self, subscript,
    read_gradle_file.
  destruct (get section_name (source_sections (self w))) as [src|];
    [|eexists; reflexivity].
  cbn [mret M_ret].
  destruct (get section_name (target_sections (self w))) as [tgt|];
    [|eexists; reflexivity].
  cbn [mret M_ret].
  destruct (fs w !! build_target_gradle_path (self w)) as [text|];
    [|eexists; reflexivity].
  destruct H as [H|[H|H]]; discriminate.
Qed.

(** ** Reading back what was written *)

Lemma cut_lines_line body :
  contains LF body = false -> cut_lines (body +:+ nl) = [body +:+ nl].
Proof.
  induction body as [|c body IH]; intros Hbody; [reflexivity|].
  cbn [contains] in Hbody. apply orb_false_iff in Hbody as [Hc Hbody].
  rewrite append_cons, cut_lines_cons, Hc, (IH Hbody). reflexivity.
Qed.

Lemma readlines_line body rest :
  contains LF body = false -> contains CR body = false ->
  readlines ((body +:+ nl) +:+ rest) = (body +:+ nl) :: readlines rest.
Proof.
  intros HLF HCR. rewrite readlines_app. unfold readlines at 1.
  rewrite universal_newlines_plain, (cut_lines_line body HLF); [reflexivity|].
  rewrite contains_app, HCR. reflexivity.
Qed.

(** In front of any text, lines that end in a newline are read back as
    they are. *)
Lemma readlines_lines_app lines rest :
  Forall ends_line lines ->
  readlines (join lines +:+ rest) = lines ++ readlines rest.
Proof.
  induction 1 as [|line lines (body & -> & HLF & HCR) _ IH]; [reflexivity|].
  cbn [join fold_right]. fold (join lines).
  rewrite append_assoc, (readlines_line body _ HLF HCR), IH. reflexivity.
Qed.

(** [readlines] undoes [writelines] on lines that end in a newline. *)
Lemma readlines_writelines lines :
  Forall ends_line lines -> readlines (writelines lines) = lines.
Proof.
  intros Hlines. unfold writelines.
  rewrite <- (append_empty (join lines)).
  rewrite (readlines_lines_app lines EmptyString Hlines). apply app_nil_r.
Qed.

Lemma ends_line_marker : ends_line added_marker /\ ends_line updated_marker
                         /\ ends_line line_marker /\ ends_line nl.
Proof.
  repeat split;
    (eexists; split; [reflexivity | split; vm_compute; reflexivity])
    || (exists EmptyString; repeat split; reflexivity).
Qed.

Lemma Forall_slice_insert (P : string -> Prop) pos new lines :
  Forall P new -> Forall P lines -> Forall P (slice_insert pos new lines).
Proof.
  intros Hnew Hlines. unfold slice_insert.
  rewrite !Forall_app. split; [apply Forall_take; assumption|].
  split; [assumption | apply Forall_drop; assumption].
Qed.

(** When the lines of the target file and of the source section end in a
    newline, reading the target file after the new-section step gives
    exactly the line list that the step wrote. *)
Lemma new_section_reread w key sec text :
  get key (source_sections (self w)) = Some sec ->
  fs w !! build_target_gradle_path (self w) = Some text ->
  Forall ends_line (readlines text) -> Forall ends_line (content sec) ->
  option_map readlines
    (fs (snd (_migrate_new_section key w)) !! build_target_gradle_path (self w))
  = Some (new_section_lines sec (readlines text)).
Proof.
  intros Hsrc Hfs Htext Hsec.
  rewrite (migrate_new_section_ok w key sec text Hsrc Hfs). cbn [snd fs].
  rewrite lookup_insert_eq. cbn [option_map]. f_equal.
  apply readlines_writelines, Forall_slice_insert; [|assumption].
  destruct ends_line_marker as (Ha & _ & _ & Hnl).
  rewrite !Forall_app. split; [repeat constructor; assumption|].
  split; [assumption | repeat constructor; assumption].
Qed.

Lemma contains_lstrip c s : contains c (lstrip s) = true -> contains c s = true.
Proof.
  induction s as [|d s IH]; cbn [lstrip]; [discriminate|].
  destruct (isspace d); [|tauto].
  intros H. cbn [contains]. rewrite (IH H). apply orb_true_r.
Qed.

Lemma contains_rstrip c s : contains c (rstrip s) = true -> contains c s = true.
Proof.
  induction s as [|d s IH]; cbn [rstrip]; [discriminate|].
  destruct (rstrip s) as [|e r].
  - destruct (isspace d); [discriminate|]. cbn [contains].
    rewrite orb_false_r. intros ->. reflexivity.
  - cbn [contains] in *. intros [->|H]%orb_true_iff; [reflexivity|].
    rewrite (IH H). apply orb_true_r.
Qed.

Lemma rstrip_nl s : rstrip (s +:+ nl) = rstrip s.
Proof.
  induction s as [|d s IH]; [reflexivity|].
  rewrite append_cons. cbn [rstrip]. rewrite IH. reflexivity.
Qed.

Lemma lstrip_line body :
  lstrip (body +:+ nl) = EmptyString \/
  exists body', lstrip (body +:+ nl) = body' +:+ nl /\
                (contains LF body' = true -> contains LF body = true).
Proof.
  induction body as [|d body IH]; [left; reflexivity|].
  rewrite append_cons. cbn [lstrip]. destruct (isspace d).
  - destruct IH as [IH|(body' & Hb & Hc)]; [left; exact IH|].
    right. exists body'. split; [exact Hb|].
    intros H. cbn [contains]. rewrite (Hc H). apply orb_true_r.
  - right. exists (String d body). split; [reflexivity | tauto].
Qed.

(** A trimmed line holds no newline and no carriage return. *)
Lemma strip_line_no_LF line : ends_line line -> contains LF (strip line) = false.
Proof.
  intros (body & -> & Hbody & _). unfold strip.
  destruct (lstrip_line body) as [->|(body' & -> & Hc)]; [reflexivity|].
  rewrite rstrip_nl. apply not_true_iff_false. intros H.
  apply contains_rstrip, Hc in H. congruence.
Qed.

Lemma strip_line_no_CR line : ends_line line -> contains CR (strip line) = false.
Proof.
  intros (body & -> & _ & Hbody). unfold strip.
  apply not_true_iff_false. intros H.
  apply contains_rstrip, contains_lstrip in H.
  rewrite contains_app, Hbody in H. discriminate.
Qed.

Lemma extract_content_lines_plain section_content :
  Forall ends_line section_content ->
  Forall (fun line => contains LF line = false /\ contains CR line = false)
    (extract_content_lines section_content).
Proof.
  induction 1 as [|line rest Hline _ IH]; cbn [extract_content_lines];
    [constructor|].
  destruct (keeps (strip line)); [|exact IH].
  constructor; [|exact IH].
  split; [apply strip_line_no_LF | apply strip_line_no_CR]; exact Hline.
Qed.

(** The same for the common-section step. *)
Lemma existing_section_reread w key src tgt text :
  get key (source_sections (self w)) = Some src ->
  get key (target_sections (self w)) = Some tgt ->
  fs w !! build_target_gradle_path (self w) = Some text ->
  Forall ends_line (readlines text) -> Forall ends_line (content src) ->
  new_content_of src tgt <> [] ->
  option_map readlines
    (fs (snd (_migrate_existing_section key w)) !! build_target_gradle_path (self w))
  = Some (updated_section_lines src tgt (readlines text)).
Proof.
  intros Hsrc Htgt Hfs Htext Hcontent Hnew.
  rewrite (migrate_existing_section_ok w key src tgt text Hsrc Htgt Hfs).
  destruct (new_content_of src tgt) as [|x l] eqn:Hnc; [congruence|].
  cbn [snd fs]. rewrite lookup_insert_eq. cbn [option_map]. f_equal.
  destruct ends_line_marker as (_ & Hu & Hm & _).
  apply readlines_writelines. unfold updated_section_lines.
  apply Forall_slice_insert;
    [|apply Forall_slice_insert; [repeat constructor|]; assumption].
  assert (Hfree : Forall (fun line => contains LF line = false
                                     /\ contains CR line = false)
                    (new_content_of src tgt)).
  { unfold new_content_of. apply Forall_forall. intros line Hin.
    apply list_elem_of_In, filter_In in Hin as [Hin _].
    pose proof (extract_content_lines_plain _ Hcontent) as Hall.
    rewrite Forall_forall in Hall. apply Hall, list_elem_of_In. exact Hin. }
  clear Hnc. induction Hfree as [|line rest [HLF HCR] _ IH]; cbn [flat_map];
    [constructor|].
  destruct (truthy line && negb (startswith line "//")); [|exact IH].
  cbn [app]. constructor; [exact Hm|]. constructor; [|exact IH].
  exists ("    " +:+ line). split; [|split].
  - clear. rewrite !append_cons, append_nil. reflexivity.
  - rewrite contains_app, HLF. reflexivity.
  - rewrite contains_app, HCR. reflexivity.
Qed.

(** ** The lines of a file, and the lines around an insertion *)

Lemma contains_cut_lines c text line :
  line ∈ cut_lines text -> contains c line = true -> contains c text = true.
Proof.
  intros Hin Hc. rewrite <- (join_cut_lines text).
  revert Hin. generalize (cut_lines text). intros ls Hin.
  induction Hin as [line ls|line l ls _ IH]; cbn [join fold_right];
    rewrite contains_app.
  - rewrite Hc. reflexivity.
  - fold (join ls). rewrite (IH Hc). apply orb_true_r.
Qed.

Lemma cut_lines_shape text : forall i line,
  cut_lines text !! i = Some line ->
  (exists body, line = body +:+ nl /\ contains LF body = false) \/
  (contains LF line = false /\ line <> EmptyString /\
   i + 1 = length (cut_lines text)).
Proof.
  induction text as [|c text IH]; intros i line Hi; [discriminate|].
  rewrite cut_lines_cons in *. destruct (Ascii.eqb c LF) eqn:Hc.
  - apply Ascii.eqb_eq in Hc as ->. destruct i as [|i].
    + injection Hi as <-. left. exists EmptyString. split; reflexivity.
    + cbn [lookup list_lookup] in Hi.
      destruct (IH i line Hi) as [H|(H1 & H2 & H3)]; [left; exact H|].
      right. cbn [length]. repeat split; [exact H1 | exact H2 | lia].
  - destruct (cut_lines text) as [|l ls] eqn:Hr.
    + destruct i as [|i]; [|discriminate]. injection Hi as <-. right.
      cbn [contains]. rewrite Hc. repeat split. discriminate.
    + destruct i as [|i].
      * injection Hi as <-.
        destruct (IH 0 l eq_refl) as [(body & -> & Hb)|(H1 & H2 & H3)].
        -- left. exists (String c body). split; [reflexivity|].
           cbn [contains]. rewrite Hc, Hb. reflexivity.
        -- right. cbn [contains length] in *. rewrite Hc, H1.
           repeat split; [discriminate | exact H3].
      * cbn [lookup list_lookup] in Hi.
        destruct (IH (S i) line Hi) as [H|(H1 & H2 & H3)]; [left; exact H|].
        right. cbn [length] in *. repeat split; assumption.
Qed.

(** A line that [readlines] returns holds no carriage return, and a
    newline at its end only; the last line alone may lack the newline. *)
Lemma readlines_shape text i line :
  readlines text !! i = Some line ->
  contains CR line = false /\
  (ends_line line \/
   (contains LF line = false /\ line <> EmptyString /\
    i + 1 = length (readlines text))).
Proof.
  intros Hi.
  assert (HCR : contains CR line = false).
  { apply not_true_iff_false. intros H.
    apply (contains_cut_lines CR (universal_newlines text)) in H;
      [|exact (list_elem_of_lookup_2 _ _ _ Hi)].
    rewrite universal_newlines_no_CR in H. discriminate. }
  split; [exact HCR|].
  destruct (cut_lines_shape _ i line Hi) as [(body & -> & Hb)|H];
    [|right; exact H].
  left. exists body. split; [reflexivity|]. split; [exact Hb|].
  rewrite contains_app in HCR. apply orb_false_iff in HCR as [H _]. exact H.
Qed.

(** A text put together from pieces that end in a newline ends in a
    newline, unless it is empty. *)
Lemma join_ends pieces :
  Forall (fun piece => exists x, piece = x +:+ nl) pieces ->
  join pieces = EmptyString \/ exists x, join pieces = x +:+ nl.
Proof.
  induction 1 as [|piece pieces [x ->] _ IH]; [left; reflexivity|].
  right. cbn [join fold_right]. fold (join pieces).
  destruct IH as [->|[y ->]].
  - exists x. apply append_empty.
  - exists ((x +:+ nl) +:+ y). symmetry. apply append_assoc.
Qed.

Lemma new_section_text_ends (sec : GradleSection) :
  exists x, join ([added_marker] ++ content sec ++ [nl]) = x +:+ nl.
Proof.
  exists (added_marker +:+ join (content sec)).
  rewrite !join_app. cbn [join fold_right].
  rewrite !append_empty, append_assoc. reflexivity.
Qed.

Lemma new_content_text_ends (new_content : list string) :
  let new_content_lines :=
    flat_map (fun content =>
                if truthy content && negb (startswith content "//")
                then [line_marker; "    " +:+ content +:+ nl]
                else [])
      new_content in
  join new_content_lines = EmptyString \/
  exists x, join new_content_lines = x +:+ nl.
Proof.
  apply join_ends. induction new_content as [|content rest IH];
    cbn [flat_map]; [constructor|].
  destruct (truthy content && negb (startswith content "//")); [|exact IH].
  cbn [app]. constructor; [eexists; reflexivity|].
  constructor; [|exact IH].
  exists ("    " +:+ content). rewrite append_assoc. reflexivity.
Qed.

(** ** Where the common-section step puts its lines *)

Lemma length_slice_insert pos new (lines : list string) :
  length (slice_insert pos new lines) = length lines + length new.
Proof.
  unfold slice_insert. rewrite !length_app.
  rewrite <- (take_drop pos lines) at 3. rewrite length_app. lia.
Qed.

(** The forward search for the line of the opening brace. *)
Lemma after_open_brace_spec lines : forall n i dflt,
  let p := after_open_brace lines i n dflt in
  (p = dflt /\
   forall j, i <= j < i + n -> contains "{" (line_at lines j) = false) \/
  (exists j, p = j + 1 /\ i <= j < i + n /\
             contains "{" (line_at lines j) = true /\
             forall j', i <= j' < j -> contains "{" (line_at lines j') = false).
Proof.
  induction n as [|n IH]; intros i dflt; cbn [after_open_brace].
  - left. split; [reflexivity | intros; lia].
  - destruct (contains "{" (line_at lines i)) eqn:Hi.
    + right. exists i. repeat split; [lia | lia | exact Hi | intros; lia].
    + destruct (IH (S i) dflt) as [[Hp Hall]|(j & Hp & Hj & Hat & Hall)].
      * left. split; [exact Hp|]. intros j Hj.
        destruct (decide (j = i)) as [->|]; [exact Hi | apply Hall; lia].
      * right. exists j. repeat split; [exact Hp | lia | lia | exact Hat|].
        intros j' Hj'.
        destruct (decide (j' = i)) as [->|]; [exact Hi | apply Hall; lia].
Qed.

(** The lines around a line put in at [pos]. *)
Lemma line_at_inserted pos (x : string) lines :
  pos <= length lines ->
  line_at (slice_insert pos [x] lines) pos = x /\
  forall j, pos <= j -> line_at (slice_insert pos [x] lines) (S j) = line_at lines j.
Proof.
  intros Hpos. unfold line_at, slice_insert. split.
  - rewrite nth_lookup, lookup_app_r; rewrite length_take; [|lia].
    replace (pos - pos `min` length lines) with 0 by lia. reflexivity.
  - intros j Hj. rewrite !nth_lookup. f_equal.
    rewrite lookup_app_r; rewrite length_take; [|lia].
    replace (S j - pos `min` length lines) with (S (j - pos)) by lia.
    cbn [app]. rewrite lookup_cons, lookup_drop. f_equal. lia.
Qed.

(** A block put in [k] lines behind a line that was put in at [pos]. *)
Lemma slice_insert_behind pos k (x : string) new lines :
  slice_insert (pos + k + 1) new (slice_insert pos [x] lines)
  = take pos lines ++ [x] ++ take k (drop pos lines) ++ new
    ++ drop (pos + k) lines.
Proof.
  unfold slice_insert. destruct (decide (pos <= length lines)) as [Hle|Hgt].
  - assert (Hlen : length (take pos lines) = pos)
      by (rewrite length_take; lia).
    replace (pos + k + 1) with (length (take pos lines) + S k) by lia.
    rewrite take_app_add, drop_app_add. cbn [app take drop].
    rewrite drop_drop, <- !app_assoc. reflexivity.
  - rewrite (take_ge lines pos), (drop_ge lines pos) by lia.
    rewrite (drop_ge lines (pos + k)) by lia. cbn [app].
    rewrite take_ge, drop_ge by (rewrite length_app; cbn [length]; lia).
    rewrite take_nil, <- !app_assoc. reflexivity.
Qed.

(** The line list that the common-section step writes: the marker at the
    recorded start line, and the new lines behind the first line from there
    on that holds an opening brace, [k] lines further down. *)
Lemma updated_section_lines_shape src tgt lines :
  let s := start_line tgt in
  exists k,
    ((k = 0 /\
      forall i, s <= i < length lines ->
                contains "{" (line_at lines i) = false) \/
     (0 < k /\ s + k <= length lines /\
      contains "{" (line_at lines (s + k - 1)) = true /\
      forall i, s <= i < s + k - 1 ->
                contains "{" (line_at lines i) = false)) /\
    updated_section_lines src tgt lines
    = take s lines ++ [updated_marker] ++ take k (drop s lines)
      ++ flat_map (fun content =>
                     if truthy content && negb (startswith content "//")
                     then [line_marker; "    " +:+ content +:+ nl]
                     else [])
           (new_content_of src tgt)
      ++ drop (s + k) lines.
Proof.
  intros s. unfold updated_section_lines. cbv zeta. fold s.
  pose proof (after_open_brace_spec
                (slice_insert s [updated_marker] lines)
                (length (slice_insert s [updated_marker] lines) - s)
                s (s + 1)) as Hp.
  cbv zeta in Hp. rewrite length_slice_insert in Hp |- *.
  cbn [length] in Hp |- *.
  destruct (decide (s <= length lines)) as [Hle|Hgt].
  - destruct (line_at_inserted s updated_marker lines Hle) as [Hat Hnext].
    destruct Hp as [[-> Hall]|(j & -> & Hj & Hbrace & Hall)].
    + exists 0. split.
      * left. split; [reflexivity|]. intros i Hi.
        rewrite <- (Hnext i) by lia. apply Hall. lia.
      * rewrite <- (slice_insert_behind s 0). do 2 f_equal. lia.
    + destruct (decide (j = s)) as [->|Hne].
      { rewrite Hat in Hbrace. vm_compute in Hbrace. discriminate. }
      exists (j - s). split.
      * right. split; [lia|]. split; [lia|]. split.
        -- rewrite <- (Hnext (s + (j - s) - 1)) by lia.
           replace (S (s + (j - s) - 1)) with j by lia. exact Hbrace.
        -- intros i Hi. rewrite <- (Hnext i) by lia. apply Hall. lia.
      * rewrite <- (slice_insert_behind s (j - s)). do 2 f_equal. lia.
  - exists 0. split; [left; split; [reflexivity | intros; lia]|].
    replace (length lines + 1 - s) with 0 by lia.
    cbn [after_open_brace]. rewrite <- (slice_insert_behind s 0).
    do 2 f_equal. lia.
Qed.

(** ** Lines kept across an insertion *)

Lemma universal_newlines_plain_app l y :
  contains CR l = false ->
  universal_newlines (l +:+ y) = l +:+ universal_newlines y.
Proof.
  induction l as [|c l IH]; [reflexivity|].
  cbn [contains]. intros [Hc Hl]%orb_false_iff.
  rewrite !append_cons, universal_newlines_cons, Hc, (IH Hl). reflexivity.
Qed.

Lemma cut_lines_bare_app l u :
  contains LF l = false -> l <> EmptyString ->
  cut_lines (l +:+ u)
  = match cut_lines u with
    | [] => [l]
    | first :: rest => (l +:+ first) :: rest
    end.
Proof.
  induction l as [|c l IH]; [congruence|].
  cbn [contains]. intros [Hc Hl]%orb_false_iff _.
  rewrite append_cons, cut_lines_cons, Hc. destruct l as [|d l].
  - rewrite append_nil. destruct (cut_lines u); reflexivity.
  - rewrite (IH Hl) by discriminate. destruct (cut_lines u); reflexivity.
Qed.

(** Text written behind a line without newline is read as part of it. *)
Lemma readlines_bare_app l y :
  contains LF l = false -> contains CR l = false -> l <> EmptyString ->
  readlines (l +:+ y)
  = match readlines y with
    | [] => [l]
    | first :: rest => (l +:+ first) :: rest
    end.
Proof.
  intros HLF HCR Hne. unfold readlines.
  rewrite (universal_newlines_plain_app l y HCR).
  apply cut_lines_bare_app; assumption.
Qed.

Lemma inserted_refl lines : inserted lines lines.
Proof. induction lines; constructor; assumption. Qed.

Lemma inserted_app old written old' written' :
  inserted old written -> inserted old' written' ->
  inserted (old ++ old') (written ++ written').
Proof.
  induction 1 as [|line old written _ IH|block old written Hb _ IH];
    intros H'; cbn [app].
  - exact H'.
  - constructor. apply IH, H'.
  - rewrite <- app_assoc. constructor; [exact Hb | apply IH, H'].
Qed.

Lemma inserted_only block : closed_block block -> inserted [] block.
Proof.
  intros Hb. rewrite <- (app_nil_r block). constructor; [exact Hb | constructor].
Qed.

Lemma inserted_slice_insert pos block lines :
  closed_block block -> inserted lines (slice_insert pos block lines).
Proof.
  intros Hb. unfold slice_insert. rewrite <- (take_drop pos lines) at 1.
  apply inserted_app; [apply inserted_refl|].
  constructor; [exact Hb | apply inserted_refl].
Qed.

Lemma inserted_new_section sec lines :
  inserted lines (new_section_lines sec lines).
Proof.
  apply inserted_slice_insert. right. apply new_section_text_ends.
Qed.

Lemma inserted_updated_section src tgt lines :
  inserted lines (updated_section_lines src tgt lines).
Proof.
  destruct (updated_section_lines_shape src tgt lines) as (k & _ & ->).
  rewrite <- (take_drop (start_line tgt) lines) at 1.
  rewrite <- (take_drop k (drop (start_line tgt) lines)) at 1.
  rewrite drop_drop.
  apply inserted_app; [apply inserted_refl|].
  apply (inserted_app [] [updated_marker]);
    [apply inserted_only; right;
     exists "// Section updated in migration from source to target";
     reflexivity|].
  apply inserted_app; [apply inserted_refl|].
  apply (inserted_app []); [|apply inserted_refl].
  apply inserted_only, new_content_text_ends.
Qed.

Lemma bare_line_open line :
  contains LF line = false -> endswith line nl = true -> False.
Proof.
  intros HLF [r ->]%endswith_spec.
  rewrite contains_app in HLF. apply orb_false_iff in HLF as [_ HLF].
  discriminate.
Qed.

(** Reading back a line list into which blocks were put: every old line is
    kept, and the lines kept stand in their order among the lines read. *)
Lemma inserted_reread old written :
  inserted old written ->
  (forall i line, old !! i = Some line ->
     contains CR line = false /\
     (ends_line line \/
      (contains LF line = false /\ line <> EmptyString /\
       i + 1 = length old))) ->
  insert_only old (readlines (writelines written)).
Proof.
  unfold writelines.
  induction 1 as [|line old written _ IH|block old written Hb _ IH];
    intros Hshape.
  - exists []. split; [constructor | apply sublist_nil_l].
  - cbn [join fold_right]. fold (join written).
    destruct (Hshape 0 line eq_refl) as (HCR & [Hline|(HLF & Hne & Hlast)]).
    + destruct IH as (kept & Hkept & Hsub).
      { intros i l Hi. destruct (Hshape (S i) l Hi) as (Hc & [Hl|(H1 & H2 & H3)]).
        - split; [exact Hc | left; exact Hl].
        - split; [exact Hc|]. right. cbn [length] in H3.
          repeat split; [exact H1 | exact H2 | lia]. }
      exists (line :: kept). split.
      * constructor; [|exact Hkept].
        split; [reflexivity | exists EmptyString; symmetry; apply append_empty].
      * destruct Hline as (body & -> & HLFb & HCRb).
        rewrite (readlines_line body _ HLFb HCRb). apply sublist_skip, Hsub.
    + destruct old as [|l old]; [|cbn [length] in Hlast; lia].
      rewrite (readlines_bare_app line _ HLF HCR Hne).
      destruct (readlines (join written)) as [|first rest].
      * exists [line]. split; [|reflexivity].
        constructor; [|constructor].
        split; [reflexivity | exists EmptyString; symmetry; apply append_empty].
      * exists [line +:+ first]. split.
        -- constructor; [|constructor]. split; [|exists first; reflexivity].
           intros Hends. destruct (bare_line_open line HLF Hends).
        -- apply sublist_skip, sublist_nil_l.
  - destruct (IH Hshape) as (kept & Hkept & Hsub).
    exists kept. split; [exact Hkept|]. rewrite join_app.
    destruct Hb as [->|[x ->]]; [rewrite append_nil; exact Hsub|].
    rewrite readlines_app. apply sublist_inserts_l, Hsub.
Qed.

Lemma insert_only_refl lines : insert_only lines lines.
Proof.
  exists lines. split; [|reflexivity].
  induction lines as [|line lines IH]; constructor; [|exact IH].
  split; [reflexivity | exists EmptyString; symmetry; apply append_empty].
Qed.

(** When every line ends in a newline, the lines kept are the lines. *)
Lemma kept_ended before kept :
  Forall2 line_kept before kept ->
  (forall line, line ∈ before -> endswith line nl = true) ->
  kept = before.
Proof.
  induction 1 as [|old new before kept [Hold _] _ IH]; intros Hended;
    [reflexivity|].
  rewrite Hold by (apply Hended; left). f_equal. apply IH.
  intros line Hin. apply Hended. right. exact Hin.
Qed.

Lemma insert_only_sublist before after :
  insert_only before after ->
  (forall line, line ∈ before -> endswith line nl = true) ->
  sublist before after.
Proof.
  intros Hkeep Hended. destruct Hkeep as (kept & Hkept & Hsub).
  rewrite <- (kept_ended before kept Hkept Hended). exact Hsub.
Qed.

End MergeFacts.

Module MergeTheorems.
Import PyStr PyDict Loop Scanner Migrator MergeEffects Examples.
Import StrFacts DictFacts ScannerFacts MergeFacts.



(** C6.  When every meaningful line of the source section is among the
    meaningful lines of the target section, the common-section step leaves
    the files and the change log as they are: the world is unchanged, and
    the step returns normally when the target file exists. *)
Theorem identical_common_section_untouched w key src tgt :
  get key (source_sections (self w)) = Some src ->
  get key (target_sections (self w)) = Some tgt ->
  (forall line, line ∈ extract_content_lines (content src) ->
                line ∈ extract_content_lines (content tgt)) ->
  snd (_migrate_existing_section key w) = w /\
  (is_Some (fs w !! build_target_gradle_path (self w)) ->
   _migrate_existing_section key w = (Ok tt, w)).
Proof.
  intros Hsrc Htgt Hall.
  assert (Hnew : new_content_of src tgt = []).
  { unfold new_content_of.
    induction (extract_content_lines (content src)) as [|x l IH];
      [reflexivity|]. cbn [List.filter].
    assert (Hx : in_list x (extract_content_lines (content tgt)) = true)
      by (apply in_list_spec, Hall; left).
    rewrite Hx. cbn [negb]. apply IH. intros line Hin. apply Hall. right.
    assumption. }
  destruct (fs w !! build_target_gradle_path (self w)) as [text|] eqn:Hfs.
  - rewrite (migrate_existing_section_ok w key src tgt text Hsrc Htgt Hfs), Hnew.
    split; [reflexivity | intros _; reflexivity].
  - destruct (migrate_existing_section_raises w key) as [e ->]; [tauto|].
    split; [reflexivity | intros [? ?]; discriminate].
Qed.

Lemma identical_common_section_untouched_witness :
  _migrate_existing_section "plugins" same_parsed = (Ok tt, same_parsed).
Proof.
  destruct (identical_common_section_untouched same_parsed "plugins"
              {| name := "plugins";
                 content := readlines (text_of ["plugins {"; "    id 'java'"; "}"]);
                 start_line := 0; end_line := 2;
                 section_type := PLUGINS; indentation := EmptyString |}
              {| name := "plugins";
                 content := readlines (text_of ["plugins {"; "    id 'java'";
                                                "    id 'application'"; "}"]);
                 start_line := 0; end_line := 3;
                 section_type := PLUGINS; indentation := EmptyString |})
    as [_ H].
  - vm_compute. reflexivity.
  - vm_compute. reflexivity.
  - intros line Hin. vm_compute in Hin. vm_compute.
    apply list_elem_of_singleton in Hin as ->. left.
  - apply H. vm_compute. eexists. reflexivity.
Defined.

(** C9 as stated fails: the target file is the one line [version = '1.0']
    without a newline at its end, and the source has a section that the
    target lacks.  No line of the target is just a closing brace, so the
    new-section step puts the section in at the end: the marker comment is
    written directly behind the last line, and the line list of the file
    after the step no longer holds the line that the file had before. *)
Theorem last_line_without_newline_edited :
  let w := unended_parsed in
  let before := readlines unended_target in
  exists text',
    read_gradle_file "target.gradle" w = (Ok before, w) /\
    before = ["version = '1.0'"] /\
    fs (snd (_migrate_new_section "custom" w)) !! "target.gradle" = Some text' /\
    readlines text'
    = ["version = '1.0'// Section Added in migration from source project" +:+ nl;
       "custom {" +:+ nl; "  a" +:+ nl; "}" +:+ nl; nl] /\
    ("version = '1.0'" ∉ readlines text') /\
    ~ sublist before (readlines text').
Proof.
  intros w before. eexists.
  split; [vm_compute; reflexivity|]. split; [vm_compute; reflexivity|].
  split; [vm_compute; reflexivity|]. split; [vm_compute; reflexivity|].
  assert (Hnot : "version = '1.0'" ∉
                 readlines
                   (writelines
                      ["version = '1.0'"; added_marker; "custom {" +:+ nl;
                       "  a" +:+ nl; "}" +:+ nl; nl])).
  { intros Hin. vm_compute in Hin.
    repeat (apply elem_of_cons in Hin as [Hin|Hin]; [discriminate|]).
    inversion Hin. }
  split; [exact Hnot|].
  intros Hsub. apply Hnot.
  apply (elem_of_sublist before); [vm_compute; left | exact Hsub].
Qed.

(** C9, as the steps have it.  Each of the two merge steps, whatever its
    outcome, leaves a target file in which every line read before the step
    is kept, in its place among the others: a line that ends in a newline
    stands there as it was, and a last line without newline is the start of
    the line that stands for it, as text put in behind it is read as part
    of it.  So when every line read before the step ends in a newline, the
    line list read before the step is a subsequence of the line list read
    after it: lines are only put in, none is taken out, changed or moved. *)
Theorem merge_steps_insert_only w key text :
  fs w !! build_target_gradle_path (self w) = Some text ->
  (exists text',
     fs (snd (_migrate_new_section key w)) !! build_target_gradle_path (self w)
     = Some text' /\
     insert_only (readlines text) (readlines text') /\
     ((forall line, line ∈ readlines text -> endswith line nl = true) ->
      sublist (readlines text) (readlines text'))) /\
  (exists text',
     fs (snd (_migrate_existing_section key w)) !! build_target_gradle_path (self w)
     = Some text' /\
     insert_only (readlines text) (readlines text') /\
     ((forall line, line ∈ readlines text -> endswith line nl = true) ->
      sublist (readlines text) (readlines text'))).
Proof.
  intros Hfs.
  assert (Hkeep : forall written,
            inserted (readlines text) written ->
            insert_only (readlines text) (readlines (writelines written)) /\
            ((forall line, line ∈ readlines text -> endswith line nl = true) ->
             sublist (readlines text) (readlines (writelines written)))).
  { intros written Hins.
    assert (H : insert_only (readlines text) (readlines (writelines written)))
      by (apply (inserted_reread _ _ Hins); apply readlines_shape).
    split; [exact H | apply insert_only_sublist, H]. }
  assert (Hsame : insert_only (readlines text) (readlines text) /\
                  ((forall line, line ∈ readlines text ->
                                 endswith line nl = true) ->
                   sublist (readlines text) (readlines text)))
    by (split; [apply insert_only_refl | reflexivity]).
  split.
  - destruct (get key (source_sections (self w))) as [sec|] eqn:Hsrc.
    + rewrite (migrate_new_section_ok w key sec text Hsrc Hfs). cbn [snd fs].
      eexists. split; [apply lookup_insert_eq|].
      apply Hkeep, inserted_new_section.
    + rewrite (migrate_new_section_keyerror w key Hsrc). cbn [snd].
      exists text. split; [exact Hfs | exact Hsame].
  - destruct (get key (source_sections (self w))) as [src|] eqn:Hsrc;
      [destruct (get key (target_sections (self w))) as [tgt|] eqn:Htgt|].
    + rewrite (migrate_existing_section_ok w key src tgt text Hsrc Htgt Hfs).
      destruct (new_content_of src tgt) eqn:Hnew; cbn [snd fs].
      * exists text. split; [exact Hfs | exact Hsame].
      * eexists. split; [apply lookup_insert_eq|].
        apply Hkeep, inserted_updated_section.
    + destruct (migrate_existing_section_raises w key) as [e ->]; [tauto|].
      exists text. split; [exact Hfs | exact Hsame].
    + destruct (migrate_existing_section_raises w key) as [e ->]; [tauto|].
      exists text. split; [exact Hfs | exact Hsame].
Qed.

Lemma merge_steps_insert_only_witness :
  (exists text',
     fs (snd (_migrate_new_section "custom" unended_parsed)) !! "target.gradle"
     = Some text' /\
     insert_only (readlines unended_target) (readlines text')) /\
  (exists text',
     fs (snd (_migrate_existing_section "plugins" Entry.common_parsed))
       !! "target.gradle" = Some text' /\
     sublist (readlines (text_of ["plugins {"; "}"; "dependencies {"; "}"]))
             (readlines text')).
Proof.
  split.
  - destruct (merge_steps_insert_only unended_parsed "custom" unended_target)
      as [(text' & Hfs & Hkeep & _) _]; [vm_compute; reflexivity|].
    exists text'. split; assumption.
  - destruct (merge_steps_insert_only Entry.common_parsed "plugins"
                (text_of ["plugins {"; "}"; "dependencies {"; "}"]))
      as [_ (text' & Hfs & _ & Hsub)]; [vm_compute; reflexivity|].
    exists text'. split; [exact Hfs|]. apply Hsub.
    intros line Hin. vm_compute in Hin.
    repeat (apply elem_of_cons in Hin as [->|Hin]; [vm_compute; reflexivity|]).
    inversion Hin.
Defined.

End MergeTheorems.

(* ===================================================================== *)
(** * The whole run *)
(* ===================================================================== *)

Module RunTheorems.
Import PyStr PyDict Loop Scanner Migrator MergeEffects AsSpecified Examples.
Import StrFacts DictFacts ScannerFacts MergeFacts.

(** The initial parse with a file missing: which path is reported, and what
    is left untouched. *)
Lemma parse_missing_file w :
  fs w !! build_source_gradle_path (self w) = None \/
  fs w !! build_target_gradle_path (self w) = None ->
  fs w !! first_missing w = None /\
  exists w',
    parse_gradle_files w
    = (Raise (FileNotFoundError
                ("Error reading Gradle file: File not found: "
                 +:+ first_missing w)), w') /\
    fs w' = fs w /\ stdout w' = stdout w /\
    migration_changes (self w') = migration_changes (self w).
Proof.
  intros Hmiss.
  unfold parse_gradle_files, try_except, mbind, M_bind, get_self,
    read_gradle_file, first_missing.
  destruct (fs w !! build_source_gradle_path (self w)) as [text|] eqn:Hsrc.
  - destruct Hmiss as [Hmiss|Hmiss]; [discriminate|].
    destruct (identify_sections_spec (readlines text)) as (d & Hid & _).
    rewrite Hid. cbn [of_loop modify_self fs self]. rewrite Hmiss.
    split; [reflexivity|]. eexists.
    split; [reflexivity|]. repeat split; reflexivity.
  - split; [exact Hsrc|]. exists w.
    split; [reflexivity|]. repeat split; reflexivity.
Qed.

(** C8.  When the source path or the target path names no file, the initial
    parse raises a file-not-found error that names the missing path (the
    source path when both are missing), the run stops there and returns the
    failure message, and neither the files nor the change log have
    changed. *)
Theorem missing_file_fails_fast set_iter w :
  fs w !! build_source_gradle_path (self w) = None \/
  fs w !! build_target_gradle_path (self w) = None ->
  let path := first_missing w in
  fs w !! path = None /\
  exists w1 w2,
    parse_gradle_files w
    = (Raise (FileNotFoundError
                ("Error reading Gradle file: File not found: " +:+ path)), w1) /\
    fs w1 = fs w /\
    migration_changes (self w1) = migration_changes (self w) /\
    run_migration set_iter w
    = (Ok ("Migration failed with error: Error reading Gradle file: "
           +:+ "File not found: " +:+ path), w2) /\
    fs w2 = fs w /\
    migration_changes (self w2) = migration_changes (self w) /\
    stdout w2 = stdout w ++ ["Step 1: Parsing Gradle files..."].
Proof.
  intros Hmiss path.
  destruct (parse_missing_file w Hmiss)
    as (Hnone & w1 & Hparse & Hfs1 & _ & Hlog1).
  set (printed := {| self := self w; fs := fs w;
                     stdout := stdout w ++ ["Step 1: Parsing Gradle files..."] |}).
  destruct (parse_missing_file printed Hmiss)
    as (_ & w2 & Hparse' & Hfs2 & Hout2 & Hlog2).
  change (first_missing printed) with path in Hparse'.
  split; [exact Hnone|]. exists w1, w2.
  split; [exact Hparse|]. split; [exact Hfs1|]. split; [exact Hlog1|]. split.
  - unfold run_migration, try_except, mbind at 1, M_bind at 1.
    unfold mbind at 1, M_bind at 1. unfold print at 1. fold printed.
    rewrite Hparse'. reflexivity.
  - split; [exact Hfs2|]. split; [exact Hlog2 | exact Hout2].
Qed.

Lemma missing_file_fails_fast_witness :
  exists w',
    run_migration elements (start "source.gradle" "target.gradle" ∅)
    = (Ok ("Migration failed with error: Error reading Gradle file: "
           +:+ "File not found: source.gradle"), w') /\
    fs w' = ∅ /\ migration_changes (self w') = [].
Proof.
  destruct (missing_file_fails_fast elements
              (start "source.gradle" "target.gradle" ∅))
    as (_ & w1 & w2 & _ & _ & _ & Hrun & Hfs & Hlog & _).
  - left. vm_compute. reflexivity.
  - exists w2. split; [exact Hrun | split; assumption].
Defined.

(** ** The order of the steps *)

Lemma changes_append c m :
  migration_changes (append_change c m) = migration_changes m ++ [c].
Proof. reflexivity. Qed.

Lemma source_sections_append c m :
  source_sections (append_change c m) = source_sections m.
Proof. reflexivity. Qed.

Lemma target_sections_append c m :
  target_sections (append_change c m) = target_sections m.
Proof. reflexivity. Qed.

Lemma target_path_append c m :
  build_target_gradle_path (append_change c m) = build_target_gradle_path m.
Proof. reflexivity. Qed.

Ltac frame_append :=
  cbn [self fs] in *;
  rewrite ?changes_append, ?source_sections_append, ?target_sections_append,
    ?target_path_append in *.

Lemma for_each_new names : forall w,
  (forall k, k ∈ names -> is_Some (get k (source_sections (self w)))) ->
  is_Some (fs w !! build_target_gradle_path (self w)) ->
  exists w' adds,
    for_each names _migrate_new_section w = (Ok tt, w') /\
    migration_changes (self w') = migration_changes (self w) ++ adds /\
    map section_name adds = names /\
    Forall (fun c => change_type c = "ADD") adds /\
    source_sections (self w') = source_sections (self w) /\
    target_sections (self w') = target_sections (self w) /\
    build_target_gradle_path (self w') = build_target_gradle_path (self w) /\
    is_Some (fs w' !! build_target_gradle_path (self w')).
Proof.
  induction names as [|k names IH]; intros w Hkeys Hfile.
  - exists w, []. cbn [for_each]. rewrite app_nil_r.
    repeat split; try reflexivity; [constructor | assumption].
  - destruct (Hkeys k) as [sec Hsec]; [left|]. destruct Hfile as [text Htext].
    cbn [for_each]. unfold mbind, M_bind.
    rewrite (migrate_new_section_ok w k sec text Hsec Htext).
    edestruct IH as (w' & adds & -> & Hlog & Hnames & Hadd & Hs & Ht & Hp & Hf).
    { frame_append. intros k' Hk'. apply Hkeys. right. assumption. }
    { frame_append. rewrite lookup_insert_eq. eexists. reflexivity. }
    exists w', (add_change k sec :: adds).
    split; [reflexivity|]. frame_append.
    split; [rewrite Hlog, <- app_assoc; reflexivity|].
    split; [cbn [map]; rewrite Hnames; reflexivity|].
    split; [constructor; [reflexivity | assumption]|].
    repeat split; assumption.
Qed.

Lemma for_each_existing names : forall w,
  (forall k, k ∈ names -> is_Some (get k (source_sections (self w))) /\
                          is_Some (get k (target_sections (self w)))) ->
  is_Some (fs w !! build_target_gradle_path (self w)) ->
  exists w' updates,
    for_each names _migrate_existing_section w = (Ok tt, w') /\
    migration_changes (self w') = migration_changes (self w) ++ updates /\
    sublist (map section_name updates) names /\
    Forall (fun c => change_type c = "UPDATE") updates /\
    source_sections (self w') = source_sections (self w) /\
    target_sections (self w') = target_sections (self w).
Proof.
  induction names as [|k names IH]; intros w Hkeys Hfile.
  - exists w, []. cbn [for_each]. rewrite app_nil_r.
    repeat split; try reflexivity; constructor.
  - destruct (Hkeys k) as [[src Hsrc] [tgt Htgt]]; [left|].
    destruct Hfile as [text Htext].
    cbn [for_each]. unfold mbind, M_bind.
    rewrite (migrate_existing_section_ok w k src tgt text Hsrc Htgt Htext).
    destruct (new_content_of src tgt) eqn:Hnew.
    + edestruct IH as (w' & updates & -> & Hlog & Hnames & Hupd & Hs & Ht).
      { intros k' Hk'. apply Hkeys. right. exact Hk'. }
      { eexists. exact Htext. }
      exists w', updates. split; [reflexivity|]. split; [exact Hlog|].
      split; [apply sublist_cons; exact Hnames|]. repeat split; assumption.
    + edestruct IH as (w' & updates & -> & Hlog & Hnames & Hupd & Hs & Ht).
      { frame_append. intros k' Hk'. apply Hkeys. right. exact Hk'. }
      { frame_append. rewrite lookup_insert_eq. eexists. reflexivity. }
      exists w', (update_change k src tgt :: updates).
      split; [reflexivity|]. frame_append.
      split; [rewrite Hlog, <- app_assoc; reflexivity|].
      split; [cbn [map]; apply sublist_skip; exact Hnames|].
      split; [constructor; [reflexivity | assumption]|].
      split; assumption.
Qed.

Lemma key_set_get (d : dict GradleSection) k :
  k ∈ key_set d <-> is_Some (get k d).
Proof.
  unfold key_set. rewrite elem_of_list_to_set, get_is_Some_keys. reflexivity.
Qed.

(** C2, as the code has it.  [migrate_sections] handles the source-only
    names and then the common names, each set in the order in which the
    interpreter iterates it.  For any admissible set order and an existing
    target file the run returns normally, the change log gains one Add
    change per source-only name, in the order of that iteration, and then
    Update changes for common names, in the order of theirs. *)
Theorem migrate_sections_order set_iter w :
  set_order set_iter ->
  is_Some (fs w !! build_target_gradle_path (self w)) ->
  let source_only_sections :=
    key_set (source_sections (self w)) ∖ key_set (target_sections (self w)) in
  let common_sections :=
    key_set (source_sections (self w)) ∩ key_set (target_sections (self w)) in
  exists w' adds updates,
    migrate_sections set_iter w = (Ok tt, w') /\
    migration_changes (self w') = migration_changes (self w) ++ adds ++ updates /\
    map section_name adds = set_iter source_only_sections /\
    Permutation (map section_name adds) (elements source_only_sections) /\
    Forall (fun c => change_type c = "ADD") adds /\
    sublist (map section_name updates) (set_iter common_sections) /\
    Forall (fun c => change_type c = "UPDATE") updates.
Proof.
  intros Horder Hfile source_only_sections common_sections.
  assert (Hin : forall (s : gset string) k, k ∈ set_iter s <-> k ∈ s).
  { intros s k. rewrite (Horder s). apply elem_of_elements. }
  destruct (for_each_new (set_iter source_only_sections) w)
    as (w1 & adds & Hrun1 & Hlog1 & Hnames1 & Hadd & Hs & Ht & Hp & Hf);
    [|exact Hfile|].
  { intros k [Hk _]%Hin%elem_of_difference. apply key_set_get. exact Hk. }
  destruct (for_each_existing (set_iter common_sections) w1)
    as (w2 & updates & Hrun2 & Hlog2 & Hnames2 & Hupd & _);
    [|exact Hf|].
  { intros k [Hk1 Hk2]%Hin%elem_of_intersection. rewrite Hs, Ht.
    split; apply key_set_get; assumption. }
  exists w2, adds, updates. split.
  - unfold migrate_sections, mbind at 1, M_bind at 1. cbn [get_self].
    unfold mbind at 1, M_bind at 1.
    fold source_only_sections. rewrite Hrun1.
    unfold mbind, M_bind. cbn [get_self]. rewrite Hs, Ht.
    fold common_sections. exact Hrun2.
  - split; [rewrite Hlog2, Hlog1, <- app_assoc; reflexivity|].
    split; [exact Hnames1|]. split; [rewrite Hnames1; apply Horder|].
    repeat split; assumption.
Qed.

Lemma migrate_sections_order_witness :
  exists w' adds updates,
    migrate_sections ascending order_parsed = (Ok tt, w') /\
    migration_changes (self w') = adds ++ updates /\
    Permutation (map section_name adds) ["alpha"; "beta"].
Proof.
  destruct (migrate_sections_order ascending order_parsed)
    as (w' & adds & updates & Hrun & Hlog & Hnames & _).
  - intros s. reflexivity.
  - vm_compute. eexists. reflexivity.
  - exists w', adds, updates. split; [exact Hrun|]. split; [exact Hlog|].
    rewrite Hnames. vm_compute. reflexivity.
Defined.

Lemma set_order_descending : set_order descending.
Proof. intros s. unfold descending. apply reverse_Permutation. Qed.

(** C2 as stated fails: two admissible set orders give, on the same pair of
    files, different change logs, different target files and different
    summaries; in one of them the Add changes are not in the first-seen
    order of the source mapping. *)
Lemma set_order_changes_the_run :
  let w := start "source.gradle" "target.gradle" order_files in
  let up := run_migration ascending w in
  let down := run_migration descending w in
  let first_seen :=
    first_seen_order (source_sections (self (snd down)))
      (key_set (source_sections (self (snd down)))
       ∖ key_set (target_sections (self (snd down)))) in
  set_order ascending /\ set_order descending /\
  first_seen = ["alpha"; "beta"] /\
  map section_name (migration_changes (self (snd up))) = ["alpha"; "beta"] /\
  map section_name (migration_changes (self (snd down))) = ["beta"; "alpha"] /\
  map section_name (migration_changes (self (snd down))) <> first_seen /\
  migration_changes (self (snd up)) <> migration_changes (self (snd down)) /\
  fs (snd up) !! "target.gradle" <> fs (snd down) !! "target.gradle" /\
  fst up <> fst down.
Proof.
  intros w up down first_seen.
  split; [intros s; reflexivity|]. split; [exact set_order_descending|].
  split; [vm_compute; reflexivity|]. split; [vm_compute; reflexivity|].
  split; [vm_compute; reflexivity|].
  split; [|split; [|split]]; vm_compute; discriminate.
Qed.

(** C1, on the code.  After the new-section step has put [custom] in before
    the last closing-brace line, the block [java] of the target starts at
    line 7 of the file; the common-section step reads the file again but
    takes the start from the mapping of the initial parse, which says 2,
    so the marker comment and the new line land in the block [custom]. *)
Theorem stale_section_start set_iter :
  set_order set_iter ->
  exists w1 w2,
    _migrate_new_section "custom" parsed = (Ok tt, w1) /\
    fs w1 !! "target.gradle" = Some target_after_add /\
    option_map (fun d => option_map start_line (get "java" d))
      (identify_sections (readlines target_after_add)) = Some (Some 7) /\
    option_map start_line (get "java" (target_sections (self w1))) = Some 2 /\
    _migrate_existing_section "java" w1 = (Ok tt, w2) /\
    fs w2 !! "target.gradle" = Some target_after_update /\
    migrate_sections set_iter parsed = (Ok tt, w2).
Proof.
  intros Horder.
  assert (Hone : forall x : string, set_iter {[ x ]} = [x]).
  { intros x. apply Permutation_singleton_r.
    rewrite (Horder {[ x ]}), elements_singleton. reflexivity. }
  eexists. eexists.
  split; [vm_compute; reflexivity|]. split; [vm_compute; reflexivity|].
  split; [vm_compute; reflexivity|]. split; [vm_compute; reflexivity|].
  split; [vm_compute; reflexivity|]. split; [vm_compute; reflexivity|].
  unfold migrate_sections, mbind at 1, M_bind at 1. cbn [get_self].
  replace (key_set (source_sections (self parsed))
           ∖ key_set (target_sections (self parsed)))
    with ({[ "custom" ]} : gset string) by (vm_compute; reflexivity).
  rewrite Hone. cbn [for_each]. unfold mbind, M_bind.
  replace (_migrate_new_section "custom" parsed)
    with (Ok tt, snd (_migrate_new_section "custom" parsed))
    by (vm_compute; reflexivity).
  cbn [mret M_ret get_self].
  replace (key_set (source_sections (self (snd (_migrate_new_section "custom" parsed))))
           ∩ key_set (target_sections (self (snd (_migrate_new_section "custom" parsed)))))
    with ({[ "java" ]} : gset string) by (vm_compute; reflexivity).
  rewrite Hone. cbn [for_each].
  vm_compute. reflexivity.
Qed.

Lemma stale_section_start_witness :
  exists w2,
    migrate_sections ascending parsed = (Ok tt, w2) /\
    fs w2 !! "target.gradle" = Some target_after_update.
Proof.
  destruct (stale_section_start ascending) as (w1 & w2 & _ & _ & _ & _ & _ & Hfile & Hrun).
  - intros s. reflexivity.
  - exists w2. split; assumption.
Defined.

(** The same defect without a new section.  In a set order that yields
    [plugins] before [dependencies], as the source mapping has them, the
    update of [plugins] moves [dependencies] down by three lines, and the
    marker comment of [dependencies] is then put at the old line 2, inside
    the block [plugins]. *)
Lemma stale_start_after_update :
  let w := start "source.gradle" "target.gradle" common_files in
  map section_name (migration_changes (self (snd (run_migration descending w))))
  = ["plugins"; "dependencies"] /\
  fs (snd (run_migration descending w)) !! "target.gradle"
  = Some common_after_updates.
Proof. split; vm_compute; reflexivity. Qed.

End RunTheorems.

(* ===================================================================== *)
(** * The section pattern *)
(* ===================================================================== *)

Module PatternTheorems.
Import PyStr PyDict Scanner Migrator Entry StrFacts.

Lemma span_ident_spec s :
  s = fst (span_ident s) +:+ snd (span_ident s) /\
  all_chars ident_char (fst (span_ident s)) = true /\
  match snd (span_ident s) with
  | EmptyString => True
  | String d _ => ident_char d = false
  end.
Proof.
  induction s as [|c s (IH1 & IH2 & IH3)]; [repeat split|].
  cbn [span_ident]. destruct (ident_char c) eqn:Hc.
  - destruct (span_ident s) as [w r]. cbn [fst snd] in *.
    rewrite append_cons, <- IH1. cbn [all_chars]. rewrite Hc, IH2.
    repeat split. exact IH3.
  - cbn [fst snd]. repeat split. exact Hc.
Qed.

Lemma span_ident_app w r :
  all_chars ident_char w = true ->
  match r with EmptyString => True | String d _ => ident_char d = false end ->
  span_ident (w +:+ r) = (w, r).
Proof.
  intros Hw Hr. induction w as [|c w IH].
  - rewrite append_nil. destruct r as [|d r]; [reflexivity|].
    cbn [span_ident]. rewrite Hr. reflexivity.
  - cbn [all_chars] in Hw. apply andb_true_iff in Hw as [Hc Hw].
    rewrite append_cons. cbn [span_ident]. rewrite Hc, (IH Hw). reflexivity.
Qed.

Lemma lstrip_spec s :
  exists ws, s = ws +:+ lstrip s /\ all_chars isspace ws = true /\
             match lstrip s with
             | EmptyString => True
             | String d _ => isspace d = false
             end.
Proof.
  induction s as [|c s (ws & IH1 & IH2 & IH3)].
  - exists EmptyString. repeat split.
  - cbn [lstrip]. destruct (isspace c) eqn:Hc.
    + exists (String c ws). rewrite append_cons, <- IH1. cbn [all_chars].
      rewrite Hc, IH2. repeat split. exact IH3.
    + exists EmptyString. repeat split. exact Hc.
Qed.

Lemma lstrip_app ws r :
  all_chars isspace ws = true ->
  match r with EmptyString => True | String d _ => isspace d = false end ->
  lstrip (ws +:+ r) = r.
Proof.
  intros Hws Hr. induction ws as [|c ws IH].
  - rewrite append_nil. destruct r as [|d r]; [reflexivity|].
    cbn [lstrip]. rewrite Hr. reflexivity.
  - cbn [all_chars] in Hws. apply andb_true_iff in Hws as [Hc Hws].
    rewrite append_cons. cbn [lstrip]. rewrite Hc. exact (IH Hws).
Qed.

(** White space and the opening brace are not identifier characters. *)
Lemma isspace_not_ident c : isspace c = true -> ident_char c = false.
Proof.
  destruct c as [[] [] [] [] [] [] [] []]; vm_compute; congruence.
Qed.

Lemma brace_not_ident_nor_space :
  ident_char "{" = false /\ isspace "{" = false.
Proof. split; reflexivity. Qed.

Lemma section_match_shape line section_name :
  section_match line = Some section_name <->
  is_identifier section_name = true /\
  exists ws rest,
    all_chars isspace ws = true /\
    line = section_name +:+ ws +:+ "{" +:+ rest.
Proof.
  split.
  - destruct line as [|c rest]; [discriminate|]. cbn [section_match].
    destruct (ident_start c) eqn:Hc; [|discriminate].
    destruct (span_ident_spec rest) as (Hrest & Hw & _).
    destruct (span_ident rest) as [w after]. cbn [fst snd] in *.
    destruct (lstrip_spec after) as (ws & Hafter & Hws & _).
    destruct (lstrip after) as [|d r]; [discriminate|].
    destruct (Ascii.eqb_spec d "{") as [->|Hd].
    + intros [= <-]. split; [cbn [is_identifier]; rewrite Hc, Hw; reflexivity|].
      exists ws, r. split; [exact Hws|].
      rewrite append_cons, Hrest, Hafter. reflexivity.
    + intros H. exfalso. revert H.
      destruct d as [[] [] [] [] [] [] [] []]; try discriminate.
      congruence.
  - intros (Hid & ws & rest & Hws & ->).
    destruct section_name as [|c w]; [discriminate|].
    cbn [is_identifier] in Hid. apply andb_true_iff in Hid as [Hc Hw].
    rewrite append_cons. cbn [section_match]. rewrite Hc.
    destruct brace_not_ident_nor_space as [Hb1 Hb2].
    rewrite (span_ident_app w (ws +:+ "{" +:+ rest) Hw).
    + rewrite (lstrip_app ws ("{" +:+ rest) Hws); [reflexivity | exact Hb2].
    + destruct ws as [|d ws]; [exact Hb1|].
      rewrite append_cons. cbn [all_chars] in Hws.
      apply andb_true_iff in Hws as [Hd _]. apply isspace_not_ident, Hd.
Qed.

(** X1.  The section pattern accepts a trimmed line exactly when the line
    is an identifier (a letter or underscore, then letters, digits and
    underscores), any white space, an opening brace and anything after it;
    the name it returns is that identifier. *)
Theorem section_match_iff line section_name :
  section_match line = Some section_name <->
  is_identifier section_name = true /\
  exists ws rest,
    all_chars isspace ws = true /\
    line = section_name +:+ ws +:+ "{" +:+ rest.
Proof. apply section_match_shape. Qed.

End PatternTheorems.

(* ===================================================================== *)
(** * More on the scanner *)
(* ===================================================================== *)

Module ScannerMore.
Import PyStr PyDict Loop Scanner Migrator ScannerInvariants Entry Examples.
Import LoopFacts DictFacts StrFacts ScannerFacts ScannerTheorems PatternTheorems.

(** A property of the stored sections that every assignment of the scanner
    establishes holds of every section of the result. *)
Lemma scan_entries (P : string -> GradleSection -> Prop) lines :
  (forall nm c i e,
     P nm {| name := nm; content := c; start_line := i; end_line := e;
             section_type := _determine_section_type nm;
             indentation := EmptyString |}) ->
  forall d, identify_sections lines = Some d ->
  forall k s, get k d = Some s -> P k s.
Proof.
  intros Hnew d Hid.
  destruct (while_rule (scan_cond lines) (scan_body lines)
              (fun st => scan_inv lines st /\
                         forall k s, get k (sections st) = Some s -> P k s)
              (fun s => length lines - scan_i s)) with
    (fuel := length lines) (s := {| scan_i := 0; sections := [] |})
    as (st & Hw & (_ & HP) & _).
  - intros st [Hinv HP] Hc.
    destruct (scan_step lines st Hinv Hc) as (st' & Hbody & Hinv' & Hlt).
    exists st'. split; [exact Hbody|]. split.
    + split; [exact Hinv'|]. revert Hbody. unfold scan_body.
      destruct (negb (truthy (strip (line_at lines (scan_i st))))
                || startswith (strip (line_at lines (scan_i st))) "//"
                || startswith (strip (line_at lines (scan_i st))) "/*").
      { intros [= <-]. exact HP. }
      destruct (section_match (strip (line_at lines (scan_i st)))) as [nm|].
      2:{ intros [= <-]. exact HP. }
      destruct (while (capture_cond lines) (capture_body lines) (length lines) _)
        as [c|]; [|discriminate].
      intros [= <-] k s. cbn [sections]. rewrite get_set.
      destruct (String.eqb k nm) eqn:Hk.
      * apply String.eqb_eq in Hk as ->. intros [= <-]. apply Hnew.
      * apply HP.
    + destruct Hinv' as (? & _). lia.
  - split; [|intros k s; discriminate].
    unfold scan_inv, disjoint_sections; simpl.
    split; [lia|]. split; [constructor|]. split; intros; discriminate.
  - simpl. lia.
  - unfold identify_sections in Hid. rewrite Hw in Hid.
    injection Hid as <-. exact HP.
Qed.

(** X2.  In the mapping that the scanner returns no key is repeated, and
    every section stored under a key carries that key as its name, the key
    is an identifier, the section type is the classification of the key,
    the indentation is empty, and its first content line is the line at
    [start_line], which once trimmed is the key, white space, an opening
    brace and the rest. *)
Theorem scanner_entries lines d k s :
  identify_sections lines = Some d ->
  get k d = Some s ->
  NoDup (keys d) /\
  name s = k /\
  is_identifier k = true /\
  section_type s = _determine_section_type k /\
  indentation s = EmptyString /\
  head (content s) = Some (line_at lines (start_line s)) /\
  exists ws rest,
    all_chars isspace ws = true /\
    strip (line_at lines (start_line s)) = k +:+ ws +:+ "{" +:+ rest.
Proof.
  intros Hid Hg.
  destruct (identify_sections_spec lines) as (d' & Hid' & Hnd & Hok & _).
  rewrite Hid in Hid'. injection Hid' as <-.
  destruct (Hok k s Hg) as (Hname & Hse & Hlen & Hc & Hm & _).
  apply section_match_shape in Hm as [Hident Hshape].
  destruct (scan_entries
              (fun nm sec => section_type sec = _determine_section_type nm /\
                             indentation sec = EmptyString)
              lines (fun _ _ _ _ => conj eq_refl eq_refl) d Hid k s Hg)
    as [Hty Hind].
  split; [exact Hnd|]. split; [exact Hname|]. split; [exact Hident|].
  split; [exact Hty|]. split; [exact Hind|]. split; [|exact Hshape].
  rewrite Hc. unfold lines_between.
  replace (end_line s - start_line s + 1) with (S (end_line s - start_line s)) by lia.
  rewrite (drop_S lines (line_at lines (start_line s)) (start_line s))
    by (apply line_at_lookup; lia).
  reflexivity.
Qed.

Lemma scanner_entries_witness :
  name java_section = "java" /\ section_type java_section = JAVA /\
  head (content java_section) = Some (line_at two_blocks 3).
Proof.
  destruct (scanner_entries two_blocks two_blocks_sections "java" java_section)
    as (_ & Hname & _ & Hty & _ & Hhead & _);
    [vm_compute; reflexivity | vm_compute; reflexivity |].
  split; [exact Hname|]. split; [exact Hty | exact Hhead].
Defined.

(** Blank lines and comment lines do not match the section pattern. *)
Lemma skipped_line_no_match line :
  negb (truthy line) || startswith line "//" || startswith line "/*" = true ->
  section_match line = None.
Proof.
  destruct line as [|c line]; [reflexivity|].
  cbn [truthy negb orb]. intros [H|H]%orb_true_iff;
    apply startswith_spec in H as [r Hr]; rewrite !append_cons in Hr;
    injection Hr as -> _; reflexivity.
Qed.

Lemma set_not_nil {V} k (v : V) d : set k v d <> [].
Proof. destruct d as [|[k0 v0] d]; cbn [set]; [|destruct (String.eqb k k0)]; discriminate. Qed.

Lemma no_match_no_sections lines :
  identify_sections lines = Some [] <->
  forall line, line ∈ lines -> section_match (strip line) = None.
Proof.
  set (sm := fun j => section_match (strip (line_at lines j))).
  destruct (while_rule (scan_cond lines) (scan_body lines)
              (fun st => scan_i st <= length lines /\
                         (sections st = [] ->
                          forall j, j < scan_i st -> sm j = None) /\
                         (sections st <> [] ->
                          exists j, j < length lines /\ sm j <> None))
              (fun s => length lines - scan_i s)) with
    (fuel := length lines) (s := {| scan_i := 0; sections := [] |})
    as (st & Hw & (Hle & Hnil & Hcons) & Hc).
  - intros st (Hle & Hnil & Hcons) Hc.
    destruct (scan_progress lines st Hc) as (st' & Hbody & Hlt & Hle').
    exists st'. split; [exact Hbody|]. split; [|lia]. split; [exact Hle'|].
    unfold scan_cond in Hc. apply Nat.ltb_lt in Hc.
    assert (Hskip : sm (scan_i st) = None ->
                    (sections st = [] ->
                     forall j, j < scan_i st + 1 -> sm j = None)).
    { intros Hi He j Hj. destruct (decide (j = scan_i st)) as [->|];
        [exact Hi | apply (Hnil He); lia]. }
    revert Hbody. unfold scan_body.
    destruct (negb (truthy (strip (line_at lines (scan_i st))))
              || startswith (strip (line_at lines (scan_i st))) "//"
              || startswith (strip (line_at lines (scan_i st))) "/*") eqn:Hs.
    { intros [= <-]. cbn [scan_i sections].
      split; [apply Hskip, skipped_line_no_match, Hs | exact Hcons]. }
    destruct (section_match (strip (line_at lines (scan_i st)))) as [nm|] eqn:Hm.
    2:{ intros [= <-]. cbn [scan_i sections].
        split; [apply Hskip, Hm | exact Hcons]. }
    destruct (while (capture_cond lines) (capture_body lines) (length lines) _)
      as [c|]; [|discriminate].
    intros [= <-]. cbn [scan_i sections]. split.
    + intros He. exfalso. exact (set_not_nil _ _ _ He).
    + intros _. exists (scan_i st). split; [exact Hc|]. unfold sm.
      rewrite Hm. discriminate.
  - cbn [scan_i sections]. split; [lia|]. split; [intros _ j Hj; lia|].
    intros H. congruence.
  - simpl. lia.
  - unfold scan_cond in Hc. apply Nat.ltb_ge in Hc.
    unfold identify_sections. rewrite Hw. cbn [option_map]. split.
    + intros [= He] line Hin.
      apply list_elem_of_lookup in Hin as [j Hj].
      pose proof (lookup_lt_Some _ _ _ Hj) as Hlt.
      rewrite (line_at_lookup lines j Hlt) in Hj. injection Hj as <-.
      apply (Hnil He). lia.
    + intros Hall. f_equal. destruct (sections st) as [|e d] eqn:He;
        [reflexivity|].
      destruct Hcons as (j & Hj & Hsm); [discriminate|].
      exfalso. apply Hsm. unfold sm. apply Hall.
      apply list_elem_of_lookup. exists j. apply line_at_lookup. exact Hj.
Qed.

(** X3.  The scanner returns the empty mapping exactly when no line of the
    input, once trimmed, matches the section pattern; in particular for an
    empty file and for a file of blank and comment lines. *)
Theorem no_sections_iff lines :
  identify_sections lines = Some [] <->
  forall line, line ∈ lines -> section_match (strip line) = None.
Proof. apply no_match_no_sections. Qed.

End ScannerMore.

(* ===================================================================== *)
(** * More on the validator *)
(* ===================================================================== *)

Module ValidatorMore.
Import PyStr PyDict Loop Scanner Migrator ScannerInvariants MergeEffects Entry Examples.
Import LoopFacts DictFacts StrFacts ScannerFacts ValidatorTheorems MergeFacts.

Lemma net_braces_nil : net_braces EmptyString = 0%Z.
Proof. reflexivity. Qed.

Lemma net_braces_cons c s :
  net_braces (String c s)
  = ((if Ascii.eqb c "{" then 1 else 0) - (if Ascii.eqb c "}" then 1 else 0)
     + net_braces s)%Z.
Proof.
  unfold net_braces. cbn [count].
  destruct (Ascii.eqb c "{"), (Ascii.eqb c "}"); cbv iota; lia.
Qed.

Lemma brace_scan_cons c s n :
  brace_scan (String c s) n
  = if Ascii.eqb c "{" then brace_scan s (n + 1)
    else if Ascii.eqb c "}" then
           if (n - 1 <? 0)%Z then None else brace_scan s (n - 1)
         else brace_scan s n.
Proof. reflexivity. Qed.

Lemma brace_scan_prefixes content : forall n m,
  (0 <= n)%Z ->
  brace_scan content n = Some m <->
  m = (n + net_braces content)%Z /\
  forall p q, content = p +:+ q -> (0 <= n + net_braces p)%Z.
Proof.
  induction content as [|c s IH]; intros n m Hn.
  - cbn [brace_scan]. rewrite net_braces_nil. split.
    + intros [= <-]. split; [lia|]. intros [|d p] q Hpq.
      * rewrite net_braces_nil. lia.
      * rewrite append_cons in Hpq. discriminate.
    + intros [-> _]. f_equal. lia.
  - set (d := ((if Ascii.eqb c "{" then 1 else 0)
               - (if Ascii.eqb c "}" then 1 else 0))%Z).
    assert (Hnet : forall p, net_braces (String c p) = (d + net_braces p)%Z)
      by (intros p; apply net_braces_cons).
    assert (Hscan : brace_scan (String c s) n
                    = if (n + d <? 0)%Z then None else brace_scan s (n + d)).
    { rewrite brace_scan_cons. unfold d.
      destruct (Ascii.eqb c "{") eqn:Ho.
      - apply Ascii.eqb_eq in Ho as ->.
        replace (Ascii.eqb "{" "}") with false by reflexivity.
        replace (n + (1 - 0))%Z with (n + 1)%Z by lia.
        destruct (Z.ltb_spec (n + 1) 0); [lia | reflexivity].
      - destruct (Ascii.eqb c "}").
        + replace (n + (0 - 1))%Z with (n - 1)%Z by lia. reflexivity.
        + replace (n + (0 - 0))%Z with n by lia.
          destruct (Z.ltb_spec n 0); [lia | reflexivity]. }
    rewrite Hscan, Hnet. clear Hscan.
    destruct (Z.ltb_spec (n + d) 0) as [Hneg|Hpos].
    + split; [discriminate|]. intros [_ H].
      specialize (H (String c EmptyString) s eq_refl).
      rewrite Hnet, net_braces_nil in H. lia.
    + rewrite (IH (n + d)%Z m Hpos). split.
      * intros [-> H]. split; [lia|]. intros [|e p] q Hpq.
        -- rewrite net_braces_nil. lia.
        -- rewrite append_cons in Hpq. injection Hpq as <- ->.
           rewrite Hnet. specialize (H p q eq_refl). lia.
      * intros [-> H]. split; [lia|]. intros p q ->.
        specialize (H (String c p) q eq_refl). rewrite Hnet in H. lia.
Qed.

(** X4.  The brace check of the validator succeeds with a final count [m]
    exactly when [m] is the number of opening minus closing braces of the
    text and no prefix of the text closes more braces than it opens. *)
Theorem brace_scan_spec content m :
  brace_scan content 0 = Some m <->
  m = net_braces content /\
  forall p q, content = p +:+ q -> (0 <= net_braces p)%Z.
Proof.
  rewrite (brace_scan_prefixes content 0 m) by lia.
  split; intros [-> H]; (split; [lia|]); intros p q Hpq;
    specialize (H p q Hpq); lia.
Qed.

(** Line ends hold no brace: the check sees the same braces in the text as
    read and in the text of the file. *)
Lemma brace_scan_universal text : forall n,
  brace_scan (universal_newlines text) n = brace_scan text n.
Proof.
  induction text as [|c text IH]; intros n; [reflexivity|].
  rewrite universal_newlines_cons. destruct (Ascii.eqb_spec c CR) as [->|_].
  - rewrite (brace_scan_cons CR). cbn [Ascii.eqb CR]. cbv iota.
    destruct (startswith text nl); [apply IH|].
    rewrite brace_scan_cons. cbn [Ascii.eqb LF]. cbv iota. apply IH.
  - rewrite !brace_scan_cons.
    destruct (Ascii.eqb c "{"); [apply IH|].
    destruct (Ascii.eqb c "}"); [|apply IH].
    destruct (n - 1 <? 0)%Z; [reflexivity | apply IH].
Qed.

Lemma validate_outcome set_iter w :
  validate_gradle_structure set_iter w
  = match fs w !! build_target_gradle_path (self w) with
    | None =>
        (Ok false,
         with_error ("Validation error: File not found: "
                     +:+ build_target_gradle_path (self w)) w)
    | Some text =>
        match brace_scan text 0 with
        | None => (Ok false, with_error "Unbalanced braces detected" w)
        | Some n =>
            if (n =? 0)%Z then (Ok true, w)
            else (Ok false,
                  with_error ("Unbalanced braces: " +:+ str_of_int n
                              +:+ " unclosed braces") w)
        end
    end.
Proof.
  destruct (fs w !! build_target_gradle_path (self w)) as [text|] eqn:Hfs.
  - destruct (brace_scan text 0) as [n|] eqn:Hb.
    + destruct (Z.eqb_spec n 0) as [->|Hn].
      * apply (validate_balanced set_iter w text Hfs).
        fold (writelines (readlines text)).
        rewrite writelines_readlines, brace_scan_universal. exact Hb.
      * unfold validate_gradle_structure, try_except, mbind, M_bind, get_self,
          read_gradle_file.
        rewrite Hfs. fold (writelines (readlines text)).
        rewrite writelines_readlines, brace_scan_universal, Hb.
        destruct (Z.eqb_spec n 0); [contradiction | reflexivity].
    + unfold validate_gradle_structure, try_except, mbind, M_bind, get_self,
        read_gradle_file.
      rewrite Hfs. fold (writelines (readlines text)).
      rewrite writelines_readlines, brace_scan_universal, Hb. reflexivity.
  - unfold validate_gradle_structure, try_except, mbind, M_bind, get_self,
      read_gradle_file.
    rewrite Hfs. reflexivity.
Qed.

(** X5.  The validator always returns normally and never changes a file or
    the change log.  It returns [True] exactly when the target file exists
    and its braces balance, and then it changes nothing at all; things
    being otherwise it returns [False] and has added exactly one error. *)
Theorem validate_verdict set_iter w :
  exists b w',
    validate_gradle_structure set_iter w = (Ok b, w') /\
    fs w' = fs w /\
    migration_changes (self w') = migration_changes (self w) /\
    (b = true <->
     exists text, fs w !! build_target_gradle_path (self w) = Some text /\
                  brace_scan text 0 = Some 0%Z) /\
    (if b then w' = w
     else exists e, validation_errors (self w')
                    = validation_errors (self w) ++ [e]).
Proof.
  rewrite validate_outcome.
  destruct (fs w !! build_target_gradle_path (self w)) as [text|] eqn:Hfs.
  - destruct (brace_scan text 0) as [n|] eqn:Hb.
    + destruct (Z.eqb_spec n 0) as [->|Hn].
      * exists true, w. repeat split; eauto.
      * eexists false, _. split; [reflexivity|]. repeat split; eauto;
          try discriminate. intros (t & [= <-] & H). congruence.
    + eexists false, _. split; [reflexivity|]. repeat split; eauto;
        try discriminate. intros (t & [= <-] & H). congruence.
  - eexists false, _. split; [reflexivity|]. repeat split; eauto;
      try discriminate. intros (t & H & _). discriminate.
Qed.

Lemma validate_keeps set_iter w :
  fs (snd (validate_gradle_structure set_iter w)) = fs w /\
  migration_changes (self (snd (validate_gradle_structure set_iter w)))
  = migration_changes (self w).
Proof.
  rewrite validate_outcome.
  destruct (fs w !! build_target_gradle_path (self w)) as [text|];
    [destruct (brace_scan text 0) as [n|]; [destruct (n =? 0)%Z|]|];
    split; reflexivity.
Qed.

Lemma validate_frame set_iter w :
  merge_frame w (snd (validate_gradle_structure set_iter w)).
Proof.
  assert (Hrefl : merge_frame w w).
  { repeat split; try reflexivity; try (exists []; rewrite app_nil_r; reflexivity).
    tauto. }
  assert (Herr : forall e, merge_frame w (with_error e w)).
  { intros e. repeat split; try reflexivity;
      [exists []; rewrite app_nil_r; reflexivity | eexists; reflexivity | tauto]. }
  rewrite validate_outcome.
  destruct (fs w !! build_target_gradle_path (self w)) as [text|];
    [destruct (brace_scan text 0) as [n|]; [destruct (n =? 0)%Z|]|];
    cbn [snd]; auto.
Qed.

(** ** Braces across an insertion *)

Lemma brace_scan_app a b : forall n,
  brace_scan (a +:+ b) n
  = match brace_scan a n with
    | Some m => brace_scan b m
    | None => None
    end.
Proof.
  induction a as [|c a IH]; intros n; [reflexivity|].
  rewrite append_cons, !brace_scan_cons.
  destruct (Ascii.eqb c "{"); [apply IH|].
  destruct (Ascii.eqb c "}"); [|apply IH].
  destruct (n - 1 <? 0)%Z; [reflexivity | apply IH].
Qed.

Lemma brace_scan_after_balanced a b :
  brace_scan a 0 = Some 0%Z -> brace_scan (a +:+ b) 0 = brace_scan b 0.
Proof. intros Ha. rewrite brace_scan_app, Ha. reflexivity. Qed.

Lemma append_nil_r s : s +:+ EmptyString = s.
Proof. induction s as [|c s IH]; [reflexivity|]. rewrite append_cons, IH. reflexivity. Qed.

Lemma brace_scan_nonneg s n m :
  (0 <= n)%Z -> brace_scan s n = Some m -> (0 <= m)%Z.
Proof.
  intros Hn [-> H]%brace_scan_prefixes; [|exact Hn].
  apply (H s EmptyString). symmetry. apply append_nil_r.
Qed.

Lemma brace_scan_shift s m k :
  brace_scan s 0 = Some m -> (0 <= k)%Z -> brace_scan s k = Some (k + m)%Z.
Proof.
  intros [-> H]%brace_scan_prefixes Hk; [|lia].
  apply brace_scan_prefixes; [exact Hk|]. split; [lia|].
  intros p q Hpq. specialize (H p q Hpq). lia.
Qed.

(** A balanced block put between two lines of a balanced text leaves it
    balanced. *)
Lemma brace_scan_insert pos new lines :
  brace_scan (join lines) 0 = Some 0%Z ->
  brace_scan (join new) 0 = Some 0%Z ->
  brace_scan (join (slice_insert pos new lines)) 0 = Some 0%Z.
Proof.
  intros Hlines Hnew. unfold slice_insert.
  rewrite <- (take_drop pos lines), join_app, brace_scan_app in Hlines.
  rewrite !join_app, brace_scan_app.
  destruct (brace_scan (join (take pos lines)) 0) as [k|] eqn:Hk;
    [|discriminate].
  pose proof (brace_scan_nonneg _ _ _ (Z.le_refl 0) Hk) as Hk0.
  rewrite brace_scan_app, (brace_scan_shift _ _ k Hnew Hk0).
  replace (k + 0)%Z with k by lia. exact Hlines.
Qed.

Lemma validate_true_inv set_iter w w' :
  validate_gradle_structure set_iter w = (Ok true, w') ->
  exists text, fs w !! build_target_gradle_path (self w) = Some text /\
               brace_scan text 0 = Some 0%Z.
Proof.
  rewrite validate_outcome.
  destruct (fs w !! build_target_gradle_path (self w)) as [text|];
    [|discriminate].
  destruct (brace_scan text 0) as [n|] eqn:Hb; [|discriminate].
  destruct (Z.eqb_spec n 0) as [->|]; [|discriminate].
  intros _. exists text. split; [reflexivity | exact Hb].
Qed.

Lemma validate_after_write set_iter w self' out' written :
  build_target_gradle_path self' = build_target_gradle_path (self w) ->
  brace_scan (join written) 0 = Some 0%Z ->
  let w' := {| self := self';
               fs := <[build_target_gradle_path (self w)
                       := writelines written]> (fs w);
               stdout := out' |} in
  validate_gradle_structure set_iter w' = (Ok true, w').
Proof.
  intros Hpath Hb w'. rewrite validate_outcome. cbn [self fs w'].
  rewrite Hpath, lookup_insert_eq. unfold writelines. rewrite Hb. reflexivity.
Qed.

(** X6.  When the validator passes on the target file and the braces of the
    section's content balance, the new-section step leaves a target file on
    which the validator passes again. *)
Theorem new_section_keeps_balance set_iter w key sec :
  validate_gradle_structure set_iter w = (Ok true, w) ->
  get key (source_sections (self w)) = Some sec ->
  brace_scan (join (content sec)) 0 = Some 0%Z ->
  exists w',
    _migrate_new_section key w = (Ok tt, w') /\
    validate_gradle_structure set_iter w' = (Ok true, w').
Proof.
  intros (text & Hfs & Hb)%validate_true_inv Hsrc Hsec.
  rewrite (migrate_new_section_ok w key sec text Hsrc Hfs).
  eexists. split; [reflexivity|].
  apply validate_after_write; [reflexivity|].
  unfold new_section_lines. apply brace_scan_insert.
  - fold (writelines (readlines text)).
    rewrite writelines_readlines, brace_scan_universal. exact Hb.
  - rewrite !join_app, brace_scan_app.
    replace (brace_scan (join [added_marker]) 0) with (Some 0%Z)
      by (vm_compute; reflexivity).
    rewrite brace_scan_app, Hsec. reflexivity.
Qed.

Lemma new_section_keeps_balance_witness :
  exists w',
    _migrate_new_section "custom" parsed = (Ok tt, w') /\
    validate_gradle_structure ascending w' = (Ok true, w').
Proof.
  apply (new_section_keeps_balance ascending parsed "custom" custom_section);
    vm_compute; reflexivity.
Defined.

Lemma brace_scan_braceless s : forall n,
  contains "{" s = false -> contains "}" s = false -> brace_scan s n = Some n.
Proof.
  induction s as [|c s IH]; intros n Ho Hc; [reflexivity|].
  cbn [contains] in Ho, Hc.
  apply orb_false_iff in Ho as [Ho1 Ho2]. apply orb_false_iff in Hc as [Hc1 Hc2].
  rewrite brace_scan_cons, Ho1, Hc1. apply IH; assumption.
Qed.

(** X7.  When the validator passes on the target file and the braces of
    each line that the common-section step is about to add balance, the
    step leaves a target file on which the validator passes again. *)
Theorem existing_section_keeps_balance set_iter w key src tgt :
  validate_gradle_structure set_iter w = (Ok true, w) ->
  get key (source_sections (self w)) = Some src ->
  get key (target_sections (self w)) = Some tgt ->
  (forall line, line ∈ new_content_of src tgt ->
                brace_scan line 0 = Some 0%Z) ->
  exists w',
    _migrate_existing_section key w = (Ok tt, w') /\
    validate_gradle_structure set_iter w' = (Ok true, w').
Proof.
  intros Hval Hsrc Htgt Hnew.
  destruct (validate_true_inv _ _ _ Hval) as (text & Hfs & Hb).
  rewrite (migrate_existing_section_ok w key src tgt text Hsrc Htgt Hfs).
  destruct (new_content_of src tgt) as [|x l] eqn:Hnc.
  { exists w. split; [reflexivity | exact Hval]. }
  eexists. split; [reflexivity|].
  apply validate_after_write; [reflexivity|].
  unfold updated_section_lines. cbv zeta.
  apply brace_scan_insert; [apply brace_scan_insert|].
  - fold (writelines (readlines text)).
    rewrite writelines_readlines, brace_scan_universal. exact Hb.
  - vm_compute. reflexivity.
  - rewrite Hnc. clear Hnc. induction (x :: l) as [|d ds IH]; [reflexivity|].
    assert (Hd : brace_scan d 0 = Some 0%Z) by (apply Hnew; left).
    cbn [flat_map]. rewrite join_app.
    rewrite brace_scan_after_balanced;
      [apply IH; intros line Hin; apply Hnew; right; exact Hin|].
    destruct (truthy d && negb (startswith d "//")); [|reflexivity].
    cbn [join fold_right].
    rewrite (brace_scan_after_balanced line_marker) by (vm_compute; reflexivity).
    rewrite brace_scan_after_balanced; [reflexivity|].
    rewrite (brace_scan_after_balanced "    ") by (vm_compute; reflexivity).
    rewrite (brace_scan_after_balanced d) by exact Hd.
    reflexivity.
Qed.

Lemma existing_section_keeps_balance_witness :
  exists w',
    _migrate_existing_section "plugins" common_parsed = (Ok tt, w') /\
    validate_gradle_structure ascending w' = (Ok true, w').
Proof.
  apply (existing_section_keeps_balance ascending common_parsed "plugins"
           {| name := "plugins";
              content := readlines (text_of ["plugins {"; "    id 'java'"; "}"]);
              start_line := 0; end_line := 2;
              section_type := PLUGINS; indentation := EmptyString |}
           {| name := "plugins";
              content := readlines (text_of ["plugins {"; "}"]);
              start_line := 0; end_line := 1;
              section_type := PLUGINS; indentation := EmptyString |}).
  - vm_compute. reflexivity.
  - vm_compute. reflexivity.
  - vm_compute. reflexivity.
  - intros line Hin. vm_compute in Hin.
    apply list_elem_of_singleton in Hin as ->. vm_compute. reflexivity.
Defined.

End ValidatorMore.

(* ===================================================================== *)
(** * Reading and writing files *)
(* ===================================================================== *)

Module FileTheorems.
Import PyStr PyDict Loop Scanner Migrator MergeEffects Entry Examples.
Import StrFacts MergeFacts.

(** X8.  The lines that [read_gradle_file] returns put together give the
    text of the file with every line end turned into a newline, which is
    the text itself when it holds no carriage return.  None of the lines is
    empty or holds a carriage return, and each of them is a stretch without
    newline followed by a newline, but for the last, which may lack the
    newline. *)
Theorem read_gradle_file_lines w file_path text :
  fs w !! file_path = Some text ->
  exists lines,
    read_gradle_file file_path w = (Ok lines, w) /\
    join lines = universal_newlines text /\
    (contains CR text = false -> join lines = text) /\
    forall i line, lines !! i = Some line ->
      line <> EmptyString /\ contains CR line = false /\
      (ends_line line \/
       (contains LF line = false /\ i + 1 = length lines)).
Proof.
  intros Hfs. exists (readlines text). unfold read_gradle_file. rewrite Hfs.
  split; [reflexivity|]. split; [apply writelines_readlines|].
  split.
  { intros HCR. rewrite <- (universal_newlines_plain text HCR) at 2.
    apply writelines_readlines. }
  intros i line Hi.
  destruct (readlines_shape text i line Hi)
    as (HCR & [(body & -> & Hb)|(H1 & H2 & H3)]).
  - split; [destruct body; discriminate|]. split; [exact HCR|].
    left. exists body. split; [reflexivity | exact Hb].
  - split; [exact H2|]. split; [exact HCR|]. right. split; assumption.
Qed.

Lemma read_gradle_file_lines_witness :
  let w := start "source.gradle" "target.gradle" crlf_files in
  exists lines,
    read_gradle_file "target.gradle" w = (Ok lines, w) /\
    lines = ["plugins {" +:+ nl; "}" +:+ nl; "java { x }" +:+ nl; "// end"] /\
    join lines <> crlf_text.
Proof.
  intros w.
  destruct (read_gradle_file_lines w "target.gradle" crlf_text)
    as (lines & Hread & Hjoin & _); [vm_compute; reflexivity|].
  exists lines. split; [exact Hread|].
  assert (Hlines : lines = ["plugins {" +:+ nl; "}" +:+ nl;
                            "java { x }" +:+ nl; "// end"]).
  { assert (H : read_gradle_file "target.gradle" w
                = (Ok ["plugins {" +:+ nl; "}" +:+ nl;
                       "java { x }" +:+ nl; "// end"], w))
      by (vm_compute; reflexivity).
    rewrite Hread in H. injection H as ->. reflexivity. }
  split; [exact Hlines|]. rewrite Hlines. vm_compute. discriminate.
Defined.

(** X9.  Lines that each end in a newline and hold no other newline and no
    carriage return, written to a file and read again, come back as they
    were.  Lines read from a file and written back leave in the file its
    text with every line end turned into a newline: the file is as it was
    exactly when it held no carriage return. *)
Theorem write_then_read w file_path :
  (forall lines, Forall ends_line lines ->
     exists w',
       write_text file_path (writelines lines) w = (Ok tt, w') /\
       read_gradle_file file_path w' = (Ok lines, w')) /\
  (forall text, fs w !! file_path = Some text ->
     exists lines w',
       read_gradle_file file_path w = (Ok lines, w) /\
       write_text file_path (writelines lines) w = (Ok tt, w') /\
       fs w' = <[file_path := universal_newlines text]> (fs w) /\
       (w' = w <-> contains CR text = false)).
Proof.
  split.
  - intros lines Hlines. eexists. split; [reflexivity|].
    unfold read_gradle_file. cbn [fs].
    rewrite lookup_insert_eq, (readlines_writelines lines Hlines). reflexivity.
  - intros text Hfs. exists (readlines text). eexists.
    split; [unfold read_gradle_file; rewrite Hfs; reflexivity|].
    split; [reflexivity|]. cbn [fs]. rewrite writelines_readlines.
    split; [reflexivity|]. split.
    + intros Hw. apply (f_equal (fun v => fs v !! file_path)) in Hw.
      cbn [fs] in Hw. rewrite lookup_insert_eq, Hfs in Hw.
      injection Hw as Hw. rewrite <- Hw. apply universal_newlines_no_CR.
    + intros HCR. rewrite (universal_newlines_plain text HCR).
      rewrite (insert_id _ _ _ Hfs). destruct w; reflexivity.
Qed.

Lemma write_then_read_witness :
  let w := start "source.gradle" "target.gradle" crlf_files in
  (exists w',
     write_text "target.gradle" (writelines ["plugins {" +:+ nl; "}" +:+ nl]) w
     = (Ok tt, w') /\
     read_gradle_file "target.gradle" w'
     = (Ok ["plugins {" +:+ nl; "}" +:+ nl], w')) /\
  (exists lines w',
     read_gradle_file "target.gradle" w = (Ok lines, w) /\
     write_text "target.gradle" (writelines lines) w = (Ok tt, w') /\
     w' <> w).
Proof.
  intros w. destruct (write_then_read w "target.gradle") as [H1 H2]. split.
  - apply H1. repeat constructor;
      (eexists; split; [reflexivity | split; vm_compute; reflexivity]).
  - destruct (H2 crlf_text) as (lines & w' & Hread & Hwrite & _ & Hsame);
      [vm_compute; reflexivity|].
    exists lines, w'. split; [exact Hread|]. split; [exact Hwrite|].
    intros Heq. apply Hsame in Heq. vm_compute in Heq. discriminate.
Defined.

End FileTheorems.

(* ===================================================================== *)
(** * What the merge pass and the run leave alone *)
(* ===================================================================== *)

Module FrameFacts.
Import PyStr PyDict Loop Scanner Migrator MergeEffects Entry Examples.
Import StrFacts DictFacts ScannerFacts MergeFacts ValidatorMore.

Lemma merge_frame_refl w : merge_frame w w.
Proof.
  repeat split; try reflexivity;
    try (exists []; rewrite app_nil_r; reflexivity). tauto.
Qed.

Lemma merge_frame_trans w1 w2 w3 :
  merge_frame w1 w2 -> merge_frame w2 w3 -> merge_frame w1 w3.
Proof.
  intros (Hs & Ht & Hss & Hts & Ho & [m1 Hc] & [e1 He] & Hfs & Hex)
         (Hs' & Ht' & Hss' & Hts' & Ho' & [m2 Hc'] & [e2 He'] & Hfs' & Hex').
  repeat split; try congruence.
  - exists (m1 ++ m2). rewrite Hc', Hc, app_assoc. reflexivity.
  - exists (e1 ++ e2). rewrite He', He, app_assoc. reflexivity.
  - intros path Hp. rewrite Hfs' by congruence. apply Hfs. exact Hp.
  - intros H. rewrite <- Ht. apply Hex'. rewrite Ht. apply Hex. exact H.
Qed.

Lemma merge_frame_write w c text :
  merge_frame w
    {| self := append_change c (self w);
       fs := <[build_target_gradle_path (self w) := text]> (fs w);
       stdout := stdout w |}.
Proof.
  repeat split; try reflexivity.
  - eexists. reflexivity.
  - exists []. rewrite app_nil_r. reflexivity.
  - intros path Hp. cbn [fs]. apply lookup_insert_ne. congruence.
  - intros _. cbn [fs]. rewrite lookup_insert_eq. eexists. reflexivity.
Qed.

Lemma new_section_frame key w :
  fst (_migrate_new_section key w) <> Diverge /\
  merge_frame w (snd (_migrate_new_section key w)).
Proof.
  destruct (get key (source_sections (self w))) as [sec|] eqn:Hsrc.
  - destruct (fs w !! build_target_gradle_path (self w)) as [text|] eqn:Hfs.
    + rewrite (migrate_new_section_ok w key sec text Hsrc Hfs).
      split; [discriminate | apply merge_frame_write].
    + rewrite (migrate_new_section_nofile w key sec Hsrc Hfs).
      split; [discriminate | apply merge_frame_refl].
  - rewrite (migrate_new_section_keyerror w key Hsrc).
    split; [discriminate | apply merge_frame_refl].
Qed.

Lemma existing_section_frame key w :
  fst (_migrate_existing_section key w) <> Diverge /\
  merge_frame w (snd (_migrate_existing_section key w)).
Proof.
  destruct (get key (source_sections (self w))) as [src|] eqn:Hsrc;
    [destruct (get key (target_sections (self w))) as [tgt|] eqn:Htgt;
     [destruct (fs w !! build_target_gradle_path (self w)) as [text|] eqn:Hfs|]|].
  - rewrite (migrate_existing_section_ok w key src tgt text Hsrc Htgt Hfs).
    destruct (new_content_of src tgt);
      (split; [discriminate|]); [apply merge_frame_refl | apply merge_frame_write].
  - destruct (migrate_existing_section_raises w key) as [e ->]; [tauto|].
    split; [discriminate | apply merge_frame_refl].
  - destruct (migrate_existing_section_raises w key) as [e ->]; [tauto|].
    split; [discriminate | apply merge_frame_refl].
  - destruct (migrate_existing_section_raises w key) as [e ->]; [tauto|].
    split; [discriminate | apply merge_frame_refl].
Qed.

Lemma for_each_frame (body : string -> M unit) names :
  (forall k w, fst (body k w) <> Diverge /\ merge_frame w (snd (body k w))) ->
  forall w, fst (for_each names body w) <> Diverge /\
            merge_frame w (snd (for_each names body w)).
Proof.
  intros Hbody. induction names as [|k names IH]; intros w.
  - cbn [for_each]. split; [discriminate | apply merge_frame_refl].
  - cbn [for_each]. unfold mbind, M_bind.
    destruct (Hbody k w) as [Hd Hf]. destruct (body k w) as [[[]|e|] w1].
    + destruct (IH w1) as [Hd' Hf']. split; [exact Hd'|].
      exact (merge_frame_trans _ _ _ Hf Hf').
    + split; [discriminate | exact Hf].
    + contradiction.
Qed.

Lemma migrate_sections_frame set_iter w r w' :
  migrate_sections set_iter w = (r, w') ->
  r <> Diverge /\ merge_frame w w'.
Proof.
  unfold migrate_sections, mbind at 1, M_bind at 1. cbn [get_self].
  unfold mbind at 1, M_bind at 1.
  match goal with |- context [for_each ?l _migrate_new_section w] =>
    destruct (for_each_frame _migrate_new_section l new_section_frame w)
      as [Hd Hf];
    destruct (for_each l _migrate_new_section w) as [[[]|e|] w1]
  end; cbn [fst snd] in *;
    [|intros [= <- <-]; split; [discriminate | exact Hf] | contradiction].
  unfold mbind, M_bind. cbn [get_self].
  match goal with |- context [for_each ?l _migrate_existing_section w1] =>
    destruct (for_each_frame _migrate_existing_section l existing_section_frame w1)
      as [Hd' Hf']
  end.
  intros Hrun. rewrite Hrun in Hd', Hf'. cbn [fst snd] in *.
  split; [exact Hd' | exact (merge_frame_trans _ _ _ Hf Hf')].
Qed.

End FrameFacts.

Module FrameTheorems.
Import PyStr PyDict Loop Scanner Migrator MergeEffects Entry Examples.
Import StrFacts DictFacts ScannerFacts MergeFacts ValidatorMore FrameFacts.

(** X10.  Whatever the set order and however it ends, the merge pass
    returns or raises, keeps the paths, both mappings and the recorded
    errors, only appends to the change log, writes no file but the target
    file, and does not remove the target file. *)
Theorem migrate_sections_touches_only_target set_iter w :
  exists r w',
    migrate_sections set_iter w = (r, w') /\
    r <> Diverge /\
    source_sections (self w') = source_sections (self w) /\
    target_sections (self w') = target_sections (self w) /\
    validation_errors (self w') = validation_errors (self w) /\
    (exists more, migration_changes (self w')
                  = migration_changes (self w) ++ more) /\
    (forall path, path <> build_target_gradle_path (self w) ->
                  fs w' !! path = fs w !! path) /\
    (is_Some (fs w !! build_target_gradle_path (self w)) ->
     is_Some (fs w' !! build_target_gradle_path (self w))).
Proof.
  destruct (migrate_sections set_iter w) as [r w'] eqn:Hrun.
  destruct (migrate_sections_frame set_iter w r w' Hrun) as [Hd Hf].
  destruct Hf as (_ & _ & Hss & Hts & _ & Hc & _ & Hfs & Hex).
  exists r, w'. split; [reflexivity|]. split; [exact Hd|].
  split; [exact Hss|]. split; [exact Hts|]. split.
  - assert (Hstep : forall body : string -> M unit,
               (forall k v, validation_errors (self (snd (body k v)))
                            = validation_errors (self v)) ->
               forall names v, validation_errors (self (snd (for_each names body v)))
                               = validation_errors (self v)).
    { intros body Hb names. induction names as [|k names IH]; intros v;
        [reflexivity|]. cbn [for_each]. unfold mbind, M_bind.
      specialize (Hb k v). destruct (body k v) as [[[]|e|] v1]; cbn [snd] in *;
        [rewrite IH|..]; exact Hb. }
    assert (Hnew : forall k v, validation_errors (self (snd (_migrate_new_section k v)))
                               = validation_errors (self v)).
    { intros k v.
      destruct (get k (source_sections (self v))) as [sec|] eqn:Hsrc;
        [destruct (fs v !! build_target_gradle_path (self v)) as [text|] eqn:Hfs'|].
      - rewrite (migrate_new_section_ok v k sec text Hsrc Hfs'). reflexivity.
      - rewrite (migrate_new_section_nofile v k sec Hsrc Hfs'). reflexivity.
      - rewrite (migrate_new_section_keyerror v k Hsrc). reflexivity. }
    assert (Hold : forall k v, validation_errors (self (snd (_migrate_existing_section k v)))
                               = validation_errors (self v)).
    { intros k v.
      destruct (get k (source_sections (self v))) as [src|] eqn:Hsrc;
        [destruct (get k (target_sections (self v))) as [tgt|] eqn:Htgt;
         [destruct (fs v !! build_target_gradle_path (self v)) as [text|] eqn:Hfs'|]|].
      - rewrite (migrate_existing_section_ok v k src tgt text Hsrc Htgt Hfs').
        destruct (new_content_of src tgt); reflexivity.
      - destruct (migrate_existing_section_raises v k) as [e ->]; [tauto | reflexivity].
      - destruct (migrate_existing_section_raises v k) as [e ->]; [tauto | reflexivity].
      - destruct (migrate_existing_section_raises v k) as [e ->]; [tauto | reflexivity]. }
    revert Hrun. unfold migrate_sections, mbind at 1, M_bind at 1. cbn [get_self].
    unfold mbind at 1, M_bind at 1.
    match goal with |- context [for_each ?l _migrate_new_section w] =>
      pose proof (Hstep _ Hnew l w) as H1;
      destruct (for_each l _migrate_new_section w) as [[[]|e|] w1]
    end; cbn [snd] in H1; try (intros [= <- <-]; exact H1).
    unfold mbind, M_bind. cbn [get_self].
    match goal with |- context [for_each ?l _migrate_existing_section w1] =>
      pose proof (Hstep _ Hold l w1) as H2
    end.
    intros Hrun. rewrite Hrun in H2. cbn [snd] in H2. congruence.
  - split; [exact Hc|]. split; [exact Hfs | exact Hex].
Qed.

End FrameTheorems.

(* ===================================================================== *)
(** * More on the whole run *)
(* ===================================================================== *)

Module RunFacts.
Import PyStr PyDict Loop Scanner Migrator MergeEffects AsSpecified Entry Examples.
Import StrFacts DictFacts ScannerFacts MergeFacts ValidatorMore FrameFacts.
Import RunTheorems ScannerMore.

Lemma run_frame_refl w : run_frame w w.
Proof. repeat split. Qed.

Lemma run_frame_trans w1 w2 w3 :
  run_frame w1 w2 -> run_frame w2 w3 -> run_frame w1 w3.
Proof.
  intros (Hs & Ht & Hfs) (Hs' & Ht' & Hfs'). repeat split; try congruence.
  intros path Hp Hr. rewrite Hfs' by congruence. apply Hfs; assumption.
Qed.

Lemma merge_frame_run_frame w w' : merge_frame w w' -> run_frame w w'.
Proof.
  intros (Hs & Ht & _ & _ & _ & _ & _ & Hfs & _). repeat split; try assumption.
  intros path Hp _. apply Hfs, Hp.
Qed.

Lemma safe_ret {A} (a : A) : safe (mret a).
Proof. intros w. split; [discriminate | apply run_frame_refl]. Qed.

Lemma safe_raise {A} e : safe (@raise A e).
Proof. intros w. split; [discriminate | apply run_frame_refl]. Qed.

Lemma safe_bind {A B} (m : M A) (f : A -> M B) :
  safe m -> (forall a, safe (f a)) -> safe (m ≫= f).
Proof.
  intros Hm Hf w. unfold mbind, M_bind.
  destruct (Hm w) as [Hd Hr]. destruct (m w) as [[a|e|] w1]; cbn [fst snd] in *.
  - destruct (Hf a w1) as [Hd' Hr']. split; [exact Hd'|].
    exact (run_frame_trans _ _ _ Hr Hr').
  - split; [discriminate | exact Hr].
  - contradiction.
Qed.

Lemma safe_try_except {A} (m : M A) h :
  safe m -> (forall e, safe (h e)) -> safe (try_except m h).
Proof.
  intros Hm Hh w. unfold try_except.
  destruct (Hm w) as [Hd Hr]. destruct (m w) as [[a|e|] w1]; cbn [fst snd] in *.
  - split; [discriminate | exact Hr].
  - destruct (Hh e w1) as [Hd' Hr']. split; [exact Hd'|].
    exact (run_frame_trans _ _ _ Hr Hr').
  - contradiction.
Qed.

Lemma safe_get_self : safe get_self.
Proof. intros w. split; [discriminate | apply run_frame_refl]. Qed.

Lemma safe_print line : safe (print line).
Proof. intros w. split; [discriminate | repeat split]. Qed.

Lemma safe_read file_path : safe (read_gradle_file file_path).
Proof.
  intros w. unfold read_gradle_file. destruct (fs w !! file_path);
    (split; [discriminate | apply run_frame_refl]).
Qed.

Lemma safe_identify lines : safe (of_loop (identify_sections lines)).
Proof.
  intros w. destruct (identify_sections_spec lines) as (d & -> & _).
  split; [discriminate | apply run_frame_refl].
Qed.

Lemma safe_modify f :
  (forall m, build_source_gradle_path (f m) = build_source_gradle_path m /\
             build_target_gradle_path (f m) = build_target_gradle_path m) ->
  safe (modify_self f).
Proof.
  intros Hf w. split; [discriminate|]. destruct (Hf (self w)) as [Hs Ht].
  repeat split; assumption.
Qed.

Lemma safe_write_result text : safe (write_text result_path text).
Proof.
  intros w. split; [discriminate|]. repeat split.
  intros path _ Hr. cbn [snd write_text fs]. apply lookup_insert_ne. congruence.
Qed.

Lemma safe_parse : safe parse_gradle_files.
Proof.
  unfold parse_gradle_files. apply safe_try_except.
  - apply safe_bind; [apply safe_get_self | intros me].
    apply safe_bind; [apply safe_read | intros source_lines].
    apply safe_bind; [apply safe_identify | intros d1].
    apply safe_bind; [apply safe_modify; intros m; split; reflexivity | intros _].
    apply safe_bind; [apply safe_read | intros target_lines].
    apply safe_bind; [apply safe_identify | intros d2].
    apply safe_modify. intros m. split; reflexivity.
  - intros [msg|key|msg]; apply safe_raise.
Qed.

Lemma safe_migrate set_iter : safe (migrate_sections set_iter).
Proof.
  intros w. destruct (migrate_sections set_iter w) as [r w'] eqn:Hrun.
  destruct (migrate_sections_frame set_iter w r w' Hrun) as [Hd Hf].
  split; [exact Hd | apply merge_frame_run_frame, Hf].
Qed.

Lemma validate_returns set_iter w :
  exists b w', validate_gradle_structure set_iter w = (Ok b, w') /\
               merge_frame w w'.
Proof.
  pose proof (validate_frame set_iter w) as Hf. revert Hf.
  rewrite validate_outcome.
  destruct (fs w !! build_target_gradle_path (self w)) as [text|];
    [destruct (brace_scan text 0) as [n|]; [destruct (n =? 0)%Z|]|];
    cbn [snd]; intros Hf; eauto.
Qed.

Lemma safe_validate set_iter : safe (validate_gradle_structure set_iter).
Proof.
  intros w. destruct (validate_returns set_iter w) as (b & w' & -> & Hf).
  split; [discriminate | apply merge_frame_run_frame, Hf].
Qed.

Lemma safe_run_body set_iter :
  safe (print "Step 1: Parsing Gradle files...";;
        parse_gradle_files;;
        print "Step 2: Migrating sections...";;
        migrate_sections set_iter;;
        print "Step 3: Validating migrated file...";;
        validation_passed ← validate_gradle_structure set_iter;
        print "Step 4: Generating summary...";;
        summary ← generate_summary;
        print "Step 5: Writing summary to file...";;
        write_text "build_gradle_migration_result.txt" summary;;
        mret summary).
Proof.
  apply safe_bind; [apply safe_print | intros _].
  apply safe_bind; [apply safe_parse | intros _].
  apply safe_bind; [apply safe_print | intros _].
  apply safe_bind; [apply safe_migrate | intros _].
  apply safe_bind; [apply safe_print | intros _].
  apply safe_bind; [apply safe_validate | intros b].
  apply safe_bind; [apply safe_print | intros _].
  apply safe_bind;
    [unfold generate_summary; apply safe_bind;
       [apply safe_get_self | intros me; apply safe_ret] | intros summary].
  apply safe_bind; [apply safe_print | intros _].
  apply safe_bind; [apply (safe_write_result summary) | intros _].
  apply safe_ret.
Qed.

(** The run always returns a string, within [run_frame]. *)
Lemma run_returns set_iter w :
  exists summary w',
    run_migration set_iter w = (Ok summary, w') /\ run_frame w w'.
Proof.
  unfold run_migration, try_except.
  destruct (safe_run_body set_iter w) as [Hd Hr].
  match goal with |- context [match ?m w with _ => _ end] =>
    destruct (m w) as [[summary|e|] w1] end; cbn [fst snd] in *.
  - exists summary, w1. split; [reflexivity | exact Hr].
  - eexists _, w1. split; [reflexivity | exact Hr].
  - contradiction.
Qed.

(** ** The run step by step *)

Lemma bind_ok {A B} (m : M A) (f : A -> M B) w a w1 :
  m w = (Ok a, w1) -> (m ≫= f) w = f a w1.
Proof. intros H. unfold mbind, M_bind. rewrite H. reflexivity. Qed.

Lemma parse_ok w source_text target_text :
  fs w !! build_source_gradle_path (self w) = Some source_text ->
  fs w !! build_target_gradle_path (self w) = Some target_text ->
  exists d1 d2,
    identify_sections (readlines source_text) = Some d1 /\
    identify_sections (readlines target_text) = Some d2 /\
    parse_gradle_files w = (Ok tt, after_parse d1 d2 w).
Proof.
  intros Hsrc Htgt.
  destruct (identify_sections_spec (readlines source_text)) as (d1 & Hd1 & _).
  destruct (identify_sections_spec (readlines target_text)) as (d2 & Hd2 & _).
  exists d1, d2. split; [exact Hd1|]. split; [exact Hd2|].
  unfold parse_gradle_files, try_except, mbind, M_bind, get_self,
    read_gradle_file.
  rewrite Hsrc, Hd1. cbn [of_loop modify_self fs self]. rewrite Htgt, Hd2.
  reflexivity.
Qed.

Lemma set_iter_nil set_iter (s : gset string) :
  set_order set_iter -> (forall k, k ∉ s) -> set_iter s = [].
Proof.
  intros Horder Hnone. destruct (set_iter s) as [|k l] eqn:Hs; [reflexivity|].
  exfalso. apply (Hnone k). apply elem_of_elements. rewrite <- (Horder s), Hs.
  left.
Qed.

Lemma set_iter_elem set_iter (s : gset string) k :
  set_order set_iter -> k ∈ set_iter s <-> k ∈ s.
Proof. intros Horder. rewrite (Horder s). apply elem_of_elements. Qed.

Lemma migrate_sections_ok set_iter w :
  set_order set_iter ->
  is_Some (fs w !! build_target_gradle_path (self w)) ->
  exists w', migrate_sections set_iter w = (Ok tt, w') /\ merge_frame w w'.
Proof.
  intros Horder Hfile.
  set (new := set_iter (key_set (source_sections (self w))
                        ∖ key_set (target_sections (self w)))).
  set (common := set_iter (key_set (source_sections (self w))
                           ∩ key_set (target_sections (self w)))).
  destruct (for_each_new new w)
    as (w1 & adds & Hrun1 & _ & _ & _ & Hs & Ht & Hp & Hf); [|exact Hfile|].
  { intros k [Hk _]%set_iter_elem%elem_of_difference; [|exact Horder].
    apply key_set_get. exact Hk. }
  destruct (for_each_existing common w1)
    as (w2 & updates & Hrun2 & _); [|exact Hf|].
  { intros k [Hk1 Hk2]%set_iter_elem%elem_of_intersection; [|exact Horder].
    rewrite Hs, Ht. split; apply key_set_get; assumption. }
  assert (Hrun : migrate_sections set_iter w = (Ok tt, w2)).
  { unfold migrate_sections, mbind at 1, M_bind at 1. cbn [get_self].
    unfold mbind at 1, M_bind at 1. fold new. rewrite Hrun1.
    unfold mbind, M_bind. cbn [get_self]. rewrite Hs, Ht. exact Hrun2. }
  exists w2. split; [exact Hrun|].
  apply (migrate_sections_frame set_iter w (Ok tt) w2 Hrun).
Qed.

Lemma run_unfold set_iter w source_text target_text :
  fs w !! build_source_gradle_path (self w) = Some source_text ->
  fs w !! build_target_gradle_path (self w) = Some target_text ->
  set_order set_iter ->
  exists d1 d2 w3 b w4,
    identify_sections (readlines source_text) = Some d1 /\
    identify_sections (readlines target_text) = Some d2 /\
    migrate_sections set_iter
      (printed "Step 2: Migrating sections..."
         (after_parse d1 d2 (printed "Step 1: Parsing Gradle files..." w)))
    = (Ok tt, w3) /\
    merge_frame
      (printed "Step 2: Migrating sections..."
         (after_parse d1 d2 (printed "Step 1: Parsing Gradle files..." w))) w3 /\
    validate_gradle_structure set_iter
      (printed "Step 3: Validating migrated file..." w3) = (Ok b, w4) /\
    merge_frame (printed "Step 3: Validating migrated file..." w3) w4 /\
    run_migration set_iter w
    = (Ok (generate_summary_of (self w4)),
       {| self := self w4;
          fs := <[result_path := generate_summary_of (self w4)]> (fs w4);
          stdout := (stdout w4 ++ ["Step 4: Generating summary..."])
                    ++ ["Step 5: Writing summary to file..."] |}).
Proof.
  intros Hsrc Htgt Horder.
  set (w0 := printed "Step 1: Parsing Gradle files..." w).
  destruct (parse_ok w0 source_text target_text Hsrc Htgt)
    as (d1 & d2 & Hd1 & Hd2 & Hparse).
  set (w2 := printed "Step 2: Migrating sections..." (after_parse d1 d2 w0)).
  destruct (migrate_sections_ok set_iter w2 Horder) as (w3 & Hmig & Hf3).
  { cbn [w2 printed after_parse self fs set_target_sections set_source_sections
           build_target_gradle_path w0]. eexists. exact Htgt. }
  destruct (validate_returns set_iter
              (printed "Step 3: Validating migrated file..." w3))
    as (b & w4 & Hval & Hf4).
  exists d1, d2, w3, b, w4.
  split; [exact Hd1|]. split; [exact Hd2|]. split; [exact Hmig|].
  split; [exact Hf3|]. split; [exact Hval|]. split; [exact Hf4|].
  unfold run_migration, try_except.
  rewrite (bind_ok (print _) _ w tt w0 eq_refl).
  rewrite (bind_ok parse_gradle_files _ w0 tt _ Hparse).
  rewrite (bind_ok (print _) _ (after_parse d1 d2 w0) tt w2 eq_refl).
  rewrite (bind_ok (migrate_sections set_iter) _ w2 tt w3 Hmig).
  rewrite (bind_ok (print _) _ w3 tt _ eq_refl).
  rewrite (bind_ok (validate_gradle_structure set_iter) _ _ b w4 Hval).
  reflexivity.
Qed.

Lemma new_content_nil src tgt :
  (forall line, line ∈ extract_content_lines (content src) ->
                line ∈ extract_content_lines (content tgt)) ->
  new_content_of src tgt = [].
Proof.
  intros Hall. unfold new_content_of.
  induction (extract_content_lines (content src)) as [|x l IH];
    [reflexivity|]. cbn [List.filter].
  assert (Hx : in_list x (extract_content_lines (content tgt)) = true)
    by (apply in_list_spec, Hall; left).
  rewrite Hx. cbn [negb]. apply IH. intros line Hin. apply Hall. right.
  exact Hin.
Qed.

Lemma for_each_noop (body : string -> M unit) names w :
  (forall k, k ∈ names -> body k w = (Ok tt, w)) ->
  for_each names body w = (Ok tt, w).
Proof.
  induction names as [|k names IH]; intros Hbody; [reflexivity|].
  cbn [for_each]. rewrite (bind_ok (body k) _ w tt w (Hbody k ltac:(left))).
  apply IH. intros k' Hk'. apply Hbody. right. exact Hk'.
Qed.

Lemma merge_pass_noop set_iter w :
  set_order set_iter ->
  is_Some (fs w !! build_target_gradle_path (self w)) ->
  (forall k src, get k (source_sections (self w)) = Some src ->
     exists tgt, get k (target_sections (self w)) = Some tgt /\
                 forall line, line ∈ extract_content_lines (content src) ->
                              line ∈ extract_content_lines (content tgt)) ->
  migrate_sections set_iter w = (Ok tt, w).
Proof.
  intros Horder [text Hfs] Hall.
  unfold migrate_sections, mbind at 1, M_bind at 1. cbn [get_self].
  rewrite (set_iter_nil set_iter _ Horder).
  2:{ intros k [Hk1 Hk2]%elem_of_difference. apply Hk2.
      apply key_set_get in Hk1 as [src Hsrc].
      destruct (Hall k src Hsrc) as (tgt & Htgt & _).
      apply key_set_get. eexists. exact Htgt. }
  cbn [for_each]. unfold mbind, M_bind. cbn [mret M_ret get_self].
  apply for_each_noop. intros k [Hk _]%set_iter_elem%elem_of_intersection;
    [|exact Horder].
  apply key_set_get in Hk as [src Hsrc].
  destruct (Hall k src Hsrc) as (tgt & Htgt & Hlines).
  rewrite (migrate_existing_section_ok w k src tgt text Hsrc Htgt Hfs),
    (new_content_nil src tgt Hlines).
  reflexivity.
Qed.

End RunFacts.

Module RunMore.
Import PyStr PyDict Loop Scanner Migrator MergeEffects AsSpecified Entry Examples.
Import StrFacts DictFacts ScannerFacts MergeFacts ValidatorMore FrameFacts.
Import RunTheorems ScannerMore RunFacts.

(** X11.  A run never raises and never fails to finish, whatever the files,
    the state of the object and the set order: it returns a string, keeps
    the two paths, and writes no file but the target file and the file of
    the summary. *)
Theorem run_migration_always_returns set_iter w :
  exists summary w',
    run_migration set_iter w = (Ok summary, w') /\
    build_source_gradle_path (self w') = build_source_gradle_path (self w) /\
    build_target_gradle_path (self w') = build_target_gradle_path (self w) /\
    forall path,
      path <> build_target_gradle_path (self w) ->
      path <> "build_gradle_migration_result.txt" ->
      fs w' !! path = fs w !! path.
Proof.
  destruct (run_returns set_iter w) as (summary & w' & Hrun & Hs & Ht & Hfs).
  exists summary, w'. repeat split; assumption.
Qed.

(** X12.  When both files exist and the set order is admissible, the run
    goes through its five steps: the mappings are those of the two files as
    they were at the start, the string returned is the summary of the final
    state of the object, the same string is in the file of the summary, and
    the target file still exists. *)
Theorem run_migration_completes set_iter w source_text target_text :
  fs w !! build_source_gradle_path (self w) = Some source_text ->
  fs w !! build_target_gradle_path (self w) = Some target_text ->
  set_order set_iter ->
  exists w',
    run_migration set_iter w = (Ok (generate_summary_of (self w')), w') /\
    identify_sections (readlines source_text) = Some (source_sections (self w')) /\
    identify_sections (readlines target_text) = Some (target_sections (self w')) /\
    fs w' !! "build_gradle_migration_result.txt"
    = Some (generate_summary_of (self w')) /\
    is_Some (fs w' !! build_target_gradle_path (self w)) /\
    stdout w'
    = stdout w ++ ["Step 1: Parsing Gradle files...";
                   "Step 2: Migrating sections...";
                   "Step 3: Validating migrated file...";
                   "Step 4: Generating summary...";
                   "Step 5: Writing summary to file..."].
Proof.
  intros Hsrc Htgt Horder.
  destruct (run_unfold set_iter w source_text target_text Hsrc Htgt Horder)
    as (d1 & d2 & w3 & b & w4 & Hd1 & Hd2 & _ & Hf3 & _ & Hf4 & Hrun).
  destruct Hf3 as (_ & Ht3 & Hss3 & Hts3 & Ho3 & _ & _ & _ & Hex3).
  destruct Hf4 as (_ & Ht4 & Hss4 & Hts4 & Ho4 & _ & _ & _ & Hex4).
  cbn [printed after_parse self fs stdout] in *.
  change (build_target_gradle_path
            (set_target_sections d2 (set_source_sections d1 (self w))))
    with (build_target_gradle_path (self w)) in *.
  change (source_sections (set_target_sections d2 (set_source_sections d1 (self w))))
    with d1 in *.
  change (target_sections (set_target_sections d2 (set_source_sections d1 (self w))))
    with d2 in *.
  exists {| self := self w4;
            fs := <[result_path := generate_summary_of (self w4)]> (fs w4);
            stdout := (stdout w4 ++ ["Step 4: Generating summary..."])
                      ++ ["Step 5: Writing summary to file..."] |}.
  split; [exact Hrun|]. cbn [self fs stdout].
  split; [rewrite Hss4, Hss3; exact Hd1|].
  split; [rewrite Hts4, Hts3; exact Hd2|].
  split; [apply lookup_insert_eq|]. split.
  - destruct (decide (build_target_gradle_path (self w) = result_path)) as [->|Hne].
    + rewrite lookup_insert_eq. eexists. reflexivity.
    + rewrite lookup_insert_ne by congruence.
      rewrite Ht3 in Hex4. apply Hex4, Hex3. eexists. exact Htgt.
  - rewrite Ho4, Ho3, <- !app_assoc. reflexivity.
Qed.

Lemma run_migration_completes_witness :
  exists w',
    run_migration ascending (start "source.gradle" "target.gradle" files)
    = (Ok (generate_summary_of (self w')), w') /\
    fs w' !! "build_gradle_migration_result.txt"
    = Some (generate_summary_of (self w')).
Proof.
  destruct (run_migration_completes ascending
              (start "source.gradle" "target.gradle" files)
              source_text target_text)
    as (w' & Hrun & _ & _ & Hfile & _).
  - vm_compute. reflexivity.
  - vm_compute. reflexivity.
  - intros s. reflexivity.
  - exists w'. split; assumption.
Defined.

(** X13.  When the source file holds no line that opens a section, a run
    on a fresh object records no change and returns the summary that says
    that no changes were made; the outcome of the validation is not in it.
    The run writes one file only: it puts that summary into the file of the
    summary, and every other text in the file store is as it was. *)
Theorem run_without_source_sections set_iter w source_text target_text :
  fs w !! build_source_gradle_path (self w) = Some source_text ->
  fs w !! build_target_gradle_path (self w) = Some target_text ->
  set_order set_iter ->
  migration_changes (self w) = [] ->
  (forall line, line ∈ readlines source_text ->
                section_match (strip line) = None) ->
  exists w',
    run_migration set_iter w = (Ok no_changes_summary, w') /\
    fs w' = <["build_gradle_migration_result.txt" := no_changes_summary]> (fs w) /\
    migration_changes (self w') = [].
Proof.
  intros Hsrc Htgt Horder Hlog Hnone.
  destruct (run_unfold set_iter w source_text target_text Hsrc Htgt Horder)
    as (d1 & d2 & w3 & b & w4 & Hd1 & _ & Hmig & _ & Hval & _ & Hrun).
  apply no_match_no_sections in Hnone. rewrite Hnone in Hd1.
  injection Hd1 as <-.
  rewrite merge_pass_noop in Hmig;
    [|exact Horder
     |cbn [printed after_parse self fs]; eexists; exact Htgt
     |intros k src Hget; simpl in Hget; discriminate].
  injection Hmig as <-.
  pose proof (validate_keeps set_iter
                (printed "Step 3: Validating migrated file..."
                   (printed "Step 2: Migrating sections..."
                      (after_parse [] d2
                         (printed "Step 1: Parsing Gradle files..." w)))))
    as [Hfs4 Hlog4].
  rewrite Hval in Hfs4, Hlog4. cbn [snd printed after_parse self fs
    set_target_sections set_source_sections migration_changes] in Hfs4, Hlog4.
  rewrite Hlog in Hlog4.
  assert (Hsum : generate_summary_of (self w4) = no_changes_summary)
    by (unfold generate_summary_of; rewrite Hlog4; reflexivity).
  rewrite Hsum in Hrun.
  exists {| self := self w4;
            fs := <[result_path := no_changes_summary]> (fs w4);
            stdout := (stdout w4 ++ ["Step 4: Generating summary..."])
                      ++ ["Step 5: Writing summary to file..."] |}.
  split; [exact Hrun|]. cbn [self fs]. split; [|exact Hlog4].
  rewrite Hfs4. reflexivity.
Qed.

Lemma run_without_source_sections_witness :
  exists w',
    run_migration ascending
      (start "source.gradle" "target.gradle" no_section_files)
    = (Ok no_changes_summary, w') /\
    fs w' = <["build_gradle_migration_result.txt" := no_changes_summary]>
              no_section_files.
Proof.
  destruct (run_without_source_sections ascending
              (start "source.gradle" "target.gradle" no_section_files)
              (text_of ["// build file"; ""; "version = '1.0'"])
              (text_of ["plugins {"; "}"]))
    as (w' & Hrun & Hfile & _).
  - vm_compute. reflexivity.
  - vm_compute. reflexivity.
  - intros s. reflexivity.
  - reflexivity.
  - intros line Hin. vm_compute in Hin.
    repeat (apply elem_of_cons in Hin as [->|Hin]; [vm_compute; reflexivity|]).
    inversion Hin.
  - exists w'. split; assumption.
Defined.

(** X14.  When every section of the source mapping is in the target mapping
    with all its meaningful lines, the merge pass over an existing target
    file changes nothing: no file, no change record, no output. *)
Theorem merge_pass_without_news set_iter w :
  set_order set_iter ->
  is_Some (fs w !! build_target_gradle_path (self w)) ->
  (forall k src, get k (source_sections (self w)) = Some src ->
     exists tgt, get k (target_sections (self w)) = Some tgt /\
                 forall line, line ∈ extract_content_lines (content src) ->
                              line ∈ extract_content_lines (content tgt)) ->
  migrate_sections set_iter w = (Ok tt, w).
Proof. apply merge_pass_noop. Qed.

Lemma merge_pass_without_news_witness :
  migrate_sections ascending same_parsed = (Ok tt, same_parsed).
Proof.
  apply merge_pass_without_news.
  - intros s. reflexivity.
  - vm_compute. eexists. reflexivity.
  - intros k src Hget.
    replace (source_sections (self same_parsed))
      with [("plugins",
             {| name := "plugins";
                content := readlines (text_of ["plugins {"; "    id 'java'"; "}"]);
                start_line := 0; end_line := 2;
                section_type := PLUGINS; indentation := EmptyString |})]
      in Hget by (vm_compute; reflexivity).
    cbn [get] in Hget.
    destruct (String.eqb_spec k "plugins") as [->|]; [|discriminate].
    injection Hget as <-.
    eexists. split; [vm_compute; reflexivity|].
    intros line Hin. vm_compute in Hin. vm_compute.
    apply list_elem_of_singleton in Hin as ->. left.
Defined.

(** X15.  The entry point exits with status 1 after printing the usage line
    when it is not given exactly two arguments, and touches no file then;
    with two arguments it creates the object for the two paths, prints what
    the run returns and exits with status 0, also when the run has failed. *)
Theorem main_exit_status set_iter argv w :
  (length argv <> 3 ->
   main set_iter argv w = (Ok 1, printed usage w)) /\
  (length argv = 3 ->
   exists summary w',
     run_migration set_iter
       {| self := init (nth 1 argv EmptyString) (nth 2 argv EmptyString);
          fs := fs w; stdout := stdout w |} = (Ok summary, w') /\
     main set_iter argv w = (Ok 0, printed summary w')).
Proof.
  unfold main. split; intros Hlen.
  - destruct (Nat.eqb_spec (length argv) 3) as [|_]; [contradiction|].
    reflexivity.
  - rewrite Hlen. cbn [Nat.eqb negb].
    destruct (run_returns set_iter
                {| self := init (nth 1 argv EmptyString) (nth 2 argv EmptyString);
                   fs := fs w; stdout := stdout w |})
      as (summary & w' & Hrun & _).
    exists summary, w'. split; [exact Hrun|].
    unfold try_except.
    rewrite (bind_ok (modify_self _) _ w tt _ eq_refl).
    rewrite (bind_ok (run_migration set_iter) _ _ summary w' Hrun).
    reflexivity.
Qed.

Lemma main_exit_status_witness :
  main ascending ["build_gradle_migrator.py"; "source.gradle"]
    (start EmptyString EmptyString files)
  = (Ok 1, printed usage (start EmptyString EmptyString files)).
Proof.
  apply (main_exit_status ascending
           ["build_gradle_migrator.py"; "source.gradle"]
           (start EmptyString EmptyString files)).
  cbn [length]. lia.
Defined.

End RunMore.

(* ===================================================================== *)
(** * More on the merge steps, the parse and the classification *)
(* ===================================================================== *)

Module MergeMore.
Import PyStr PyDict Loop Scanner Migrator MergeEffects AsSpecified Entry Examples.
Import StrFacts DictFacts ScannerFacts MeaningfulTheorems MergeFacts RunFacts.

Lemma new_content_origin src tgt d :
  d ∈ new_content_of src tgt <->
  d ∈ extract_content_lines (content src) /\
  d ∉ extract_content_lines (content tgt).
Proof.
  unfold new_content_of. rewrite list_elem_of_In, filter_In, <- list_elem_of_In.
  rewrite negb_true_iff, <- not_true_iff_false, in_list_spec. reflexivity.
Qed.

(** The test in the loop that builds the new lines never fails: a
    meaningful line is not empty and is no comment. *)
Lemma new_content_guard src tgt d :
  d ∈ new_content_of src tgt ->
  truthy d && negb (startswith d "//") = true.
Proof.
  intros [Hd _]%new_content_origin.
  rewrite extract_content_lines_filter in Hd.
  apply list_elem_of_In, in_map_iff in Hd as (line & <- & Hline).
  apply filter_In in Hline as [_ Hm]. unfold meaningful, keeps in Hm.
  rewrite !andb_true_iff in Hm. rewrite andb_true_iff. tauto.
Qed.

Lemma flat_map_guarded {A} (guard : A -> bool) (f : A -> list string) l :
  (forall d, d ∈ l -> guard d = true) ->
  flat_map (fun d => if guard d then f d else []) l = flat_map f l.
Proof.
  induction l as [|d l IH]; intros Hg; [reflexivity|]. cbn [flat_map].
  rewrite (Hg d) by left. f_equal. apply IH. intros d' Hd'. apply Hg.
  right. exact Hd'.
Qed.

(** X16.  When the source section has meaningful lines that the target
    section lacks, the common-section step appends one Update change whose
    details are those lines, each as often and in the order in which the
    source section has it.  It writes back the lines of the target file
    with the marker comment put in at the recorded start line, and with one
    marker and one line indented by four spaces for every detail put in
    behind the first line, from the recorded start line on, that holds an
    opening brace; when no such line is left they come directly behind the
    marker comment.  Every line read from the file is written back, in its
    place among the others. *)
Theorem existing_section_updated w key src tgt text :
  get key (source_sections (self w)) = Some src ->
  get key (target_sections (self w)) = Some tgt ->
  fs w !! build_target_gradle_path (self w) = Some text ->
  (exists d, d ∈ extract_content_lines (content src) /\
             d ∉ extract_content_lines (content tgt)) ->
  let lines := readlines text in
  let s := start_line tgt in
  exists w' change k,
    _migrate_existing_section key w = (Ok tt, w') /\
    migration_changes (self w') = migration_changes (self w) ++ [change] /\
    section_name change = key /\ change_type change = "UPDATE" /\
    details change
    = List.filter
        (fun line => negb (in_list line (extract_content_lines (content tgt))))
        (extract_content_lines (content src)) /\
    ((k = 0 /\
      forall i, s <= i < length lines ->
                contains "{" (line_at lines i) = false) \/
     (0 < k /\ s + k <= length lines /\
      contains "{" (line_at lines (s + k - 1)) = true /\
      forall i, s <= i < s + k - 1 ->
                contains "{" (line_at lines i) = false)) /\
    fs w'
    = <[build_target_gradle_path (self w)
        := writelines
             (take s lines ++ [updated_marker] ++ take k (drop s lines)
              ++ flat_map (fun d => [line_marker; "    " +:+ d +:+ nl])
                   (details change)
              ++ drop (s + k) lines)]> (fs w).
Proof.
  intros Hsrc Htgt Hfs (d0 & Hd0) lines s.
  apply new_content_origin in Hd0.
  rewrite (migrate_existing_section_ok w key src tgt text Hsrc Htgt Hfs).
  destruct (new_content_of src tgt) as [|x l] eqn:Hnc; [inversion Hd0|].
  rewrite <- Hnc in *. clear x l Hnc Hd0.
  pose proof (updated_section_lines_shape src tgt lines) as Hwritten.
  cbv zeta in Hwritten. fold s in Hwritten.
  rewrite (flat_map_guarded _ (fun d => [line_marker; "    " +:+ d +:+ nl]))
    in Hwritten by (intros d Hd; apply (new_content_guard src tgt d Hd)).
  destruct Hwritten as (k & Hk & Hwritten).
  eexists. exists (update_change key src tgt), k.
  split; [reflexivity|]. split; [reflexivity|].
  split; [reflexivity|]. split; [reflexivity|].
  split; [reflexivity|]. split; [exact Hk|].
  cbn [fs details update_change]. rewrite <- Hwritten. reflexivity.
Qed.

Lemma existing_section_updated_witness :
  exists w',
    _migrate_existing_section "plugins" common_parsed = (Ok tt, w') /\
    map details (migration_changes (self w')) = [["id 'java'"]] /\
    fs w' !! "target.gradle"
    = Some (text_of ["// Section updated in migration from source to target";
                     "plugins {";
                     "    // Added as part of migration from source to target";
                     "    id 'java'";
                     "}"; "dependencies {"; "}"]).
Proof.
  destruct (existing_section_updated common_parsed "plugins"
              {| name := "plugins";
                 content := readlines (text_of ["plugins {"; "    id 'java'"; "}"]);
                 start_line := 0; end_line := 2;
                 section_type := PLUGINS; indentation := EmptyString |}
              {| name := "plugins";
                 content := readlines (text_of ["plugins {"; "}"]);
                 start_line := 0; end_line := 1;
                 section_type := PLUGINS; indentation := EmptyString |}
              (text_of ["plugins {"; "}"; "dependencies {"; "}"]))
    as (w' & change & k & Hrun & Hlog & _ & _ & Hdetails & Hk & Hfs).
  - vm_compute. reflexivity.
  - vm_compute. reflexivity.
  - vm_compute. reflexivity.
  - exists "id 'java'". split; [vm_compute; left|].
    intros Hin. vm_compute in Hin. inversion Hin.
  - exists w'. split; [exact Hrun|].
    assert (Hd : details change = ["id 'java'"])
      by (rewrite Hdetails; vm_compute; reflexivity).
    split; [rewrite Hlog, map_app; cbn [map]; rewrite Hd; reflexivity|].
    assert (Hk1 : k = 1).
    { destruct Hk as [[_ Hall]|(Hpos & _ & _ & Hall)].
      - specialize (Hall 0 ltac:(vm_compute; lia)).
        vm_compute in Hall. discriminate.
      - destruct (decide (k = 1)) as [|Hne]; [assumption|].
        specialize (Hall 0 ltac:(cbn; lia)).
        vm_compute in Hall. discriminate. }
    rewrite Hfs, Hd, Hk1, lookup_insert_eq. vm_compute. reflexivity.
Defined.

(** X17.  The initial parse has three outcomes.  Without the source file it
    raises a file-not-found error for the source path and changes nothing.
    With the source file but without the target file it raises the error
    for the target path, and the source mapping of the object has already
    been replaced by the sections of the source file.  With both files it
    returns, both mappings are the sections of the two files, and nothing
    else has changed. *)
Theorem parse_gradle_files_outcomes w :
  (fs w !! build_source_gradle_path (self w) = None ->
   parse_gradle_files w
   = (Raise (FileNotFoundError
               ("Error reading Gradle file: File not found: "
                +:+ build_source_gradle_path (self w))), w)) /\
  (forall source_text,
     fs w !! build_source_gradle_path (self w) = Some source_text ->
     fs w !! build_target_gradle_path (self w) = None ->
     exists d1,
       identify_sections (readlines source_text) = Some d1 /\
       parse_gradle_files w
       = (Raise (FileNotFoundError
                   ("Error reading Gradle file: File not found: "
                    +:+ build_target_gradle_path (self w))),
          {| self := set_source_sections d1 (self w);
             fs := fs w; stdout := stdout w |})) /\
  (forall source_text target_text,
     fs w !! build_source_gradle_path (self w) = Some source_text ->
     fs w !! build_target_gradle_path (self w) = Some target_text ->
     exists d1 d2,
       identify_sections (readlines source_text) = Some d1 /\
       identify_sections (readlines target_text) = Some d2 /\
       parse_gradle_files w = (Ok tt, after_parse d1 d2 w)).
Proof.
  split; [|split].
  - intros Hsrc.
    unfold parse_gradle_files, try_except, mbind, M_bind, get_self,
      read_gradle_file.
    rewrite Hsrc. reflexivity.
  - intros source_text Hsrc Htgt.
    destruct (identify_sections_spec (readlines source_text)) as (d1 & Hd1 & _).
    exists d1. split; [exact Hd1|].
    unfold parse_gradle_files, try_except, mbind, M_bind, get_self,
      read_gradle_file.
    rewrite Hsrc, Hd1. cbn [of_loop modify_self fs self]. rewrite Htgt.
    reflexivity.
  - intros source_text target_text. apply parse_ok.
Qed.

Lemma parse_gradle_files_outcomes_witness :
  exists d1,
    identify_sections (readlines source_text) = Some d1 /\
    fst (parse_gradle_files
           (start "source.gradle" "target.gradle"
              {[ "source.gradle" := source_text ]}))
    = Raise (FileNotFoundError
               "Error reading Gradle file: File not found: target.gradle").
Proof.
  destruct (parse_gradle_files_outcomes
              (start "source.gradle" "target.gradle"
                 {[ "source.gradle" := source_text ]})) as (_ & H & _).
  destruct (H source_text) as (d1 & Hd1 & Hparse);
    [vm_compute; reflexivity | vm_compute; reflexivity |].
  exists d1. split; [exact Hd1|]. rewrite Hparse. reflexivity.
Defined.

Lemma lower_char_idem c : lower_char (lower_char c) = lower_char c.
Proof. destruct c as [[] [] [] [] [] [] [] []]; reflexivity. Qed.

Lemma lower_idem s : lower (lower s) = lower s.
Proof.
  induction s as [|c s IH]; [reflexivity|]. cbn [lower].
  rewrite lower_char_idem, IH. reflexivity.
Qed.

(** X18.  The classification of a section name does not depend on the case
    of its letters: a name and its lower-cased form get the same type, and
    so do any two names with the same lower-cased form. *)
Theorem section_type_ignores_case a b :
  _determine_section_type (lower a) = _determine_section_type a /\
  (lower a = lower b ->
   _determine_section_type a = _determine_section_type b).
Proof.
  unfold _determine_section_type. cbv zeta. rewrite lower_idem.
  split; [reflexivity|]. intros ->. reflexivity.
Qed.

Lemma section_type_ignores_case_witness :
  _determine_section_type "Plugins" = _determine_section_type "PLUGINS".
Proof.
  apply (section_type_ignores_case "Plugins" "PLUGINS"). reflexivity.
Defined.

End MergeMore.
